(** * Synchronisation pipeline of the LeetCode/GitHub tracker backend

    A shallow embedding of [src/functions/update_data.py]: the metric
    deriver [compute_stats] with its nested helpers, and the pieces of
    [update_all_students] (work preparation, per-identity fetch, staleness
    decision, chunking, micro-batch writes with retries), followed by the
    properties established about them.

    Conventions of the embedding.
    - A provider payload is a [pyval]: the values [json] decoding yields,
      fractional numbers left out.  Dictionaries are association lists in
      insertion order with distinct keys; text is ASCII, shorter than the
      interpreter's limit on integer literals.
    - A Python call that may raise returns a [res]; [try/except Exception]
      is a [match] on it.
    - A [datetime.date] is its proleptic Gregorian ordinal (as
      [date.toordinal] numbers them: 0001-01-01 is 1, 9999-12-31 is
      3652059).  The clock ([datetime.now]) is a parameter [today]: one run
      reads it on one UTC day.
    - [json.loads] and [datetime.fromisoformat] are parameters ([pylib]);
      the providers and the storage engine are oracles.  [base_sleep] is a
      float: of a sleep the model keeps the integer factor
      [2 ** (attempt - 1)].
    - The modules around the pipeline follow it: [functions/clients.py]
      over an oracle for the HTTP session, [database/connection.py],
      [functions/notification.py], [functions/students.py] and
      [functions/data_fetch.py] over tables held as lists of rows, and the
      endpoints of [app.py] that call them.  There a statement does to the
      rows what its SQL says, raising when a primary key or a column type
      is violated; a failure of the connection is not modelled. *)

From stdpp Require Import gmap strings list.
From Equations Require Import Equations.
From Stdlib Require Import ZArith Ascii Lia Permutation DecimalString.

#[local] Open Scope string_scope.
#[local] Open Scope list_scope.
#[local] Open Scope Z_scope.
#[local] Set Warnings "-register-all".

(** ** Python values, exceptions and the builtins the source calls *)

Module Py.

(** An exception: [type(e).__name__] and [str(e)].  The text of an
    exception raised by the interpreter itself is CPython's wording; no
    statement below depends on it. *)
Record exn : Type := Exn { exn_type : string; exn_text : string }.

Inductive res (A : Type) : Type :=
| Ok (a : A)
| Raise (e : exn).
Arguments Ok {A} a.
Arguments Raise {A} e.

#[global] Instance res_ret : MRet res := fun _ a => Ok a.
#[global] Instance res_bind : MBind res := fun _ _ f r =>
  match r with
  | Ok a => f a
  | Raise e => Raise e
  end.

#[global] Instance res_fmap : FMap res := fun _ _ f r =>
  match r with
  | Ok a => Ok (f a)
  | Raise e => Raise e
  end.

(** [try: r  except Exception: h] *)
Definition try_except {A} (r : res A) (h : A) : A :=
  match r with Ok a => a | Raise _ => h end.

Inductive pyval : Type :=
| PNone
| PBool (b : bool)
| PInt (z : Z)
| PStr (s : string)
| PList (l : list pyval)
| PDict (d : list (string * pyval)).

Definition pydict : Type := list (string * pyval).

Definition type_name (v : pyval) : string :=
  match v with
  | PNone => "NoneType"
  | PBool _ => "bool"
  | PInt _ => "int"
  | PStr _ => "str"
  | PList _ => "list"
  | PDict _ => "dict"
  end.

Definition TypeError (msg : string) : exn := Exn "TypeError" msg.
Definition ValueError (msg : string) : exn := Exn "ValueError" msg.
Definition AttributeError (v : pyval) (attr : string) : exn :=
  Exn "AttributeError"
      ("'" +:+ type_name v +:+ "' object has no attribute '" +:+ attr +:+ "'").

(** Truth value of an object, as [if v], [not v], [v or w] test it. *)
Definition truthy (v : pyval) : bool :=
  match v with
  | PNone => false
  | PBool b => b
  | PInt z => negb (z =? 0)
  | PStr s => negb (String.eqb s "")
  | PList l => match l with [] => false | _ => true end
  | PDict d => match d with [] => false | _ => true end
  end.

(** [v or w] *)
Definition por (v w : pyval) : pyval := if truthy v then v else w.

(** [d.get(k)] and [d.get(k, dflt)] on a dictionary. *)
Fixpoint dict_lookup (d : pydict) (k : string) : option pyval :=
  match d with
  | [] => None
  | (k', v) :: d' => if String.eqb k' k then Some v else dict_lookup d' k
  end.

Definition dict_get (d : pydict) (k : string) : pyval :=
  default PNone (dict_lookup d k).

Definition dict_get_or (d : pydict) (k : string) (dflt : pyval) : pyval :=
  default dflt (dict_lookup d k).

(** [v.get(k)] on an arbitrary object: only a dictionary has the method. *)
Definition attr_get (v : pyval) (k : string) : res pyval :=
  match v with
  | PDict d => Ok (dict_get d k)
  | _ => Raise (AttributeError v "get")
  end.

Definition attr_get_or (v : pyval) (k : string) (dflt : pyval) : res pyval :=
  match v with
  | PDict d => Ok (dict_get_or d k dflt)
  | _ => Raise (AttributeError v "get")
  end.

(** [d[k] = v]: a present key keeps its place, a new one goes last. *)
Fixpoint dict_set {V} (d : list (string * V)) (k : string) (v : V) : list (string * V) :=
  match d with
  | [] => [(k, v)]
  | (k', v') :: d' =>
      if String.eqb k' k then (k, v) :: d' else (k', v') :: dict_set d' k v
  end.

(** [len(v)] *)
Definition py_len (v : pyval) : res Z :=
  match v with
  | PStr s => Ok (Z.of_nat (String.length s))
  | PList l => Ok (Z.of_nat (length l))
  | PDict d => Ok (Z.of_nat (length d))
  | _ => Raise (TypeError ("object of type '" +:+ type_name v +:+ "' has no len()"))
  end.

(** [for x in v]: the elements of a list, the keys of a dictionary, the
    characters of a string. *)
Fixpoint chars (s : string) : list string :=
  match s with
  | String c s' => String c EmptyString :: chars s'
  | EmptyString => []
  end.

Definition py_iter (v : pyval) : res (list pyval) :=
  match v with
  | PList l => Ok l
  | PDict d => Ok (map (fun kv => PStr (fst kv)) d)
  | PStr s => Ok (map PStr (chars s))
  | _ => Raise (TypeError ("'" +:+ type_name v +:+ "' object is not iterable"))
  end.

(** [v[0]] *)
Definition py_item0 (v : pyval) : res pyval :=
  match v with
  | PList (x :: _) => Ok x
  | PList [] => Raise (Exn "IndexError" "list index out of range")
  | PStr (String c _) => Ok (PStr (String c EmptyString))
  | PStr EmptyString => Raise (Exn "IndexError" "string index out of range")
  | PDict _ => Raise (Exn "KeyError" "0")
  | _ => Raise (TypeError ("'" +:+ type_name v +:+ "' object is not subscriptable"))
  end.

(** *** Text *)

Definition is_digit (c : ascii) : bool :=
  let n := nat_of_ascii c in (48 <=? n)%nat && (n <=? 57)%nat.

Definition digit_val (c : ascii) : Z := Z.of_nat (nat_of_ascii c) - 48.

(** [str.isspace] on one ASCII character: TAB, LF, VT, FF, CR, the four
    separators 0x1c..0x1f and the space. *)
Definition is_space (c : ascii) : bool :=
  let n := nat_of_ascii c in
  ((9 <=? n)%nat && (n <=? 13)%nat) || ((28 <=? n)%nat && (n <=? 32)%nat).

Fixpoint lstrip (s : string) : string :=
  match s with
  | String c s' => if is_space c then lstrip s' else s
  | EmptyString => EmptyString
  end.

Fixpoint rstrip (s : string) : string :=
  match s with
  | String c s' =>
      match rstrip s' with
      | EmptyString => if is_space c then EmptyString else String c EmptyString
      | r => String c r
      end
  | EmptyString => EmptyString
  end.

(** [s.strip()] *)
Definition strip (s : string) : string := rstrip (lstrip s).

Fixpoint all_digits (s : string) : bool :=
  match s with
  | String c s' => is_digit c && all_digits s'
  | EmptyString => true
  end.

(** [s.isdigit()] *)
Definition isdigit (s : string) : bool :=
  negb (String.eqb s "") && all_digits s.

Fixpoint digits_value (acc : Z) (s : string) : Z :=
  match s with
  | String c s' => digits_value (10 * acc + digit_val c) s'
  | EmptyString => acc
  end.

(** [int(s)] for a string that passed [isdigit]. *)
Definition int_of_digits (s : string) : Z := digits_value 0 s.

Definition lower_char (c : ascii) : ascii :=
  let n := nat_of_ascii c in
  if (65 <=? n)%nat && (n <=? 90)%nat then ascii_of_nat (n + 32) else c.

(** [s.lower()] *)
Fixpoint lower (s : string) : string :=
  match s with
  | String c s' => String (lower_char c) (lower s')
  | EmptyString => EmptyString
  end.

(** [sep.join(l)] *)
Fixpoint join (sep : string) (l : list string) : string :=
  match l with
  | [] => ""
  | [x] => x
  | x :: l' => x +:+ sep +:+ join sep l'
  end.

(** [str(z)] for an integer. *)
Definition str_of_Z (z : Z) : string := NilZero.string_of_int (Z.to_int z).

(** [int(s)] on arbitrary text: surrounding blanks, an optional sign, then
    decimal digits that single underscores may separate. *)
Fixpoint int_body (acc : Z) (after_digit : bool) (s : string) : option Z :=
  match s with
  | EmptyString => if after_digit then Some acc else None
  | String c s' =>
      if is_digit c then int_body (10 * acc + digit_val c) true s'
      else if Ascii.eqb c "_" && after_digit then int_body acc false s'
      else None
  end.

Definition parse_int (s : string) : option Z :=
  match strip s with
  | String "+" r => int_body 0 false r
  | String "-" r => Z.opp <$> int_body 0 false r
  | t => int_body 0 false t
  end.

(** [int(v)] *)
Definition py_int (v : pyval) : res Z :=
  match v with
  | PInt z => Ok z
  | PBool b => Ok (if b then 1 else 0)
  | PStr s =>
      match parse_int s with
      | Some z => Ok z
      | None => Raise (ValueError "invalid literal for int() with base 10")
      end
  | _ =>
      Raise (TypeError
        ("int() argument must be a string, a bytes-like object or a real number, not '"
         +:+ type_name v +:+ "'"))
  end.

(** [repr] of text: single quotes unless the text holds a single quote and
    no double quote; backslash, the chosen quote and control characters
    escaped. *)
Definition dquote : ascii := ascii_of_nat 34.
Definition squote : ascii := ascii_of_nat 39.
Definition backslash : ascii := ascii_of_nat 92.

Fixpoint has_char (c : ascii) (s : string) : bool :=
  match s with
  | String c' s' => Ascii.eqb c c' || has_char c s'
  | EmptyString => false
  end.

Definition hex_digit (n : nat) : ascii :=
  if (n <? 10)%nat then ascii_of_nat (48 + n) else ascii_of_nat (87 + n).

Definition repr_char (q c : ascii) : string :=
  let n := nat_of_ascii c in
  if Ascii.eqb c backslash then String backslash (String backslash "")
  else if Ascii.eqb c q then String backslash (String c "")
  else if (n =? 9)%nat then String backslash "t"
  else if (n =? 10)%nat then String backslash "n"
  else if (n =? 13)%nat then String backslash "r"
  else if (n <? 32)%nat || (127 <=? n)%nat then
    String backslash (String "x" (String (hex_digit (n / 16)) (String (hex_digit (n mod 16)) "")))
  else String c "".

Fixpoint repr_chars (q : ascii) (s : string) : string :=
  match s with
  | String c s' => repr_char q c +:+ repr_chars q s'
  | EmptyString => ""
  end.

Definition repr_str (s : string) : string :=
  let q := if has_char squote s && negb (has_char dquote s) then dquote else squote in
  String q (repr_chars q s +:+ String q "").

(** [repr(v)] and [str(v)] *)
Fixpoint py_repr (v : pyval) : string :=
  match v with
  | PNone => "None"
  | PBool b => if b then "True" else "False"
  | PInt z => str_of_Z z
  | PStr s => repr_str s
  | PList l => "[" +:+ join ", " (map py_repr l) +:+ "]"
  | PDict d =>
      "{" +:+ join ", " (map (fun kv => repr_str (fst kv) +:+ ": " +:+ py_repr (snd kv)) d)
      +:+ "}"
  end.

Definition py_str (v : pyval) : string :=
  match v with
  | PStr s => s
  | _ => py_repr v
  end.

End Py.

(** ** The calendar: [datetime.date], [fromtimestamp], [strftime], [strptime] *)

Module Cal.
Import Py.

Definition MINORD : Z := 1.
Definition MAXORD : Z := 3652059.
(** Ordinal of 1970-01-01. *)
Definition EPOCH : Z := 719163.

(** Days before January 1st of year [y]. *)
Definition days_before_year (y : Z) : Z :=
  let p := y - 1 in 365 * p + p / 4 - p / 100 + p / 400.

Definition is_leap (y : Z) : bool :=
  (y mod 4 =? 0) && (negb (y mod 100 =? 0) || (y mod 400 =? 0)).

Definition days_in_month (y m : Z) : Z :=
  if m =? 2 then (if is_leap y then 29 else 28)
  else if (m =? 4) || (m =? 6) || (m =? 9) || (m =? 11) then 30
  else 31.

(** Days of year [y] before the first of month [m]. *)
Definition days_before_month (y m : Z) : Z :=
  nth (Z.to_nat (m - 1)) [0; 31; 59; 90; 120; 151; 181; 212; 243; 273; 304; 334] 0
  + (if (2 <? m) && is_leap y then 1 else 0).

Definition valid_date (y m d : Z) : bool :=
  (1 <=? y) && (y <=? 9999) && (1 <=? m) && (m <=? 12)
  && (1 <=? d) && (d <=? days_in_month y m).

Definition ymd2ord (y m d : Z) : Z :=
  days_before_year y + days_before_month y m + d.

(** The year an ordinal falls in: an estimate from the mean year length,
    corrected by at most one. *)
Definition year_of_ordinal (n : Z) : Z :=
  let y := (n - 1) * 400 / 146097 + 1 in
  if n <=? days_before_year y then y - 1
  else if days_before_year (y + 1) <? n then y + 1
  else y.

Definition month_of_day_of_year (y doy : Z) : Z :=
  let after m := days_before_month y m <? doy in
  if after 12 then 12 else if after 11 then 11 else if after 10 then 10
  else if after 9 then 9 else if after 8 then 8 else if after 7 then 7
  else if after 6 then 6 else if after 5 then 5 else if after 4 then 4
  else if after 3 then 3 else if after 2 then 2 else 1.

Definition ord2ymd (n : Z) : Z * Z * Z :=
  let y := year_of_ordinal n in
  let doy := n - days_before_year y in
  let m := month_of_day_of_year y doy in
  (y, m, doy - days_before_month y m).

(** [datetime.fromtimestamp(ts, tz=timezone.utc).date()]: the UTC day the
    second [ts] falls in; a result outside years 1..9999 raises. *)
Definition fromtimestamp_date (ts : Z) : res Z :=
  let n := EPOCH + ts / 86400 in
  if (MINORD <=? n) && (n <=? MAXORD) then Ok n
  else Raise (ValueError "year is out of range").

(** [d + timedelta(days=k)]; [d - one] is [date_add d (-1)]. *)
Definition date_add (d k : Z) : res Z :=
  let n := d + k in
  if (MINORD <=? n) && (n <=? MAXORD) then Ok n
  else Raise (Exn "OverflowError" "date value out of range").

Definition digit_char (k : Z) : ascii := ascii_of_nat (48 + Z.to_nat k).

Definition fmt2 (k : Z) (rest : string) : string :=
  String (digit_char (k / 10)) (String (digit_char (k mod 10)) rest).

Definition fmt4 (k : Z) (rest : string) : string :=
  String (digit_char (k / 1000)) (String (digit_char (k / 100 mod 10))
    (String (digit_char (k / 10 mod 10)) (String (digit_char (k mod 10)) rest))).

(** [d.isoformat()], which for the years from 1000 on is also
    [d.strftime('%Y-%m-%d')]: zero-padded YYYY-MM-DD. *)
Definition isoformat (n : Z) : string :=
  let '(y, m, d) := ord2ymd n in
  fmt4 y (String "-" (fmt2 m (String "-" (fmt2 d "")))).

(** [datetime.strptime(s, "%Y-%m-%d").date()], [None] standing for the
    [ValueError].  The directives are the regular expressions of
    [_strptime]: %Y is [\d\d\d\d], %m is [1[0-2]|0[1-9]|[1-9]], %d is
    [3[01]|[12]\d|0[1-9]|[1-9]| [1-9]], alternatives tried in this order;
    the whole text must be consumed and the date must exist. *)
Definition parse_Y (s : string) : option (Z * string) :=
  match s with
  | String a (String b (String c (String d r))) =>
      if is_digit a && is_digit b && is_digit c && is_digit d
      then Some (1000 * digit_val a + 100 * digit_val b + 10 * digit_val c + digit_val d, r)
      else None
  | _ => None
  end.

Definition nonzero_digit (c : ascii) : bool := is_digit c && (1 <=? digit_val c).

Definition parse_m (s : string) : option (Z * string) :=
  match s with
  | String a r =>
      let one := if nonzero_digit a then Some (digit_val a, r) else None in
      match r with
      | String b r' =>
          if Ascii.eqb a "1" && is_digit b && (digit_val b <=? 2) then Some (10 + digit_val b, r')
          else if Ascii.eqb a "0" && nonzero_digit b then Some (digit_val b, r')
          else one
      | EmptyString => one
      end
  | EmptyString => None
  end.

Definition parse_d (s : string) : option (Z * string) :=
  match s with
  | String a r =>
      let one := if nonzero_digit a then Some (digit_val a, r) else None in
      match r with
      | String b r' =>
          if Ascii.eqb a "3" && is_digit b && (digit_val b <=? 1) then Some (30 + digit_val b, r')
          else if (Ascii.eqb a "1" || Ascii.eqb a "2") && is_digit b
               then Some (10 * digit_val a + digit_val b, r')
          else if Ascii.eqb a "0" && nonzero_digit b then Some (digit_val b, r')
          else if nonzero_digit a then Some (digit_val a, r)
          else if Ascii.eqb a " " && nonzero_digit b then Some (digit_val b, r')
          else None
      | EmptyString => one
      end
  | EmptyString => None
  end.

Definition strptime_ymd (s : string) : option Z :=
  match parse_Y s with
  | Some (y, String "-" r1) =>
      match parse_m r1 with
      | Some (m, String "-" r2) =>
          match parse_d r2 with
          | Some (d, EmptyString) =>
              if valid_date y m d then Some (ymd2ord y m d) else None
          | _ => None
          end
      | _ => None
      end
  | _ => None
  end.

End Cal.
(** ** The metric deriver: [compute_stats] *)

Module Deriver.
Import Py Cal.

(** [for x in l: s = f(s, x)], the first exception ending the loop. *)
Fixpoint for_each {A S : Type} (f : S -> A -> res S) (l : list A) (s : S) : res S :=
  match l with
  | [] => Ok s
  | x :: l' => s' ← f s x; for_each f l' s'
  end.

Definition _safe_int (v : pyval) : option Z :=
  match v with
  | PNone => None
  | _ => try_except (Some <$> py_int v) None
  end.

Definition _join_list (vals : list string) : option string :=
  match vals with
  | [] => None
  | _ => Some (join "," vals)
  end.

(** The record [compute_stats] returns, one field per key, [None] for
    Python's [None]. *)
Record stats : Type := Stats {
  git_followers : option Z;
  git_following : option Z;
  git_public_repo : option Z;
  git_original_repo : option Z;
  git_authored_repo : option Z;
  last_commit_date : option string;
  git_badges : option string;
  lc_total_solved : option Z;
  lc_easy : option Z;
  lc_medium : option Z;
  lc_hard : option Z;
  lc_ranking : option Z;
  lc_lastsubmission : option string;
  lc_lastacceptedsubmission : option string;
  lc_cur_streak : option Z;
  lc_max_streak : option Z;
  lc_badges : option string;
  lc_language : option string;
  lc_submission_history : option string;
  gh_contribution_history : option string
}.

(** [s.replace('Z', '+00:00')] *)
Fixpoint replace_Z (s : string) : string :=
  match s with
  | String c s' => (if Ascii.eqb c "Z" then "+00:00" else String c "") +:+ replace_Z s'
  | EmptyString => ""
  end.

Definition char_is (i : nat) (c : ascii) (s : string) : bool :=
  match String.get i s with
  | Some c' => Ascii.eqb c' c
  | None => false
  end.

(** [_to_date_from_ts] *)
Definition _to_date_from_ts (ts : pyval) : option string :=
  match ts with
  | PNone => None
  | _ =>
      let s := strip (py_str ts) in
      if String.eqb s "" then None
      else if negb (isdigit s) then None
      else try_except (d ← fromtimestamp_date (int_of_digits s); mret (Some (isoformat d))) None
  end.

(** The days of [_calc_streaks]: one loop body per calendar entry. *)
Definition add_day (days : gset Z) (kv : string * pyval) : res (gset Z) :=
  let '(k, v) := kv in
  match v with
  | PNone => Ok days
  | _ =>
      let s := strip k in
      if negb (isdigit s) then Ok days
      else
        let ts := int_of_digits s in
        if ts <=? 0 then Ok days
        else d ← fromtimestamp_date ts; mret ({[ d ]} ∪ days)
  end.

(** [min(days)], [max(days)] *)
Definition py_min (days : gset Z) : res Z :=
  match elements days with
  | [] => Raise (ValueError "min() arg is an empty sequence")
  | x :: xs => Ok (foldr Z.min x xs)
  end.

Definition py_max (days : gset Z) : res Z :=
  match elements days with
  | [] => Raise (ValueError "max() arg is an empty sequence")
  | x :: xs => Ok (foldr Z.max x xs)
  end.

(** The forward scan [while d <= end], [n] being the days left up to
    [end]; the result is [max_streak]. *)
Fixpoint scan (days : gset Z) (n : nat) (d cur_streak max_streak : Z) : res Z :=
  match n with
  | O => Ok max_streak
  | S n' =>
      let cur_streak' := if decide (d ∈ days) then cur_streak + 1 else 0 in
      let max_streak' :=
        if decide (d ∈ days) then Z.max max_streak cur_streak' else max_streak in
      d' ← date_add d 1; scan days n' d' cur_streak' max_streak'
  end.

Definition days_upto (d : Z) (days : gset Z) : gset Z := filter (λ x, x ≤ d) days.

(** The backward walk [while d in days: cur += 1; d = d - one].  Each turn
    leaves one day fewer of the set at or before [d]. *)
Equations walk_back (days : gset Z) (d cur : Z) : res Z
  by wf (size (days_upto d days)) lt :=
walk_back days d cur with decide (d ∈ days) := {
  | left _ =>
      match date_add d (-1) with
      | Ok _ => walk_back days (d - 1) (cur + 1)
      | Raise e => Raise e
      end
  | right _ => Ok cur }.
Next Obligation.
  apply subset_size, strict_spec_alt. unfold days_upto. split.
  - intros x. rewrite !elem_of_filter. intros [? ?]. split; [lia | done].
  - intros E.
    assert (d ∈ filter (λ x, x ≤ d) days) as H1 by (apply elem_of_filter; split; [lia | done]).
    rewrite <- E in H1. apply elem_of_filter in H1. lia.
Qed.

(** [_calc_streaks], [today] being [datetime.now(tz=timezone.utc).date()]. *)
Definition _calc_streaks (today : Z) (sub_cal : pyval) : option Z * option Z :=
  match sub_cal with
  | PDict ((_ :: _) as items) =>
      try_except
        (days ← for_each add_day items ∅;
         if decide (days = ∅) then mret (Some 0, Some 0)
         else
           lo ← py_min days;
           hi ← py_max days;
           max_streak ← scan days (Z.to_nat (hi - lo + 1)) lo 0 0;
           cur ← walk_back days today 0;
           mret (Some cur, Some max_streak))
        (None, None)
  | _ => (None, None)
  end.

(** History normalisation of the submission calendar. *)
Definition history_key_date (k : string) : option (res string) :=
  let s := strip k in
  if isdigit s then
    let ts := int_of_digits s in
    let ts := if 10 ^ 10 <? ts then ts / 1000 else ts in
    Some (isoformat <$> fromtimestamp_date ts)
  else None.

Definition add_history (h : list (string * Z)) (kv : string * pyval) : res (list (string * Z)) :=
  let '(k, v) := kv in
  match history_key_date k with
  | Some rd => d ← rd; c ← py_int (por v (PInt 0)); mret (dict_set h d c)
  | None => Ok h
  end.

Definition lc_history_of (sub_cal_raw : pyval) : option (list (string * Z)) :=
  match sub_cal_raw with
  | PDict ((_ :: _) as items) => try_except (Some <$> for_each add_history items []) None
  | _ => None
  end.

(** History of the contribution calendar. *)
Definition add_contribution_day (days : list (string * Z)) (d : pyval) : res (list (string * Z)) :=
  day ← attr_get d "date";
  cnt ← attr_get d "contributionCount";
  if truthy day then c ← py_int (por cnt (PInt 0)); mret (dict_set days (py_str day) c)
  else mret days.

Definition add_week (days : list (string * Z)) (w : pyval) : res (list (string * Z)) :=
  cd ← attr_get w "contributionDays";
  ds ← py_iter (por cd (PList []));
  for_each add_contribution_day ds days.

Definition gh_history_of (git_contri : option pydict) : option (list (string * Z)) :=
  try_except
    (days ← match git_contri with
            | Some ((_ :: _) as c) =>
                match dict_get c "weeks" with
                | PList ws => for_each add_week ws []
                | _ => Ok []
                end
            | _ => Ok []
            end;
     mret (match days with [] => None | _ => Some days end))
    None.

(** [json.dumps(h, separators=(",", ":"))] of a text-to-integer map. *)
Definition hex4 (n : nat) : string :=
  String "0" (String "0" (String (hex_digit (n / 16)) (String (hex_digit (n mod 16)) ""))).

Definition json_char (c : ascii) : string :=
  let n := nat_of_ascii c in
  if Ascii.eqb c backslash then String backslash (String backslash "")
  else if Ascii.eqb c dquote then String backslash (String dquote "")
  else if (n =? 8)%nat then String backslash "b"
  else if (n =? 9)%nat then String backslash "t"
  else if (n =? 10)%nat then String backslash "n"
  else if (n =? 12)%nat then String backslash "f"
  else if (n =? 13)%nat then String backslash "r"
  else if (n <? 32)%nat || (127 <=? n)%nat then String backslash (String "u" (hex4 n))
  else String c "".

Fixpoint json_chars (s : string) : string :=
  match s with
  | String c s' => json_char c +:+ json_chars s'
  | EmptyString => ""
  end.

Definition json_str (s : string) : string :=
  String dquote (json_chars s +:+ String dquote "").

Definition json_dumps (h : list (string * Z)) : string :=
  "{" +:+ join "," (map (fun kv => json_str (fst kv) +:+ ":" +:+ str_of_Z (snd kv)) h) +:+ "}".

(** Two library functions stay abstract: [json.loads] (a decoded value or
    an exception) and the best-effort parse that ends [_to_date_only],
    [datetime.fromisoformat(x).date().isoformat()] ([None] when it raises),
    whose accepted formats differ between interpreter versions. *)
Record pylib : Type := PyLib {
  json_loads : string -> res pyval;
  fromisoformat_date : string -> option string
}.

Section ComputeStats.
Context (lib : pylib) (today : Z).

(** [_to_date_only] *)
Definition _to_date_only (val : pyval) : option string :=
  match val with
  | PNone => None
  | _ =>
      let s := strip (py_str val) in
      if String.eqb s "" then None
      else if isdigit s then
        (* treat as unix seconds *)
        try_except (d ← fromtimestamp_date (int_of_digits s); mret (Some (isoformat d))) None
      else if (10 <=? String.length s)%nat && char_is 4 "-" s && char_is 7 "-" s then
        Some (String.substring 0 10 s)
      else fromisoformat_date lib (replace_Z s)
  end.

(** [s.lower()] on an arbitrary object. *)
Definition py_lower (v : pyval) : res string :=
  match v with
  | PStr s => Ok (lower s)
  | _ => Raise (AttributeError v "lower")
  end.

(** The loop that looks for the most recent accepted submission; [Some]
    is the [break]. *)
Fixpoint find_accepted (subs : list pyval) : res (option string) :=
  match subs with
  | [] => Ok None
  | sub :: rest =>
      sd ← attr_get sub "statusDisplay";
      low ← py_lower (por sd (PStr ""));
      if String.eqb low "accepted" then
        ats ← attr_get sub "timestamp"; mret (_to_date_from_ts ats)
      else find_accepted rest
  end.

Definition add_language (acc : list string) (x : pyval) : res (list string) :=
  n ← attr_get x "languageName";
  if truthy n then n' ← attr_get x "languageName"; mret (acc ++ [py_str n'])
  else mret acc.

(** The blocks of [compute_stats] that may raise, in source order. *)

(** [len(original_repos)] and [len(authored_forks)] *)
Definition repo_counts (git_json : pydict) : res (Z * Z) :=
  let original_repos := por (dict_get git_json "original_repos") (PDict []) in
  let authored_forks := por (dict_get git_json "authored_forks") (PDict []) in
  orig_count ← py_len original_repos;
  authored_count ← py_len authored_forks;
  mret (orig_count, authored_count).

(** [raw_last_commit = overall.get("date")] *)
Definition raw_last_commit (git_json : pydict) : res pyval :=
  let overall := por (dict_get git_json "overall_last_commit") (PDict []) in
  attr_get overall "date".

Definition git_badges_list (git_json : pydict) : list string :=
  let badges_map := por (dict_get git_json "badges") (PDict []) in
  match badges_map with
  | PDict d => map fst d
  | _ => []
  end.

(** [(lastsubmission, lastacceptedsubmission)] *)
Definition recent_submissions (lc_prof : pydict) : res (option string * option string) :=
  let recent := por (dict_get lc_prof "recentSubmissions") (PList []) in
  if truthy recent then
    (* Most recent overall submission (first item) *)
    first ← py_item0 recent;
    ts ← attr_get first "timestamp";
    let lastsubmission := _to_date_from_ts ts in
    (* Most recent accepted submission *)
    subs ← py_iter recent;
    accepted ← find_accepted subs;
    mret (lastsubmission, accepted)
  else mret (None, None).

Definition languages_of (lc_lang : pydict) : res (list string) :=
  lang_counts ←
    attr_get_or (dict_get_or lc_lang "matchedUser" (PDict [])) "languageProblemCount" (PList []);
  xs ← py_iter lang_counts;
  for_each add_language xs [].

(** [sub_cal_raw]: the calendar of the profile, or the one the calendar
    endpoint wraps as text. *)
Definition submission_calendar (lc_prof : pydict) (lc_calendar : option pydict) : pyval :=
  let sub_cal_raw := por (dict_get lc_prof "submissionCalendar") (PDict []) in
  match lc_calendar with
  | Some ((_ :: _) as cal) =>
      match dict_get cal "submissionCalendar" with
      | PStr text =>
          try_except ((fun v => por v sub_cal_raw) <$> json_loads lib text) sub_cal_raw
      | _ => sub_cal_raw
      end
  | _ => sub_cal_raw
  end.

Definition compute_stats (git_json lc_prof lc_lang lc_badges : pydict)
    (git_contri lc_calendar : option pydict) : res stats :=
  let followers := _safe_int (dict_get git_json "followers") in
  let following := _safe_int (dict_get git_json "following") in
  let public_repo := _safe_int (dict_get git_json "public_repo_count") in
  '(orig_count, authored_count) ← repo_counts git_json;
  raw ← raw_last_commit git_json;
  let last_commit_date := _to_date_only raw in
  (* LeetCode profile *)
  let totalSolved := _safe_int (dict_get lc_prof "totalSolved") in
  let easy := _safe_int (dict_get lc_prof "easySolved") in
  let medium := _safe_int (dict_get lc_prof "mediumSolved") in
  let hard := _safe_int (dict_get lc_prof "hardSolved") in
  let ranking := _safe_int (dict_get lc_prof "ranking") in
  '(lastsubmission, lastacceptedsubmission) ← recent_submissions lc_prof;
  (* Languages *)
  languages ← languages_of lc_lang;
  let lc_badges_count := _safe_int (dict_get lc_badges "badgesCount") in
  let sub_cal_raw := submission_calendar lc_prof lc_calendar in
  let streaks := _calc_streaks today (por sub_cal_raw (PDict [])) in
  let lc_history := lc_history_of sub_cal_raw in
  let gh_history := gh_history_of git_contri in
  mret {|
    git_followers := followers;
    git_following := following;
    git_public_repo := public_repo;
    git_original_repo := Some orig_count;
    git_authored_repo := Some authored_count;
    last_commit_date := last_commit_date;
    git_badges := _join_list (git_badges_list git_json);
    lc_total_solved := totalSolved;
    lc_easy := easy;
    lc_medium := medium;
    lc_hard := hard;
    lc_ranking := ranking;
    lc_lastsubmission := lastsubmission;
    lc_lastacceptedsubmission := lastacceptedsubmission;
    lc_cur_streak := fst streaks;
    lc_max_streak := snd streaks;
    lc_badges := str_of_Z <$> lc_badges_count;
    lc_language := _join_list languages;
    lc_submission_history := json_dumps <$> lc_history;
    gh_contribution_history := json_dumps <$> gh_history
  |}.

End ComputeStats.

End Deriver.

(** ** The reconciliation run: [update_all_students] *)

Module Sync.
Import Py Cal Deriver.

(** A roster row as the [select] returns it; a NULL column is [None]. *)
Record row : Type := Row {
  roll_number : Z;
  github_username : option string;
  leetcode_username : option string;
  row_name : option string
}.

(** A work item: the dictionary with keys roll, gh, lc, name. *)
Record item : Type := Item {
  roll : Z;
  gh : string;
  lc : string;
  name : string
}.

(** [(x or '').strip()] *)
Definition or_empty_strip (x : option string) : string := strip (default "" x).

Definition nonempty (s : string) : bool := negb (String.eqb s "").

(** The loop that prepares the work items. *)
Fixpoint prepare_work (rows : list row) : list item :=
  match rows with
  | [] => []
  | r :: rows' =>
      let gh := or_empty_strip (github_username r) in
      let lc := or_empty_strip (leetcode_username r) in
      let nm := or_empty_strip (row_name r) in
      if negb (nonempty gh) && negb (nonempty lc) then prepare_work rows'
      else Item (roll_number r) gh lc nm :: prepare_work rows'
  end.

(** The six provider calls of [functions.clients]. *)
Record providers : Type := Providers {
  get_github_summary : string -> res pydict;
  get_github_contributions : string -> res pydict;
  get_leetcode_profile : string -> res pydict;
  get_leetcode_language_stats : string -> res pydict;
  get_leetcode_badges : string -> res pydict;
  get_leetcode_calendar : string -> res pydict
}.

(** [f"{type(e).__name__}: {e}"] *)
Definition describe (e : exn) : string := exn_type e +:+ ": " +:+ exn_text e.

(** Reading a local variable: one that no assignment has reached yet
    raises. *)
Definition read_local {A} (var : string) (v : option A) : res A :=
  match v with
  | Some a => Ok a
  | None =>
      Raise (Exn "UnboundLocalError"
        ("cannot access local variable '" +:+ var
         +:+ "' where it is not associated with a value"))
  end.

(** What a future of the pool resolves to: [(roll, stats, name, None)]
    after a fetch that succeeded, [(roll, {}, name, err)] after one that
    raised. *)
Inductive outcome : Type :=
| Fetched (roll : Z) (stats : stats) (name : string)
| FetchFailed (roll : Z) (name : string) (err : string).

(** The environment-tunable settings, after [int(os.getenv(...))]. *)
Record settings : Type := Settings {
  DB_UPSERT_BATCH_SIZE : Z;
  DB_MICRO_BATCH_SIZE : Z;
  DB_MAX_RETRIES : Z
}.

Definition default_settings : settings := Settings 30 8 3.

(** [batch_size = max(1, min(batch_size, 100))] and
    [micro_batch_size = max(1, min(micro_batch_size, batch_size))] *)
Definition batch_size (cfg : settings) : Z :=
  Z.max 1 (Z.min (DB_UPSERT_BATCH_SIZE cfg) 100).

Definition micro_batch_size (cfg : settings) : Z :=
  Z.max 1 (Z.min (DB_MICRO_BATCH_SIZE cfg) (batch_size cfg)).

(** [range(0, stop, step)] for a positive step (a zero step raises in
    Python; every caller passes a size clamped to at least 1). *)
Definition py_range (stop step : nat) : list nat :=
  map (fun k => (k * step)%nat) (seq 0 ((stop + step - 1) / step)).

(** [_chunks]: [seq[i:i + size]] for [i] in [range(0, len(seq), size)]. *)
Definition _chunks {A} (l : list A) (size : nat) : list (list A) :=
  map (fun i => firstn size (skipn i l)) (py_range (length l) size).

(** A row of [to_add_notif]. *)
Record notif : Type := Notif {
  n_table_name : string;
  n_rollnumber : Z;
  n_name : string;
  n_reason : string
}.

Definition reason_text : string := "No LC submission in last 3 days".

(** The notification decision on [lc_last = stats.get("lc_lastsubmission")],
    [today] being the current UTC date. *)
Definition stale_flag (today : Z) (lc_last : option string) : bool :=
  match lc_last with
  | Some s =>
      if nonempty s then
        match strptime_ymd s with
        | Some last_date => let delta := today - last_date in 3 <? delta
        | None => true
        end
      else true
  | None => true
  end.

(** What the loop over the completed futures accumulates. *)
Record gathered : Type := Gathered {
  g_errors : list string;
  g_results : list (Z * stats * string);
  to_add_notif : list notif;
  to_remove_notif : list Z
}.

(** What one [conn.execute] does: it returns, raises one of the two
    transient classes the retry loops catch ([OperationalError],
    [InterfaceError]), or raises anything else. *)
Inductive exec_outcome : Type :=
| Done
| Transient (oe : exn)
| Failed (e : exn).

(** The write stage's state: the counter [updated], the list [errors], the
    factors [2 ** (attempt - 1)] of [base_sleep] slept so far (latest
    last), and how many statements the connection has been handed. *)
Record wstate : Type := WState {
  updated : Z;
  errors : list string;
  slept : list Z;
  calls : nat
}.

Definition executed (st : wstate) : wstate :=
  WState (updated st) (errors st) (slept st) (S (calls st)).

Definition add_error (msg : string) (st : wstate) : wstate :=
  WState (updated st) (errors st ++ [msg]) (slept st) (calls st).

Definition add_updated (n : Z) (st : wstate) : wstate :=
  WState (updated st + n) (errors st) (slept st) (calls st).

Definition sleep (factor : Z) (st : wstate) : wstate :=
  WState (updated st) (errors st) (slept st ++ [factor]) (calls st).

(** The error strings of [_execute_payload]. *)
Definition retries_exceeded (rows : Z) (oe : exn) : string :=
  "upsert retries exceeded (" +:+ str_of_Z rows +:+ " rows): " +:+ describe oe.

Definition upsert_error (rows : Z) (e : exn) : string :=
  "upsert error (" +:+ str_of_Z rows +:+ " rows): " +:+ describe e.

Section Run.
Context (lib : pylib) (today : Z) (api : providers).
(** The storage engine: the fate of the [n]-th statement executed. *)
Context (db : nat -> exec_outcome).
Context (cfg : settings) (source_table : string).

Definition _fetch_and_compute (it : item) : outcome :=
  let attempt : res stats :=
    '(git_json, git_contri) ←
      (if nonempty (gh it) then
         g ← get_github_summary api (gh it);
         c ← get_github_contributions api (gh it);
         mret (g, Some c)
       else mret ([], None));
    '(lc_prof, lc_lang, lc_bdg, lc_calendar) ←
      (if nonempty (lc it) then
         p ← get_leetcode_profile api (lc it);
         l ← get_leetcode_language_stats api (lc it);
         b ← get_leetcode_badges api (lc it);
         c ← get_leetcode_calendar api (lc it);
         mret (p, l, b, Some c)
       else mret ([], [], [], None));
    git_contri ← read_local "git_contri" git_contri;
    lc_calendar ← read_local "lc_calendar" lc_calendar;
    compute_stats lib today git_json lc_prof lc_lang lc_bdg (Some git_contri) (Some lc_calendar) in
  match attempt with
  | Ok stats => Fetched (roll it) stats (name it)
  | Raise e =>
      FetchFailed (roll it) (name it) ("roll=" +:+ str_of_Z (roll it) +:+ ": " +:+ describe e)
  end.

(** The body of [for fut in as_completed(fut_map)]. *)
Definition gather_one (g : gathered) (o : outcome) : gathered :=
  match o with
  | FetchFailed _ _ err =>
      Gathered (g_errors g ++ [err]) (g_results g) (to_add_notif g) (to_remove_notif g)
  | Fetched roll stats name =>
      let results := g_results g ++ [(roll, stats, name)] in
      (* Notification decision now; applied in bulk later *)
      if stale_flag today (lc_lastsubmission stats) then
        Gathered (g_errors g) results
          (to_add_notif g ++ [Notif source_table roll name reason_text])
          (to_remove_notif g)
      else
        Gathered (g_errors g) results (to_add_notif g) (to_remove_notif g ++ [roll])
  end.

(** The fetch stage over the work items in the order their futures
    complete. *)
Definition gather (completed : list item) : gathered :=
  fold_left gather_one (map _fetch_and_compute completed) (Gathered [] [] [] []).

Definition max_retries : Z := DB_MAX_RETRIES cfg.

(** The retry loop of [_execute_payload], entered with [attempt = 0]. *)
Equations execute_retry (rows : nat) (attempt : Z) (st : wstate) : wstate
  by wf (Z.to_nat (max_retries + 1 - attempt)) lt :=
execute_retry rows attempt st with db (calls st) := {
  | Done => add_updated (Z.of_nat rows) (executed st)
  | Transient oe with decide (max_retries < attempt + 1) := {
      | left _ => add_error (retries_exceeded (Z.of_nat rows) oe) (executed st)
      | right _ =>
          execute_retry rows (attempt + 1) (sleep (2 ^ (attempt + 1 - 1)) (executed st)) }
  | Failed e => add_error (upsert_error (Z.of_nat rows) e) (executed st) }.
Next Obligation. lia. Qed.

Definition _execute_payload {A} (payload_list : list A) (st : wstate) : wstate :=
  match payload_list with
  | [] => st
  | _ => execute_retry (length payload_list) 0 st
  end.

(** The nested loops that write the results. *)
Definition write_results {A} (results : list A) (st : wstate) : wstate :=
  fold_left
    (fun st outer =>
       fold_left (fun st micro => _execute_payload micro st)
         (_chunks outer (Z.to_nat (micro_batch_size cfg))) st)
    (_chunks results (Z.to_nat (batch_size cfg))) st.

(** Removal of the notifications of the individuals that are not stale. *)
Definition remove_chunk (st : wstate) (roll_chunk : list Z) : wstate :=
  match roll_chunk with
  | [] => st
  | _ =>
      match db (calls st) with
      | Done => executed st
      | Transient ne | Failed ne =>
          add_error ("notif-remove batch: " +:+ describe ne) (executed st)
      end
  end.

(** The retry loop of the notification upsert. *)
Equations notif_retry (attempt : Z) (st : wstate) : wstate
  by wf (Z.to_nat (max_retries + 1 - attempt)) lt :=
notif_retry attempt st with db (calls st) := {
  | Done => executed st
  | Transient oe with decide (max_retries < attempt + 1) := {
      | left _ => add_error ("notif-upsert retries exceeded: " +:+ describe oe) (executed st)
      | right _ => notif_retry (attempt + 1) (sleep (2 ^ (attempt + 1 - 1)) (executed st)) }
  | Failed ne => add_error ("notif-upsert batch: " +:+ describe ne) (executed st) }.
Next Obligation. lia. Qed.

Definition upsert_notifs (to_add : list notif) (st : wstate) : wstate :=
  fold_left
    (fun st chunk =>
       fold_left
         (fun st micro => match micro with [] => st | _ => notif_retry 0 st end)
         (_chunks chunk (Z.to_nat (micro_batch_size cfg))) st)
    (_chunks to_add (Z.to_nat (batch_size cfg))) st.

(** The write stage: results, then notification removals, then
    notification upserts. *)
Definition reconcile (g : gathered) : wstate :=
  let st := WState 0 (g_errors g) [] 0 in
  let st := write_results (g_results g) st in
  let st :=
    fold_left remove_chunk
      (_chunks (to_remove_notif g) (Z.to_nat (Z.max 1 (batch_size cfg)))) st in
  upsert_notifs (to_add_notif g) st.

(** [update_all_students]: [has_source] and [has_target] are the two
    [inspector.has_table] answers, [rows] the roster, [schedule] the order
    in which the pool completes the work items. *)
Definition update_all_students (has_source has_target : bool) (target_table : string)
    (rows : list row) (schedule : list item -> list item) : res (Z * list string) :=
  if negb has_source then
    Raise (ValueError ("Source table '" +:+ source_table +:+ "' does not exist"))
  else if negb has_target then
    Raise (ValueError ("Target table '" +:+ target_table +:+ "' does not exist"))
  else
    match prepare_work rows with
    | [] => Ok (0, [])
    | work =>
        let st := reconcile (gather (schedule work)) in
        Ok (updated st, errors st)
    end.

End Run.

End Sync.

(** ** Notions used in the statements *)

Module Notions.
Import Py Cal Deriver Sync.

(** Ceiling of [n / s]. *)
Definition ceil_div (n s : nat) : nat := ((n + s - 1) / s)%nat.

(** The micro-chunks in the order the two nested loops of the write stage
    visit them. *)
Definition micro_chunks {A} (cfg : settings) (results : list A) : list (list A) :=
  concat (map (fun outer => _chunks outer (Z.to_nat (micro_batch_size cfg)))
              (_chunks results (Z.to_nat (batch_size cfg)))).

(** The factors of [base_sleep] slept before retries 1..k:
    [2 ** (attempt - 1)] for [attempt] from 1 to [k]. *)
Definition backoff (k : nat) : list Z := map (fun i => 2 ^ Z.of_nat i) (seq 0 k).

(** What the fetch loop has gathered after a successful result that is
    flagged stale, and after one that is not. *)
Definition flagged (src : string) (g : gathered) (roll : Z) (st : stats) (nm : string) : gathered :=
  Gathered (g_errors g) (g_results g ++ [(roll, st, nm)])
    (to_add_notif g ++ [Notif src roll nm reason_text]) (to_remove_notif g).

Definition cleared (g : gathered) (roll : Z) (st : stats) (nm : string) : gathered :=
  Gathered (g_errors g) (g_results g ++ [(roll, st, nm)])
    (to_add_notif g) (to_remove_notif g ++ [roll]).

(** The days [_calc_streaks] builds all lie between the epoch and the last
    day of the calendar. *)
Definition bounded (days : gset Z) : Prop := forall d, d ∈ days -> EPOCH <= d <= MAXORD.

(** The length of the run of consecutive days of the set that ends at [d]. *)
Definition run (days : gset Z) (d : Z) : Z :=
  match walk_back days d 0 with
  | Ok r => r
  | Raise _ => 0
  end.

(** The calendar entry [(k, v)] puts day [d] into the set. *)
Definition counted (k : string) (v : pyval) (d : Z) : Prop :=
  v <> PNone /\ isdigit (strip k) = true /\ 0 < int_of_digits (strip k)
  /\ fromtimestamp_date (int_of_digits (strip k)) = Ok d.

(** The payload [d] holds under [key] a value that [int] converts to [z]. *)
Definition provided (d : pydict) (key : string) (z : Z) : Prop :=
  exists v, dict_lookup d key = Some v /\ v <> PNone /\ py_int v = Ok z.

(** What a future contributes to the results, or to the errors. *)
Definition fetched_of (o : outcome) : option (Z * stats * string) :=
  match o with
  | Fetched r s n => Some (r, s, n)
  | FetchFailed _ _ _ => None
  end.

Definition failure_of (o : outcome) : option string :=
  match o with
  | Fetched _ _ _ => None
  | FetchFailed _ _ err => Some err
  end.

(** Shapes of payload values that [compute_stats] handles without raising. *)
Definition sized (v : pyval) : Prop := exists n, py_len v = Ok n.

Definition is_dict (v : pyval) : Prop := exists d, v = PDict d.

Definition submission_ok (v : pyval) : Prop :=
  exists d, v = PDict d /\
    (truthy (dict_get d "statusDisplay") = false \/ exists s, dict_get d "statusDisplay" = PStr s).

Definition well_shaped (git_json lc_prof lc_lang : pydict) : Prop :=
  sized (por (dict_get git_json "original_repos") (PDict [])) /\
  sized (por (dict_get git_json "authored_forks") (PDict [])) /\
  is_dict (por (dict_get git_json "overall_last_commit") (PDict [])) /\
  (exists subs, por (dict_get lc_prof "recentSubmissions") (PList []) = PList subs
                /\ Forall submission_ok subs) /\
  (exists mu xs, dict_get_or lc_lang "matchedUser" (PDict []) = PDict mu
                 /\ dict_get_or mu "languageProblemCount" (PList []) = PList xs
                 /\ Forall is_dict xs).

(** A library for the closed examples: a decoder that rejects every text
    and a parser that accepts none.  No example below hands a calendar
    text to the decoder or reaches the best-effort parse. *)
Definition example_lib : pylib :=
  PyLib (fun _ => Raise (ValueError "Expecting value")) (fun _ => None).

(** A store that resets the connection on the first two statements. *)
Definition two_resets (n : nat) : exec_outcome :=
  match n with
  | 0%nat | 1%nat => Transient (Exn "OperationalError" "connection reset")
  | _ => Done
  end.

(** Providers that all return an empty payload. *)
Definition empty_api : providers :=
  Providers (fun _ => Ok []) (fun _ => Ok []) (fun _ => Ok [])
            (fun _ => Ok []) (fun _ => Ok []) (fun _ => Ok []).

(** The record derived from payloads that are empty but for the recent
    submissions, whose first entry gives [lc_lastsubmission]. *)
Definition stats_with_lastsubmission (s : option string) : stats :=
  {| git_followers := None; git_following := None; git_public_repo := None;
     git_original_repo := Some 0; git_authored_repo := Some 0;
     last_commit_date := None; git_badges := None;
     lc_total_solved := None; lc_easy := None; lc_medium := None; lc_hard := None;
     lc_ranking := None; lc_lastsubmission := s; lc_lastacceptedsubmission := None;
     lc_cur_streak := None; lc_max_streak := None; lc_badges := None;
     lc_language := None; lc_submission_history := None;
     gh_contribution_history := None |}.

(** The record derived from empty payloads. *)
Definition empty_stats : stats := stats_with_lastsubmission None.

(** A profile whose only recent submission, at 2023-11-14 22:13:20 UTC,
    was not accepted, and the record derived from it. *)
Definition unaccepted_profile : pydict :=
  [("recentSubmissions",
    PList [PDict [("timestamp", PStr "1700000000"); ("statusDisplay", PStr "Wrong Answer")]])].

Definition unaccepted_stats : stats := stats_with_lastsubmission (Some "2023-11-14").

End Notions.


(** ** Notions used in the statements about the write stage *)

Module Ledger.
Import Py Sync.

(** The error string the removal loop records for a statement's outcome. *)
Definition removal_error (o : exec_outcome) : option string :=
  match o with
  | Done => None
  | Transient ne | Failed ne => Some ("notif-remove batch: " +:+ describe ne)
  end.

(** The chunks of the removal loop. *)
Definition removal_chunks (cfg : settings) (rolls : list Z) : list (list Z) :=
  _chunks rolls (Z.to_nat (Z.max 1 (batch_size cfg))).

End Ledger.

(** ** [functions/clients.py]: the provider calls over HTTP

    A session is an oracle from requests to responses (or to the
    exception [requests] raises when the transport fails).  Every
    function threads the log of the requests sent so far. *)

Module Clients.
Import Py.

(** [s.rstrip("/")] *)
Fixpoint rstrip_slash (s : string) : string :=
  match s with
  | String c s' =>
      match rstrip_slash s' with
      | EmptyString => if Ascii.eqb c "/" then EmptyString else String c EmptyString
      | r => String c r
      end
  | EmptyString => EmptyString
  end.

(** [os.getenv(NAME, "").rstrip("/")]: the module constants [GITHUB_API]
    and [LEETCODE_API]. *)
Definition base_of_env (env : option string) : string := rstrip_slash (default "" env).

Definition ApiError (msg : string) : exn := Exn "ApiError" msg.

Definition _require_base (name value : string) : res string :=
  if String.eqb value "" then
    Raise (ApiError ("Missing base URL for " +:+ name +:+ " in environment"))
  else Ok value.

Record request : Type := Request {
  url : string;
  params : list (string * string)
}.

(** A response: [r.status_code], [r.reason], [r.url] and the outcome of
    [r.json()]. *)
Record response : Type := Response {
  status_code : Z;
  reason : string;
  response_url : string;
  json : res pydict
}.

Definition session : Type := request -> res response.

(** [r.raise_for_status()] *)
Definition raise_for_status (r : response) : res unit :=
  if (400 <=? status_code r) && (status_code r <? 500) then
    Raise (Exn "HTTPError" (str_of_Z (status_code r) +:+ " Client Error: " +:+ reason r
                            +:+ " for url: " +:+ response_url r))
  else if (500 <=? status_code r) && (status_code r <? 600) then
    Raise (Exn "HTTPError" (str_of_Z (status_code r) +:+ " Server Error: " +:+ reason r
                            +:+ " for url: " +:+ response_url r))
  else Ok tt.

(** [r = s.get(url, ...); r.raise_for_status(); return r.json()] *)
Definition fetch (s : session) (rq : request) (log : list request) : list request * res pydict :=
  (log ++ [rq], r ← s rq; _ ← raise_for_status r; json r).

(** [for path in paths: r = s.get(...); if r.status_code == 404: continue;
    r.raise_for_status(); return r.json()]: [None] when the loop runs
    out of paths. *)
Fixpoint try_paths (s : session) (mk : string -> request) (paths : list string)
    (log : list request) : list request * option (res pydict) :=
  match paths with
  | [] => (log, None)
  | path :: paths' =>
      match s (mk path) with
      | Raise e => (log ++ [mk path], Some (Raise e))
      | Ok r =>
          if status_code r =? 404 then try_paths s mk paths' (log ++ [mk path])
          else (log ++ [mk path], Some (_ ← raise_for_status r; json r))
      end
  end.

Section Api.
Context (GITHUB_API LEETCODE_API : string) (s : session).

Definition get_github_summary (username : string) (log : list request)
    : list request * res pydict :=
  match _require_base "GITHUB_API" GITHUB_API with
  | Raise e => (log, Raise e)
  | Ok base => fetch s (Request (base +:+ "/api") [("username", username)]) log
  end.

Definition profile_paths (username : string) : list string :=
  ["/userprofile/" +:+ username; "/" +:+ username; "/userProfile/" +:+ username].

Definition get_leetcode_profile (username : string) (log : list request)
    : list request * res pydict :=
  match _require_base "LEETCODE_API" LEETCODE_API with
  | Raise e => (log, Raise e)
  | Ok base =>
      match try_paths s (fun path => Request (base +:+ path) []) (profile_paths username) log with
      | (log', Some r) => (log', r)
      | (log', None) =>
          (log', Raise (ApiError "LeetCode profile endpoint not found for provided username"))
      end
  end.

Definition language_paths : list string := ["/languageStats"; "/languagestats"].

Definition get_leetcode_language_stats (username : string) (log : list request)
    : list request * res pydict :=
  match _require_base "LEETCODE_API" LEETCODE_API with
  | Raise e => (log, Raise e)
  | Ok base =>
      match try_paths s (fun path => Request (base +:+ path) [("username", username)])
              language_paths log with
      | (log', Some r) => (log', r)
      | (log', None) => (log', Raise (ApiError "LeetCode language stats endpoint not found"))
      end
  end.

Definition get_leetcode_badges (username : string) (log : list request)
    : list request * res pydict :=
  match _require_base "LEETCODE_API" LEETCODE_API with
  | Raise e => (log, Raise e)
  | Ok base => fetch s (Request (base +:+ "/" +:+ username +:+ "/badges") []) log
  end.

Definition get_github_contributions (username : string) (log : list request)
    : list request * res pydict :=
  match _require_base "GITHUB_API" GITHUB_API with
  | Raise e => (log, Raise e)
  | Ok base => fetch s (Request (base +:+ "/contri") [("username", username)]) log
  end.

Definition get_leetcode_calendar (username : string) (log : list request)
    : list request * res pydict :=
  match _require_base "LEETCODE_API" LEETCODE_API with
  | Raise e => (log, Raise e)
  | Ok base => fetch s (Request (base +:+ "/" +:+ username +:+ "/calendar") []) log
  end.

(** The six calls as [update_data] imports them: what each returns. *)
Definition api : Sync.providers :=
  Sync.Providers
    (fun u => snd (get_github_summary u []))
    (fun u => snd (get_github_contributions u []))
    (fun u => snd (get_leetcode_profile u []))
    (fun u => snd (get_leetcode_language_stats u []))
    (fun u => snd (get_leetcode_badges u []))
    (fun u => snd (get_leetcode_calendar u [])).

End Api.

(** A session that answers every request with the same response. *)
Definition constant_session (r : response) : session := fun _ => Ok r.

(** A session in which only the URL [u] exists. *)
Definition only_url (u : string) (r : response) : session :=
  fun rq => if String.eqb (url rq) u then Ok r
            else Ok (Response 404 "Not Found" (url rq) (Raise (ValueError "Expecting value"))).

End Clients.

(** ** [database/connection.py]: the connection string *)

Module Connection.
Import Py.

(** [s.startswith(p)] *)
Fixpoint startswith (s p : string) {struct p} : bool :=
  match p with
  | EmptyString => true
  | String c p' =>
      match s with
      | String d s' => Ascii.eqb c d && startswith s' p'
      | EmptyString => false
      end
  end.

(** [s[n:]] *)
Fixpoint slice_from (n : nat) (s : string) : string :=
  match n, s with
  | S n', String _ s' => slice_from n' s'
  | _, _ => s
  end.

(** [s.replace(old, new, 1)]: the first occurrence, from the left. *)
Fixpoint replace_first (old new s : string) : string :=
  if startswith s old then new +:+ slice_from (String.length old) s
  else match s with
       | String c s' => String c (replace_first old new s')
       | EmptyString => EmptyString
       end.

Definition _normalize_db_url (url : string) : string :=
  if startswith url "postgres://" then
    "postgresql+psycopg2://" +:+ slice_from (String.length "postgres://") url
  else if startswith url "postgresql://" then
    "postgresql+psycopg2://" +:+ slice_from (String.length "postgresql://") url
  else url.

(** The module body: [DATABASE_URL] from the value of
    [POSTGRES_CONNECT_STRING]. *)
Definition DATABASE_URL (raw_url : option string) : res string :=
  match raw_url with
  | None | Some EmptyString =>
      Raise (Exn "RuntimeError" "POSTGRES_CONNECT_STRING not set in environment/.env")
  | Some raw_url =>
      let url := _normalize_db_url raw_url in
      if startswith url "postgres://" then
        Ok (replace_first "postgres://" "postgresql+psycopg2://" url)
      else if startswith url "postgresql://" then
        Ok (replace_first "postgresql://" "postgresql+psycopg2://" url)
      else Ok url
  end.

End Connection.

(** ** [functions/notification.py] and [functions/students.py] over tables

    A table is the list of its rows.  A statement does what its SQL says
    to the rows it selects; it raises [IntegrityError] when it would
    store a second row under a primary key and [DataError] when a value
    does not fit its column.  A failure of the connection is not
    modelled.  A function that raises leaves the table as it was: its
    transaction is rolled back. *)

Module Store.
Import Py Sync.

Definition IntegrityError : exn :=
  Exn "IntegrityError" "duplicate key value violates unique constraint".

Definition DataError : exn := Exn "DataError" "value does not fit the column".

(** [BigInteger] *)
Definition bigint (z : Z) : bool := (- 2 ^ 63 <=? z) && (z <? 2 ^ 63).

(** [String(n)], nullable *)
Definition varchar (n : nat) (s : option string) : bool :=
  match s with
  | Some s => (String.length s <=? n)%nat
  | None => true
  end.

(** *** The notification table *)

(** A row of [notification_Data]; the primary key is
    [(rollnumber, table_name)]. *)
Record notification : Type := Notification {
  nf_name : option string;
  nf_rollnumber : Z;
  nf_table_name : string;
  nf_reason : option string
}.

Definition fits (n : notification) : bool :=
  varchar 255 (nf_name n) && bigint (nf_rollnumber n)
  && varchar 255 (Some (nf_table_name n)) && varchar 1024 (nf_reason n).

(** [tbl.c.table_name == table_name, tbl.c.rollnumber == rollnumber] *)
Definition at_key (table_name : string) (rollnumber : Z) (n : notification) : bool :=
  String.eqb (nf_table_name n) table_name && (nf_rollnumber n =? rollnumber).

Definition primary_key (n : notification) : Z * string := (nf_rollnumber n, nf_table_name n).

(** The row stored under a key, if any. *)
Definition stored (tbl : list notification) (table_name : string) (rollnumber : Z)
    : option notification :=
  List.find (at_key table_name rollnumber) tbl.

(** [tbl.c.reason == reason]: a null reason equals nothing. *)
Definition reason_is (reason : string) (n : notification) : bool :=
  match nf_reason n with
  | Some r => String.eqb r reason
  | None => false
  end.

(** [update(tbl).where(...).values(name=name, reason=reason)]: the table
    afterwards and [rowcount]. *)
Definition update_at (table_name : string) (rollnumber : Z) (name : option string)
    (reason : string) (tbl : list notification) : res (list notification * Z) :=
  match List.filter (at_key table_name rollnumber) tbl with
  | [] => Ok (tbl, 0)
  | hit =>
      if varchar 255 name && varchar 1024 (Some reason) then
        Ok (map (fun n => if at_key table_name rollnumber n
                          then Notification name (nf_rollnumber n) (nf_table_name n) (Some reason)
                          else n) tbl,
            Z.of_nat (length hit))
      else Raise DataError
  end.

(** [insert(tbl).values(...)] *)
Definition insert_row (n : notification) (tbl : list notification) : res (list notification) :=
  if negb (fits n) then Raise DataError
  else if existsb (at_key (nf_table_name n) (nf_rollnumber n)) tbl then Raise IntegrityError
  else Ok (tbl ++ [n]).

(** [delete(tbl).where(...)]: the table afterwards and [rowcount]. *)
Definition delete_where (where_ : notification -> bool) (tbl : list notification)
    : list notification * Z :=
  (List.filter (fun n => negb (where_ n)) tbl, Z.of_nat (length (List.filter where_ tbl))).

Definition add_or_update_notification (tbl : list notification) (table_name : string)
    (rollnumber : Z) (name : option string) (reason : string) : res (list notification) :=
  '(tbl, rowcount) ← update_at table_name rollnumber name reason tbl;
  if rowcount =? 0 then
    insert_row (Notification name rollnumber table_name (Some reason)) tbl
  else Ok tbl.

(** [res.rowcount or 0] *)
Definition remove_notification_by_roll (tbl : list notification) (rollnumber : Z)
    : list notification * Z :=
  delete_where (fun n => nf_rollnumber n =? rollnumber) tbl.

Definition remove_notification (tbl : list notification) (table_name : string) (rollnumber : Z)
    : list notification * Z :=
  delete_where (at_key table_name rollnumber) tbl.

Definition remove_notification_with_reason (tbl : list notification) (table_name : string)
    (rollnumber : Z) (reason : string) : list notification * Z :=
  delete_where (fun n => at_key table_name rollnumber n && reason_is reason n) tbl.

(** *** The student tables *)

(** What the inspector lists, with and without a schema, and what a
    select on a table named [t] returns when read as a student table. *)
Record catalogue : Type := Catalogue {
  get_table_names : res (list string);
  get_table_names_public : res (list string);
  select_students : string -> res (list row)
}.

(** [s.endswith(suffix)] *)
Fixpoint endswith (s suffix : string) : bool :=
  String.eqb s suffix
  || match s with
     | String _ s' => endswith s' suffix
     | EmptyString => false
     end.

(** [select(...).where(src.c.roll_number == rollnumber)] then [.first()] *)
Definition first_by_roll (rollnumber : Z) (rows : list row) : option row :=
  List.find (fun r => roll_number r =? rollnumber) rows.

(** The loop of [_resolve_student_by_roll]: [None] when it runs out of
    tables. *)
Fixpoint search_tables (db : catalogue) (rollnumber : Z) (base_tables : list string)
    : res (option (string * option string)) :=
  match base_tables with
  | [] => Ok None
  | t :: ts =>
      rows ← select_students db t;
      match first_by_roll rollnumber rows with
      | Some r => Ok (Some (t, row_name r))
      | None => search_tables db rollnumber ts
      end
  end.

Definition base_tables_of (names : list string) : list string :=
  List.filter (fun n => negb (endswith n "_Data") && negb (String.eqb n "notification_Data"))
    names.

Definition _resolve_student_by_roll (db : catalogue) (rollnumber : Z)
    : res (string * option string) :=
  names ← match get_table_names db with
          | Ok names => Ok names
          | Raise _ => get_table_names_public db
          end;
  found ← search_tables db rollnumber (base_tables_of names);
  match found with
  | Some hit => Ok hit
  | None =>
      Raise (ValueError ("roll_number " +:+ str_of_Z rollnumber
                         +:+ " not found in any base table"))
  end.

(** The dictionary the two functions below return has the keys of a
    notification row. *)
Definition add_notification_by_roll (db : catalogue) (tbl : list notification)
    (rollnumber : Z) (reason : string) : res (list notification * notification) :=
  '(table_name, name) ← _resolve_student_by_roll db rollnumber;
  tbl ← add_or_update_notification tbl table_name rollnumber name reason;
  mret (tbl, Notification name rollnumber table_name (Some reason)).

Definition add_notification_for_table (db : catalogue) (tbl : list notification)
    (table_name : string) (rollnumber : Z) (reason : string)
    : res (list notification * notification) :=
  rows ← select_students db table_name;
  match first_by_roll rollnumber rows with
  | None =>
      Raise (ValueError ("roll_number " +:+ str_of_Z rollnumber +:+ " not found in table '"
                         +:+ table_name +:+ "'"))
  | Some r =>
      let name := row_name r in
      tbl ← add_or_update_notification tbl table_name rollnumber name reason;
      mret (tbl, Notification name rollnumber table_name (Some reason))
  end.

(** A student row fits its columns; [name] is not nullable. *)
Definition student_fits (r : row) : bool :=
  match row_name r with
  | Some _ =>
      varchar 255 (row_name r) && bigint (roll_number r)
      && varchar 255 (github_username r) && varchar 255 (leetcode_username r)
  | None => false
  end.

Definition at_roll (rollnumber : Z) (r : row) : bool := roll_number r =? rollnumber.

(** [dict(row)] of the row selected back. *)
Definition selected_back (rollnumber : Z) (rows : list row) : res (list row * row) :=
  match first_by_roll rollnumber rows with
  | Some r => Ok (rows, r)
  | None => Raise (TypeError "'NoneType' object is not iterable")
  end.

(** [insert_student]: [tbl] is [None] when the inspector does not find the
    table.  The column [roll_number] is a [BIGINT] here, so that
    [ensure_rollnumber_bigint] returns without a statement. *)
Definition insert_student (tbl : option (list row)) (table_name name : string) (roll_number : Z)
    (github_username leetcode_username : option string) : res (list row * row) :=
  match tbl with
  | None => Raise (Exn "TableNotFoundError" table_name)
  | Some rows =>
      let new := Row roll_number github_username leetcode_username (Some name) in
      if negb (student_fits new) then Raise DataError
      else if existsb (at_roll roll_number) rows then Raise IntegrityError
      else selected_back roll_number (rows ++ [new])
  end.

(** [upsert_student]: [INSERT ... ON CONFLICT (roll_number) DO UPDATE]. *)
Definition upsert_student (tbl : option (list row)) (table_name name : string) (roll_number : Z)
    (github_username leetcode_username : option string) : res (list row * row) :=
  match tbl with
  | None => Raise (Exn "TableNotFoundError" table_name)
  | Some rows =>
      let new := Row roll_number github_username leetcode_username (Some name) in
      if negb (student_fits new) then Raise DataError
      else if existsb (at_roll roll_number) rows then
        selected_back roll_number
          (map (fun r => if at_roll roll_number r
                         then Row (Sync.roll_number r) github_username leetcode_username (Some name)
                         else r) rows)
      else selected_back roll_number (rows ++ [new])
  end.

(** A catalogue with a data table, an empty base table and the student
    table of one student. *)
Definition example_catalogue : catalogue :=
  Catalogue (Ok ["students_Data"; "alumni"; "students"; "notification_Data"]) (Ok [])
    (fun t => if String.eqb t "students" then
                Ok [Row 3 (Some "octocat") (Some "ann") (Some "Ann")]
              else if String.eqb t "alumni" then Ok []
              else Raise (Exn "ProgrammingError" "column roll_number does not exist")).

End Store.

(** ** [functions/data_fetch.py]: the students joined with their data *)

Module DataFetch.
Import Py Sync Deriver.

(** The columns of the data table that [build_json_list] selects, in
    order. *)
Definition data_columns : list string :=
  ["git_followers"; "git_following"; "git_public_repo"; "git_original_repo";
   "git_authored_repo"; "last_commit_date"; "git_badges"; "lc_total_solved"; "lc_easy";
   "lc_medium"; "lc_hard"; "lc_ranking"; "lc_lastsubmission"; "lc_lastacceptedsubmission";
   "lc_cur_streak"; "lc_max_streak"; "lc_badges"; "lc_language"; "gh_contribution_history";
   "lc_submission_history"; "lc_progress_history"].

(** A row of the data table: its key and its columns by name. *)
Record data_row : Type := DataRow {
  d_rollnumber : Z;
  d_columns : pydict
}.

Definition opt_str (s : option string) : pyval :=
  match s with
  | Some s => PStr s
  | None => PNone
  end.

Definition student_columns (r : row) : pydict :=
  [("name", opt_str (row_name r)); ("roll_number", PInt (roll_number r));
   ("github_username", opt_str (github_username r));
   ("leetcode_username", opt_str (leetcode_username r))].

(** The data columns of a joined row: null when no data row matched. *)
Definition selected (d : option data_row) : pydict :=
  map (fun k => (k, match d with
                    | Some d => dict_get (d_columns d) k
                    | None => PNone
                    end)) data_columns.

(** [ORDER BY src.roll_number] *)
Fixpoint insert_by_roll (r : row) (l : list row) : list row :=
  match l with
  | [] => [r]
  | x :: l' => if roll_number r <=? roll_number x then r :: l else x :: insert_by_roll r l'
  end.

Definition order_by_roll (l : list row) : list row := fold_right insert_by_roll [] l.

(** Roll numbers in ascending order. *)
Fixpoint ascending (l : list Z) : Prop :=
  match l with
  | [] => True
  | x :: l' => Forall (fun y => x <= y) l' /\ ascending l'
  end.

(** [src.outerjoin(dst, src.c.roll_number == dst.c.rollnumber)], each row
    as [dict(row)]. *)
Definition outer_join (src : list row) (dst : list data_row) : list pydict :=
  flat_map
    (fun r =>
       match List.filter (fun d => d_rollnumber d =? roll_number r) dst with
       | [] => [student_columns r ++ selected None]
       | ds => map (fun d => student_columns r ++ selected (Some d)) ds
       end)
    (order_by_roll src).

(** [s.split("T")[0]] *)
Fixpoint before_T (s : string) : string :=
  match s with
  | String c s' => if Ascii.eqb c "T" then EmptyString else String c (before_T s')
  | EmptyString => EmptyString
  end.

(** [v.strip()] on an arbitrary object *)
Definition py_strip (v : pyval) : res string :=
  match v with
  | PStr s => Ok (strip s)
  | _ => Raise (AttributeError v "strip")
  end.

Section Build.
Context (lib : pylib).

Definition _to_json_obj (v : pyval) : pyval :=
  match v with
  | PNone => PNone
  | PDict _ | PList _ => v
  | PStr s => try_except (json_loads lib s) PNone
  | _ => PNone
  end.

(** The body of the loop over the joined rows. *)
Definition normalise (item : pydict) : res pydict :=
  let item := dict_set item "gh_contribution_history"
                (_to_json_obj (dict_get item "gh_contribution_history")) in
  let item := dict_set item "lc_submission_history"
                (_to_json_obj (dict_get item "lc_submission_history")) in
  let item := dict_set item "lc_progress_history"
                (_to_json_obj (dict_get item "lc_progress_history")) in
  let item := dict_set item "lc_progress_history"
                (_to_json_obj (dict_get item "lc_progress_history")) in
  lcd ← py_strip (por (dict_get item "last_commit_date") (PStr ""));
  if nonempty lcd then mret (dict_set item "last_commit_day" (PStr (before_T lcd)))
  else mret (dict_set item "last_commit_day" PNone).

(** [build_json_list(engine, src_name)]: [has_src] and [has_dst] are the
    inspector's answers for [src_name] and [src_name + "_Data"]. *)
Definition build_json_list (has_src has_dst : bool) (src_name : string) (src : list row)
    (dst : list data_row) : res (list pydict) :=
  if negb has_src then Raise (Exn "SourceTableNotFound" src_name)
  else if negb has_dst then Raise (Exn "DataTableNotFound" (src_name +:+ "_Data"))
  else
    for_each (fun results item => item' ← normalise item; mret (results ++ [item']))
      (outer_join src dst) [].

End Build.

End DataFetch.

(** ** [app.py]: the endpoints that call the functions above

    An endpoint returns a body or raises [HTTPException]; the ones that
    write take the table and return it with the reply. *)

Module App.
Import Py Sync Store.

Inductive reply (A : Type) : Type :=
| Reply (body : A)
| HTTPException (status_code : Z) (detail : string).
Arguments Reply {A} body.
Arguments HTTPException {A} status_code detail.

(** [require_password], the dependency of every route: [PASSWORD] is
    [os.getenv("PASSWORD")], [None] when unset. *)
Definition require_password {A} (PASSWORD : option string) (password : string)
    (endpoint : reply A) : reply A :=
  if decide (Some password = PASSWORD) then endpoint
  else HTTPException 401 "Invalid password".

(** [except ValueError as ve] *)
Definition is_ValueError (e : exn) : bool := String.eqb (exn_type e) "ValueError".

(** *** [/update] *)

Record update_body : Type := UpdateBody {
  source_table : string;
  target_table : string;
  body_updated : Z;
  body_errors : list string
}.

Section Update.
Context (lib : Deriver.pylib) (today : Z) (api : providers) (db : nat -> exec_outcome)
        (cfg : settings).

(** [has_table] is the inspector, [rows] the roster of the source table and
    [schedule] the order in which the fetches complete. *)
Definition update_tables (has_table : string -> bool) (rows : list row)
    (schedule : list item -> list item) (table_name : string) : reply update_body :=
  let source := table_name in
  let target := source +:+ "_Data" in
  match update_all_students lib today api db cfg source (has_table source) (has_table target)
          target rows schedule with
  | Ok (updated, errors) => Reply (UpdateBody source target updated errors)
  | Raise e =>
      if is_ValueError e then HTTPException 400 (exn_text e)
      else HTTPException 500 (exn_text e)
  end.

End Update.

(** *** [/addNotif] and [/removeNotif] *)

(** [create_notification_table]: the table afterwards and whether it was
    created. *)
Definition create_notification_table (tbl : option (list notification))
    : list notification * bool :=
  match tbl with
  | Some rows => (rows, false)
  | None => ([], true)
  end.

(** [{"ok": True, **result}] *)
Record add_body : Type := AddBody {
  add_ok : bool;
  add_result : notification
}.

Definition add_notification (db : catalogue) (tbl : option (list notification))
    (table_name : string) (roll_number : Z) (reason : string)
    : list notification * reply add_body :=
  let '(rows, _) := create_notification_table tbl in
  match add_notification_for_table db rows table_name roll_number reason with
  | Ok (rows', result) => (rows', Reply (AddBody true result))
  | Raise e =>
      (rows, if is_ValueError e then HTTPException 400 (exn_text e)
             else HTTPException 500 (exn_text e))
  end.

(** [{"ok": True, "removed": count}], with a [detail] when nothing was
    removed. *)
Record remove_body : Type := RemoveBody {
  remove_ok : bool;
  removed : Z;
  remove_detail : option string
}.

Definition remove_notification_endpoint (tbl : option (list notification))
    (table_name : string) (roll_number : Z) : list notification * reply remove_body :=
  let '(rows, _) := create_notification_table tbl in
  let '(rows', count) := remove_notification rows table_name roll_number in
  if count =? 0 then
    (rows', Reply (RemoveBody true 0 (Some "No notification found for roll number")))
  else (rows', Reply (RemoveBody true count None)).

(** *** [/data] *)

(** An exception no handler catches leaves the endpoint; the framework
    answers 500. *)
Definition get_data (lib : Deriver.pylib) (has_src has_dst : bool) (table_name : string)
    (src : list row) (dst : list DataFetch.data_row) : reply (list pydict) :=
  match DataFetch.build_json_list lib has_src has_dst table_name src dst with
  | Ok data => Reply data
  | Raise e =>
      if String.eqb (exn_type e) "SourceTableNotFound" then
        HTTPException 400 ("Table '" +:+ table_name +:+ "' does not exist")
      else if String.eqb (exn_type e) "DataTableNotFound" then
        HTTPException 400 ("Data table '" +:+ table_name +:+ "_Data' does not exist")
      else HTTPException 500 "Internal Server Error"
  end.

End App.

(** ** The notification statements of [update_all_students] over the table

    The two kinds of statement the write stage sends for the
    notifications, by what they do to [notification_Data], and the
    notification phase of a run in which every statement succeeds. *)

Module RunStore.
Import Py Deriver Sync Notions Ledger Store.

(** [delete(notif_tbl).where(table_name == source_table,
    reason == reason_text, rollnumber.in_(roll_chunk))] *)
Definition delete_stale (source_table : string) (roll_chunk : list Z)
    (tbl : list notification) : list notification :=
  fst (delete_where
         (fun n => String.eqb (nf_table_name n) source_table
                   && reason_is reason_text n
                   && existsb (Z.eqb (nf_rollnumber n)) roll_chunk) tbl).

(** The row a dictionary of [to_add_notif] proposes. *)
Definition row_of (n : notif) : notification :=
  Notification (Some (n_name n)) (n_rollnumber n) (n_table_name n) (Some (n_reason n)).

(** One row of the [VALUES] of an upsert: [ON CONFLICT (table_name,
    rollnumber) DO UPDATE SET name = excluded.name,
    reason = excluded.reason]. *)
Definition upsert_row (tbl : list notification) (n : notif) : res (list notification) :=
  let row := row_of n in
  if negb (fits row) then Raise DataError
  else if existsb (at_key (n_table_name n) (n_rollnumber n)) tbl then
    Ok (map (fun m => if at_key (n_table_name n) (n_rollnumber n) m
                      then Notification (Some (n_name n)) (nf_rollnumber m) (nf_table_name m)
                             (Some (n_reason n))
                      else m) tbl)
  else Ok (tbl ++ [row]).

(** The keys of the rows proposed are pairwise distinct. *)
Fixpoint distinct_keys (micro : list notif) : bool :=
  match micro with
  | [] => true
  | n :: rest =>
      negb (existsb (fun m => String.eqb (n_table_name m) (n_table_name n)
                              && (n_rollnumber m =? n_rollnumber n)) rest)
      && distinct_keys rest
  end.

(** [pg_insert(notif_tbl).values(micro).on_conflict_do_update(...)]: the
    engine refuses a statement that would touch a row twice. *)
Definition upsert_statement (micro : list notif) (tbl : list notification)
    : res (list notification) :=
  if distinct_keys micro then for_each upsert_row micro tbl
  else Raise (Exn "CardinalityViolation"
                "ON CONFLICT DO UPDATE command cannot affect row a second time").

(** The two notification loops of the write stage; [Raise] when a
    statement fails. *)
Definition notification_phase (cfg : settings) (source_table : string) (g : gathered)
    (tbl : list notification) : res (list notification) :=
  let tbl :=
    fold_left
      (fun tbl roll_chunk =>
         match roll_chunk with
         | [] => tbl
         | _ => delete_stale source_table roll_chunk tbl
         end)
      (removal_chunks cfg (to_remove_notif g)) tbl in
  for_each
    (fun tbl micro =>
       match micro with
       | [] => Ok tbl
       | _ => upsert_statement micro tbl
       end)
    (micro_chunks cfg (to_add_notif g)) tbl.

(** The identifier of a result, and the notification decision on it. *)
Definition roll_of (result : Z * stats * string) : Z := fst (fst result).

Definition is_stale (today : Z) (result : Z * stats * string) : bool :=
  stale_flag today (lc_lastsubmission (snd (fst result))).

(** What the key of a result holds after the phase, given what it held
    before: the stale notification for a stale individual, and for the
    others what was there unless it was a stale notification. *)
Definition expected (today : Z) (source_table : string) (before : option notification)
    (result : Z * stats * string) : option notification :=
  if is_stale today result then
    Some (Notification (Some (snd result)) (roll_of result) source_table (Some reason_text))
  else
    match before with
    | Some n => if reason_is reason_text n then None else Some n
    | None => None
    end.

(** *** The metric rows *)

Definition opt_int (z : option Z) : pyval :=
  match z with
  | Some z => PInt z
  | None => PNone
  end.

(** The dictionary [compute_stats] returns, key by key. *)
Definition stats_columns (s : stats) : pydict :=
  [("git_followers", opt_int (git_followers s));
   ("git_following", opt_int (git_following s));
   ("git_public_repo", opt_int (git_public_repo s));
   ("git_original_repo", opt_int (git_original_repo s));
   ("git_authored_repo", opt_int (git_authored_repo s));
   ("last_commit_date", DataFetch.opt_str (last_commit_date s));
   ("git_badges", DataFetch.opt_str (git_badges s));
   ("lc_total_solved", opt_int (lc_total_solved s));
   ("lc_easy", opt_int (lc_easy s));
   ("lc_medium", opt_int (lc_medium s));
   ("lc_hard", opt_int (lc_hard s));
   ("lc_ranking", opt_int (lc_ranking s));
   ("lc_lastsubmission", DataFetch.opt_str (lc_lastsubmission s));
   ("lc_lastacceptedsubmission", DataFetch.opt_str (lc_lastacceptedsubmission s));
   ("lc_cur_streak", opt_int (lc_cur_streak s));
   ("lc_max_streak", opt_int (lc_max_streak s));
   ("lc_badges", DataFetch.opt_str (lc_badges s));
   ("lc_language", DataFetch.opt_str (lc_language s));
   ("lc_submission_history", DataFetch.opt_str (lc_submission_history s));
   ("gh_contribution_history", DataFetch.opt_str (gh_contribution_history s))].

(** [Integer] and [BigInteger], nullable *)
Definition integer (z : option Z) : bool :=
  match z with
  | Some z => (- 2 ^ 31 <=? z) && (z <? 2 ^ 31)
  | None => true
  end.

Definition biginteger (z : option Z) : bool :=
  match z with
  | Some z => bigint z
  | None => true
  end.

(** The values of a payload row fit the columns of [data_table]; the two
    histories go to [JSONB] columns. *)
Definition stats_fit (roll : Z) (s : stats) : bool :=
  bigint roll
  && integer (git_followers s) && integer (git_following s) && integer (git_public_repo s)
  && integer (git_original_repo s) && integer (git_authored_repo s)
  && varchar 64 (last_commit_date s) && varchar 1024 (git_badges s)
  && integer (lc_total_solved s) && integer (lc_easy s) && integer (lc_medium s)
  && integer (lc_hard s) && biginteger (lc_ranking s)
  && varchar 64 (lc_lastsubmission s) && varchar 64 (lc_lastacceptedsubmission s)
  && integer (lc_cur_streak s) && integer (lc_max_streak s)
  && varchar 1024 (lc_badges s) && varchar 1024 (lc_language s).

(** [SET k = excluded.k] for every key of the payload but [rollnumber]. *)
Definition set_columns (cols : pydict) (payload : pydict) : pydict :=
  fold_left (fun cols kv => dict_set cols (fst kv) (snd kv)) payload cols.

Definition has_roll (roll : Z) (d : DataFetch.data_row) : bool :=
  DataFetch.d_rollnumber d =? roll.

(** One row of the [VALUES] of [pg_insert(dst).values(payload_list)
    .on_conflict_do_update(index_elements=[dst.c.rollnumber], ...)]. *)
Definition upsert_metrics_row (tbl : list DataFetch.data_row) (result : Z * stats * string)
    : res (list DataFetch.data_row) :=
  let roll := roll_of result in
  let payload := stats_columns (snd (fst result)) in
  if negb (stats_fit roll (snd (fst result))) then Raise DataError
  else if existsb (has_roll roll) tbl then
    Ok (map (fun d => if has_roll roll d
                      then DataFetch.DataRow (DataFetch.d_rollnumber d)
                             (set_columns (DataFetch.d_columns d) payload)
                      else d) tbl)
  else Ok (tbl ++ [DataFetch.DataRow roll payload]).

Fixpoint distinct_rolls (micro : list (Z * stats * string)) : bool :=
  match micro with
  | [] => true
  | result :: rest =>
      negb (existsb (fun r => roll_of r =? roll_of result) rest) && distinct_rolls rest
  end.

Definition metrics_statement (micro : list (Z * stats * string))
    (tbl : list DataFetch.data_row) : res (list DataFetch.data_row) :=
  if distinct_rolls micro then for_each upsert_metrics_row micro tbl
  else Raise (Exn "CardinalityViolation"
                "ON CONFLICT DO UPDATE command cannot affect row a second time").

(** The loop that writes the metric rows; [Raise] when a statement
    fails. *)
Definition metrics_phase (cfg : settings) (results : list (Z * stats * string))
    (tbl : list DataFetch.data_row) : res (list DataFetch.data_row) :=
  for_each
    (fun tbl micro =>
       match micro with
       | [] => Ok tbl
       | _ => metrics_statement micro tbl
       end)
    (micro_chunks cfg results) tbl.

(** The row stored under a roll number, and the value a column of it
    holds (null when there is no row). *)
Definition data_of (tbl : list DataFetch.data_row) (roll : Z) : option DataFetch.data_row :=
  List.find (has_roll roll) tbl.

Definition column_of (tbl : list DataFetch.data_row) (roll : Z) (k : string) : pyval :=
  match data_of tbl roll with
  | Some d => dict_get (DataFetch.d_columns d) k
  | None => PNone
  end.

End RunStore.
(** * Properties *)

(** ** The calendar *)

Module CalFacts.
Import Py Cal.

Lemma year_of_ordinal_spec n :
  days_before_year (year_of_ordinal n) < n <= days_before_year (year_of_ordinal n + 1).
Proof.
  unfold year_of_ordinal, days_before_year. cbv zeta.
  repeat match goal with |- context [if ?b then _ else _] => destruct b eqn:? end;
    Z.div_mod_to_equations; lia.
Qed.

Lemma days_before_year_next y :
  days_before_year (y + 1) = days_before_year y + 365 + (if is_leap y then 1 else 0).
Proof.
  unfold days_before_year, is_leap. cbv zeta.
  replace (y + 1 - 1) with y by lia.
  destruct (y mod 4 =? 0) eqn:E4, (y mod 100 =? 0) eqn:E100, (y mod 400 =? 0) eqn:E400;
    cbn [andb orb negb]; Z.div_mod_to_equations; lia.
Qed.

Lemma year_of_ordinal_range n :
  MINORD <= n <= MAXORD -> 1 <= year_of_ordinal n <= 9999.
Proof.
  unfold MINORD, MAXORD. intros Hn.
  pose proof (year_of_ordinal_spec n) as H. revert H.
  generalize (year_of_ordinal n). intros y. unfold days_before_year. cbv zeta.
  intros H. Z.div_mod_to_equations. lia.
Qed.

Ltac eval_tables :=
  repeat match goal with
         | |- context [nth ?n ?l 0] =>
             let v := eval vm_compute in (nth n l 0) in change (nth n l 0) with v
         | |- context [Z.ltb 2 ?k] =>
             let v := eval vm_compute in (Z.ltb 2 k) in change (Z.ltb 2 k) with v
         | |- context [Z.eqb ?k ?j] =>
             let v := eval vm_compute in (Z.eqb k j) in change (Z.eqb k j) with v
         end;
  cbn [andb orb].

Lemma month_of_day_of_year_spec y doy :
  1 <= doy <= 365 + (if is_leap y then 1 else 0) ->
  let m := month_of_day_of_year y doy in
  1 <= m <= 12 /\ 1 <= doy - days_before_month y m <= days_in_month y m.
Proof.
  intros Hd m. subst m.
  remember (month_of_day_of_year y doy) as m eqn:Em.
  unfold month_of_day_of_year in Em. cbv zeta in Em.
  unfold days_before_month in Em.
  destruct (is_leap y) eqn:L;
    repeat match type of Em with
           | context [nth ?n ?l 0] =>
               let v := eval vm_compute in (nth n l 0) in change (nth n l 0) with v in Em
           | context [Z.ltb 2 ?k] =>
               let v := eval vm_compute in (Z.ltb 2 k) in change (Z.ltb 2 k) with v in Em
           end;
    cbn [andb] in Em;
    repeat match type of Em with
           | context [if (?a <? ?b) then _ else _] => destruct (Z.ltb_spec a b)
           end;
    subst m; unfold days_before_month, days_in_month; rewrite L; eval_tables; lia.
Qed.

Lemma ord2ymd_valid n :
  MINORD <= n <= MAXORD ->
  let '(y, m, d) := ord2ymd n in valid_date y m d = true.
Proof.
  intros Hn. unfold ord2ymd. cbv zeta.
  pose proof (year_of_ordinal_range n Hn) as Hy.
  pose proof (year_of_ordinal_spec n) as Hs.
  rewrite days_before_year_next in Hs.
  set (y := year_of_ordinal n) in *.
  destruct (month_of_day_of_year_spec y (n - days_before_year y)) as [Hm Hd]; [lia|].
  unfold valid_date. repeat (apply andb_true_intro; split); apply Z.leb_le; lia.
Qed.

Lemma ymd2ord_ord2ymd n :
  let '(y, m, d) := ord2ymd n in ymd2ord y m d = n.
Proof. unfold ord2ymd, ymd2ord. cbv zeta. lia. Qed.

Lemma digit_char_spec k :
  0 <= k <= 9 -> is_digit (digit_char k) = true /\ digit_val (digit_char k) = k.
Proof.
  intros Hk.
  assert (k = 0 \/ k = 1 \/ k = 2 \/ k = 3 \/ k = 4 \/ k = 5 \/ k = 6 \/ k = 7 \/ k = 8 \/ k = 9)
    as Hc by lia.
  repeat destruct Hc as [-> | Hc]; try subst k; split; reflexivity.
Qed.

Lemma parse_Y_fmt4 y rest :
  0 <= y <= 9999 -> parse_Y (fmt4 y rest) = Some (y, rest).
Proof.
  intros Hy. unfold parse_Y, fmt4.
  destruct (digit_char_spec (y / 1000)) as [-> ->]; [Z.div_mod_to_equations; lia|].
  destruct (digit_char_spec (y / 100 mod 10)) as [-> ->]; [Z.div_mod_to_equations; lia|].
  destruct (digit_char_spec (y / 10 mod 10)) as [-> ->]; [Z.div_mod_to_equations; lia|].
  destruct (digit_char_spec (y mod 10)) as [-> ->]; [Z.div_mod_to_equations; lia|].
  cbn [andb]. do 2 f_equal. Z.div_mod_to_equations; lia.
Qed.

Lemma parse_m_fmt2 m rest :
  1 <= m <= 12 -> parse_m (fmt2 m rest) = Some (m, rest).
Proof.
  intros Hm.
  assert (m = 1 \/ m = 2 \/ m = 3 \/ m = 4 \/ m = 5 \/ m = 6 \/ m = 7 \/ m = 8 \/ m = 9
          \/ m = 10 \/ m = 11 \/ m = 12) as Hc by lia.
  repeat destruct Hc as [-> | Hc]; try subst m; reflexivity.
Qed.

Lemma parse_d_fmt2 d :
  1 <= d <= 31 -> parse_d (fmt2 d "") = Some (d, "").
Proof.
  intros Hd.
  assert (Hc : exists k : nat, (k < 31)%nat /\ d = 1 + Z.of_nat k).
  { exists (Z.to_nat (d - 1)). lia. }
  destruct Hc as (k & Hk & ->).
  do 31 (destruct k as [|k]; [reflexivity|]). lia.
Qed.

Lemma days_in_month_le y m : days_in_month y m <= 31.
Proof. unfold days_in_month. repeat case_match; lia. Qed.

(** Reading back a date written in ISO form gives the date. *)
Lemma strptime_isoformat n :
  MINORD <= n <= MAXORD -> strptime_ymd (isoformat n) = Some n.
Proof.
  intros Hn. unfold isoformat, strptime_ymd.
  pose proof (ord2ymd_valid n Hn) as Hv. pose proof (ymd2ord_ord2ymd n) as Ho.
  destruct (ord2ymd n) as [[y m] d].
  assert (Hv' := Hv). unfold valid_date in Hv'.
  repeat (apply andb_prop in Hv' as [Hv' ?]).
  pose proof (days_in_month_le y m).
  rewrite parse_Y_fmt4 by lia. rewrite parse_m_fmt2 by lia. rewrite parse_d_fmt2 by lia.
  rewrite Hv, Ho. reflexivity.
Qed.

End CalFacts.

(** ** The metric deriver *)

Module DeriverFacts.
Import Py Cal Deriver Sync Notions CalFacts.

Lemma bind_ok {A B} (r : res A) (f : A -> res B) (b : B) :
  r ≫= f = Ok b -> exists a, r = Ok a /\ f a = Ok b.
Proof. destruct r as [a|e]; [eauto | discriminate]. Qed.

Lemma fromtimestamp_date_ok ts n :
  fromtimestamp_date ts = Ok n <-> n = EPOCH + ts / 86400 /\ MINORD <= n <= MAXORD.
Proof.
  unfold fromtimestamp_date.
  destruct (Z.leb_spec MINORD (EPOCH + ts / 86400)), (Z.leb_spec (EPOCH + ts / 86400) MAXORD);
    cbn [andb]; split; try (intros [= <-]; lia); try (intros [-> ?]; reflexivity || lia); try discriminate.
Qed.

Lemma date_of_seconds_shape (ts : Z) :
  let r := try_except (d ← fromtimestamp_date ts; mret (Some (isoformat d))) None in
  r = None \/ exists n, MINORD <= n <= MAXORD /\ r = Some (isoformat n).
Proof.
  cbv zeta. destruct (fromtimestamp_date ts) as [n|e] eqn:E; [right | left; reflexivity].
  apply fromtimestamp_date_ok in E as [_ Hn]. exists n. split; [exact Hn | reflexivity].
Qed.

Lemma to_date_from_ts_shape (v : pyval) :
  _to_date_from_ts v = None \/
  exists n, MINORD <= n <= MAXORD /\ _to_date_from_ts v = Some (isoformat n).
Proof.
  unfold _to_date_from_ts.
  destruct v; auto; repeat case_match; auto; apply date_of_seconds_shape.
Qed.

(** What a returned record is made of. *)
Lemma compute_stats_ok lib today gj lp ll lb gc cal st :
  compute_stats lib today gj lp ll lb gc cal = Ok st ->
  exists oc ac raw ls la langs,
    repo_counts gj = Ok (oc, ac) /\
    raw_last_commit gj = Ok raw /\
    recent_submissions lp = Ok (ls, la) /\
    languages_of ll = Ok langs /\
    st = {|
      git_followers := _safe_int (dict_get gj "followers");
      git_following := _safe_int (dict_get gj "following");
      git_public_repo := _safe_int (dict_get gj "public_repo_count");
      git_original_repo := Some oc;
      git_authored_repo := Some ac;
      last_commit_date := _to_date_only lib raw;
      git_badges := _join_list (git_badges_list gj);
      lc_total_solved := _safe_int (dict_get lp "totalSolved");
      lc_easy := _safe_int (dict_get lp "easySolved");
      lc_medium := _safe_int (dict_get lp "mediumSolved");
      lc_hard := _safe_int (dict_get lp "hardSolved");
      lc_ranking := _safe_int (dict_get lp "ranking");
      lc_lastsubmission := ls;
      lc_lastacceptedsubmission := la;
      lc_cur_streak := fst (_calc_streaks today (por (submission_calendar lib lp cal) (PDict [])));
      lc_max_streak := snd (_calc_streaks today (por (submission_calendar lib lp cal) (PDict [])));
      lc_badges := str_of_Z <$> _safe_int (dict_get lb "badgesCount");
      lc_language := _join_list langs;
      lc_submission_history := json_dumps <$> lc_history_of (submission_calendar lib lp cal);
      gh_contribution_history := json_dumps <$> gh_history_of gc
    |}.
Proof.
  unfold compute_stats. intros H.
  apply bind_ok in H as ([oc ac] & E1 & H).
  apply bind_ok in H as (raw & E2 & H).
  apply bind_ok in H as ([ls la] & E3 & H).
  apply bind_ok in H as (langs & E4 & H).
  injection H as <-. exists oc, ac, raw, ls, la, langs. auto.
Qed.

Lemma recent_submissions_shape lp ls la :
  recent_submissions lp = Ok (ls, la) ->
  ls = None \/ exists n, MINORD <= n <= MAXORD /\ ls = Some (isoformat n).
Proof.
  unfold recent_submissions.
  destruct (truthy _); [| intros [= <- <-]; auto].
  intros H.
  repeat (apply bind_ok in H as (? & ? & H)). injection H as <- <-.
  apply to_date_from_ts_shape.
Qed.

Lemma compute_stats_lastsubmission lib t0 gj lp ll lb gc cal st :
  compute_stats lib t0 gj lp ll lb gc cal = Ok st ->
  exists last : option Z,
    lc_lastsubmission st = isoformat <$> last /\
    (forall n, last = Some n -> MINORD <= n <= MAXORD).
Proof.
  intros H. apply compute_stats_ok in H as (oc & ac & raw & ls & la & langs & _ & _ & H & _ & ->).
  cbn [lc_lastsubmission].
  apply recent_submissions_shape in H as [-> | (n & Hn & ->)].
  - exists None. split; [reflexivity | discriminate].
  - exists (Some n). split; [reflexivity | intros ? [= <-]; exact Hn].
Qed.

(** *** Integer fields *)

Lemma safe_int_not_none (v : pyval) :
  v <> PNone -> _safe_int v = try_except (Some <$> py_int v) None.
Proof. destruct v; [congruence | reflexivity..]. Qed.

Lemma safe_int_provided (d : pydict) (key : string) (z : Z) :
  _safe_int (dict_get d key) = Some z <-> provided d key z.
Proof.
  unfold provided, dict_get. destruct (dict_lookup d key) as [v|]; cbn -[_safe_int py_int].
  - assert (v = PNone \/ v <> PNone) as [->|Hv] by (destruct v; auto; right; discriminate).
    { split; [discriminate | intros (v' & [= <-] & Hv & _); congruence]. }
    rewrite (safe_int_not_none v Hv). split.
    + intros H. exists v. split; [reflexivity|]. split; [exact Hv|].
      destruct (py_int v) as [z'|e]; [injection H as ->; reflexivity | discriminate].
    + intros (v' & [= <-] & _ & ->). reflexivity.
  - split; [discriminate | intros (v & [=] & _)].
Qed.

Lemma py_len_nonneg v n : py_len v = Ok n -> 0 <= n.
Proof. destruct v; cbn [py_len]; intros [= <-]; lia. Qed.


Lemma compute_stats_empty lib today :
  compute_stats lib today [] [] [] [] None None = Ok empty_stats.
Proof. reflexivity. Qed.



(** C3: a language-statistics payload whose [matchedUser] is null makes
    [compute_stats] raise. *)
Theorem compute_stats_raises_on_null_user lib today :
  compute_stats lib today [] [] [("matchedUser", PNone)] [] None None
  = Raise (AttributeError PNone "get").
Proof.
  unfold compute_stats.
  change (repo_counts []) with (Ok (A := Z * Z) (0, 0)). cbn [mbind res_bind].
  change (raw_last_commit []) with (Ok PNone). cbn [mbind res_bind].
  change (recent_submissions []) with (Ok (A := option string * option string) (None, None)).
  cbn [mbind res_bind]. reflexivity.
Qed.

(** *** Date normalisation *)

(** C6 (as amended).  The history normalisation of the submission
    calendar maps a pure-digit key of [s] epoch seconds and a pure-digit
    key of the equivalent [1000 * s + r] epoch milliseconds to the same
    YYYY-MM-DD date, that of the UTC day of second [s], provided
    [10 ** 7 < s <= 10 ** 10]: a key counts as milliseconds exactly when
    its value exceeds [10 ** 10]. *)
Theorem history_seconds_millis_agree (ks kms : string) (r : Z) :
  isdigit (strip ks) = true ->
  isdigit (strip kms) = true ->
  0 <= r < 1000 ->
  int_of_digits (strip kms) = 1000 * int_of_digits (strip ks) + r ->
  10 ^ 7 < int_of_digits (strip ks) <= 10 ^ 10 ->
  let n := EPOCH + int_of_digits (strip ks) / 86400 in
  MINORD <= n <= MAXORD /\
  history_key_date ks = Some (Ok (isoformat n)) /\
  history_key_date kms = Some (Ok (isoformat n)).
Proof.
  intros Hs Hms Hr Heq Hrange n.
  assert (Hn : MINORD <= n <= MAXORD).
  { subst n. unfold MINORD, MAXORD, EPOCH. change (10 ^ 7) with 10000000 in Hrange.
    change (10 ^ 10) with 10000000000 in Hrange. Z.div_mod_to_equations. lia. }
  split; [exact Hn|].
  assert (Hf : fromtimestamp_date (int_of_digits (strip ks)) = Ok n)
    by (apply fromtimestamp_date_ok; split; [reflexivity | exact Hn]).
  unfold history_key_date. rewrite Hs, Hms, Heq.
  change (10 ^ 10) with 10000000000 in *. change (10 ^ 7) with 10000000 in *.
  destruct (Z.ltb_spec 10000000000 (int_of_digits (strip ks))); [lia|].
  destruct (Z.ltb_spec 10000000000 (1000 * int_of_digits (strip ks) + r)); [|lia].
  replace ((1000 * int_of_digits (strip ks) + r) / 1000) with (int_of_digits (strip ks))
    by (Z.div_mod_to_equations; lia).
  rewrite Hf. split; reflexivity.
Qed.

Lemma history_seconds_millis_agree_witness :
  history_key_date "1700000000" = Some (Ok (isoformat 738838))
  /\ history_key_date "1700000000000" = Some (Ok (isoformat 738838)).
Proof.
  apply (history_seconds_millis_agree "1700000000" "1700000000000" 0);
    [reflexivity | reflexivity | lia | reflexivity |
     vm_compute; split; [reflexivity | intros H; discriminate H]].
Defined.

Lemma to_date_only_digits lib (s : string) :
  isdigit (strip s) = true ->
  _to_date_only lib (PStr s)
  = try_except (d ← fromtimestamp_date (int_of_digits (strip s)); mret (Some (isoformat d))) None.
Proof.
  intros H. unfold _to_date_only. cbn [py_str]. rewrite H.
  destruct (String.eqb (strip s) "") eqn:E; [|reflexivity].
  apply String.eqb_eq in E. rewrite E in H. discriminate.
Qed.

(** C6, counterexample: [_to_date_only] reads every pure-digit string as
    seconds, so the 13-digit milliseconds of 2023-11-14 fall outside the
    calendar and give null; and in the history normalisation an 11-digit
    count of seconds is itself taken for milliseconds. *)
Lemma millis_not_recognised :
  _to_date_only example_lib (PStr "1700000000") = Some "2023-11-14"
  /\ _to_date_only example_lib (PStr "1700000000000") = None
  /\ history_key_date "10000000001" = Some (Ok "1970-04-26")
  /\ history_key_date "10000000001000" = Some (Ok "2286-11-20").
Proof. repeat split; vm_compute; reflexivity. Qed.

(** An already canonical date (the ISO form of a day of the calendar) is
    returned unchanged by [_to_date_only]. *)
Lemma is_digit_not_space (c : ascii) : is_digit c = true -> is_space c = false.
Proof.
  destruct c as [[] [] [] [] [] [] [] []]; cbn; intros H; try reflexivity; discriminate H.
Qed.

Lemma canonical_date_unchanged lib (a b c d e f g h : ascii) :
  is_digit a = true -> is_digit b = true -> is_digit c = true -> is_digit d = true ->
  is_digit e = true -> is_digit f = true -> is_digit g = true -> is_digit h = true ->
  let s := String a (String b (String c (String d (String "-"
             (String e (String f (String "-" (String g (String h ""))))))))) in
  _to_date_only lib (PStr s) = Some s.
Proof.
  intros Ha Hb Hc Hd He Hf Hg Hh s.
  assert (Hstrip : strip s = s).
  { unfold strip, s. cbn [lstrip]. rewrite (is_digit_not_space a Ha).
    cbn [rstrip]. rewrite (is_digit_not_space h Hh). reflexivity. }
  unfold _to_date_only. cbn [py_str]. rewrite Hstrip.
  unfold s, isdigit. cbn [all_digits String.eqb Ascii.eqb].
  rewrite Ha, Hb, Hc, Hd. reflexivity.
Qed.

Theorem date_normalisation_idempotent lib (n : Z) :
  MINORD <= n <= MAXORD -> _to_date_only lib (PStr (isoformat n)) = Some (isoformat n).
Proof.
  intros Hn. unfold isoformat.
  pose proof (ord2ymd_valid n Hn) as Hv.
  destruct (ord2ymd n) as [[y m] d]. unfold valid_date in Hv.
  repeat (apply andb_prop in Hv as [Hv ?]).
  pose proof (days_in_month_le y m).
  unfold fmt4, fmt2.
  apply canonical_date_unchanged;
    apply digit_char_spec; Z.div_mod_to_equations; lia.
Qed.

Lemma date_normalisation_idempotent_witness :
  _to_date_only example_lib (PStr "2023-11-14") = Some "2023-11-14".
Proof. apply (date_normalisation_idempotent example_lib 738838). unfold MINORD, MAXORD. lia. Defined.

(** *** Submission recency *)

(** The most recent accepted submission is the first entry of the list
    whose status, lower-cased, is "accepted": its timestamp gives the
    date, whatever follows it in the list. *)
Theorem first_accepted_submission (before after : list pyval) (d : pydict) (status : string) :
  Forall (fun sub => exists d' s', sub = PDict d' /\ por (dict_get d' "statusDisplay") (PStr "") = PStr s'
                                   /\ lower s' <> "accepted") before ->
  por (dict_get d "statusDisplay") (PStr "") = PStr status ->
  lower status = "accepted" ->
  find_accepted (before ++ PDict d :: after) = Ok (_to_date_from_ts (dict_get d "timestamp")).
Proof.
  intros Hb Hs Hl. induction Hb as [|sub before (d' & s' & -> & Hs' & Hn) _ IH].
  - cbn [app find_accepted attr_get mbind res_bind]. rewrite Hs. cbn [py_lower mbind res_bind].
    rewrite Hl. reflexivity.
  - cbn [app find_accepted attr_get mbind res_bind]. rewrite Hs'. cbn [py_lower mbind res_bind].
    destruct (String.eqb (lower s') "accepted") eqn:E; [|exact IH].
    apply String.eqb_eq in E. contradiction.
Qed.

Lemma first_accepted_submission_witness :
  find_accepted
    [PDict [("timestamp", PStr "1700000000"); ("statusDisplay", PStr "Wrong Answer")];
     PDict [("timestamp", PStr "1699900000"); ("statusDisplay", PStr "ACCEPTED")];
     PDict [("timestamp", PStr "1699800000"); ("statusDisplay", PStr "Accepted")]]
  = Ok (Some "2023-11-13").
Proof.
  apply (first_accepted_submission
           [PDict [("timestamp", PStr "1700000000"); ("statusDisplay", PStr "Wrong Answer")]]
           [PDict [("timestamp", PStr "1699800000"); ("statusDisplay", PStr "Accepted")]]
           [("timestamp", PStr "1699900000"); ("statusDisplay", PStr "ACCEPTED")] "ACCEPTED");
    [| reflexivity | reflexivity].
  repeat constructor. eexists _, _. split; [reflexivity|]. split; [reflexivity | discriminate].
Defined.

(** *** Payloads that [compute_stats] accepts *)

Lemma find_accepted_total (subs : list pyval) :
  Forall submission_ok subs -> exists r, find_accepted subs = Ok r.
Proof.
  induction 1 as [|sub subs (d & -> & Hs) _ IH]; [eexists; reflexivity|].
  cbn [find_accepted attr_get mbind res_bind].
  assert (exists low, py_lower (por (dict_get d "statusDisplay") (PStr "")) = Ok low) as (low & ->).
  { unfold por. destruct Hs as [->|(s & Es)]; [eexists; reflexivity|].
    rewrite Es. destruct (truthy (PStr s)); eexists; reflexivity. }
  cbn [mbind res_bind]. destruct (String.eqb low "accepted"); [eexists; reflexivity | exact IH].
Qed.

Lemma add_languages_total (xs : list pyval) :
  Forall is_dict xs -> forall acc, exists r, for_each add_language xs acc = Ok r.
Proof.
  induction 1 as [|x xs (d & ->) _ IH]; intros acc; [eexists; reflexivity|].
  cbn [for_each].
  assert (exists acc', add_language acc (PDict d) = Ok acc') as (acc' & ->).
  { unfold add_language. cbn [attr_get mbind res_bind].
    destruct (truthy (dict_get d "languageName")); eexists; reflexivity. }
  cbn [mbind res_bind]. apply IH.
Qed.

(** [compute_stats] returns a record for every payload whose collections
    have the expected shapes (see [well_shaped]), whatever the other
    values are. *)
Theorem compute_stats_total lib today gj lp ll lb gc cal :
  well_shaped gj lp ll -> exists st, compute_stats lib today gj lp ll lb gc cal = Ok st.
Proof.
  intros ((n & Hn) & (m & Hm) & (od & Ho) & (subs & Hsubs & Hf) & (mu & xs & Hmu & Hxs & Hd)).
  unfold compute_stats.
  assert (repo_counts gj = Ok (n, m)) as -> by (unfold repo_counts; rewrite Hn, Hm; reflexivity).
  cbn [mbind res_bind].
  assert (exists raw, raw_last_commit gj = Ok raw) as (raw & ->)
    by (unfold raw_last_commit; rewrite Ho; eexists; reflexivity).
  cbn [mbind res_bind].
  assert (exists p, recent_submissions lp = Ok p) as ([ls la] & ->).
  { unfold recent_submissions. rewrite Hsubs.
    destruct subs as [|sub subs']; [eexists; reflexivity|]. cbn [truthy py_item0 mbind res_bind].
    pose proof (Forall_inv Hf) as (d & -> & _). cbn [attr_get py_iter mbind res_bind].
    destruct (find_accepted_total _ Hf) as (r & ->). eexists. reflexivity. }
  cbn [mbind res_bind].
  assert (exists langs, languages_of ll = Ok langs) as (langs & ->).
  { unfold languages_of. rewrite Hmu. cbn [attr_get_or mbind res_bind]. rewrite Hxs.
    cbn [py_iter mbind res_bind]. apply add_languages_total, Hd. }
  cbn [mbind res_bind]. eexists. reflexivity.
Qed.

Lemma compute_stats_total_witness :
  exists st, compute_stats example_lib 738838 [] unaccepted_profile [] [] None None = Ok st.
Proof.
  apply compute_stats_total. repeat split.
  - exists 0. reflexivity.
  - exists 0. reflexivity.
  - exists []. reflexivity.
  - eexists. split; [reflexivity|]. repeat constructor.
    eexists. split; [reflexivity|]. right. eexists. reflexivity.
  - exists [], []. repeat split; constructor.
Defined.

End DeriverFacts.

(** ** The fetch stage and the staleness decision *)

Module SyncFacts.
Import Py Cal Deriver Sync Notions CalFacts DeriverFacts.

Lemma nonempty_isoformat n : nonempty (isoformat n) = true.
Proof. unfold isoformat. destruct (ord2ymd n) as [[y m] d]. reflexivity. Qed.

Lemma stale_flag_isoformat today n :
  MINORD <= n <= MAXORD -> stale_flag today (Some (isoformat n)) = (3 <? today - n).
Proof.
  intros Hn. unfold stale_flag.
  rewrite nonempty_isoformat, strptime_isoformat by exact Hn. reflexivity.
Qed.

(** C1 (as amended).  For every successful result the individual is
    flagged stale, a notification row with the fixed reason being queued
    for upsert, exactly when the derived last-submission date
    ([lc_lastsubmission], the date of the first entry of the recent
    submissions, accepted or not: see [compute_stats_lastsubmission]) is
    null or lies more than 3 days before the current UTC date; otherwise
    the individual is queued for removal of that notification.  A date
    exactly 3 days old is not flagged, one 4 days old is. *)
Theorem staleness_follows_last_submission
    (today : Z) (src : string) (g : gathered) (roll : Z) (nm : string) (st : stats)
    (last : option Z) :
  lc_lastsubmission st = isoformat <$> last ->
  (forall n, last = Some n -> MINORD <= n <= MAXORD) ->
  let o := Fetched roll st nm in
  let stale := match last with None => True | Some n => 3 < today - n end in
  (stale -> gather_one today src g o = flagged src g roll st nm) /\
  (~ stale -> gather_one today src g o = cleared g roll st nm) /\
  (last = Some (today - 3) -> gather_one today src g o = cleared g roll st nm) /\
  (last = Some (today - 4) -> gather_one today src g o = flagged src g roll st nm).
Proof.
  intros Hl Hr o stale.
  assert (Hflag : stale_flag today (lc_lastsubmission st)
                  = match last with None => true | Some n => 3 <? today - n end).
  { rewrite Hl. destruct last as [n|]; [|reflexivity].
    cbn [fmap option_fmap option_map]. apply stale_flag_isoformat, Hr. reflexivity. }
  assert (Hs : stale -> gather_one today src g o = flagged src g roll st nm).
  { intros S. unfold gather_one, o. rewrite Hflag.
    subst stale. destruct last as [n|]; [|reflexivity].
    destruct (Z.ltb_spec 3 (today - n)); [reflexivity | lia]. }
  assert (Hn : ~ stale -> gather_one today src g o = cleared g roll st nm).
  { intros S. unfold gather_one, o. rewrite Hflag.
    subst stale. destruct last as [n|]; [|tauto].
    destruct (Z.ltb_spec 3 (today - n)); [lia | reflexivity]. }
  repeat split; auto.
  - intros E. apply Hn. subst stale. rewrite E. lia.
  - intros E. apply Hs. subst stale. rewrite E. lia.
Qed.


Lemma staleness_follows_last_submission_witness :
  gather_one 738838 "students" (Gathered [] [] [] [])
    (Fetched 7 (stats_with_lastsubmission (Some "2023-11-10")) "Ann")
  = flagged "students" (Gathered [] [] [] []) 7
      (stats_with_lastsubmission (Some "2023-11-10")) "Ann".
Proof.
  refine (proj1 (staleness_follows_last_submission 738838 "students" (Gathered [] [] [] []) 7 "Ann"
                   (stats_with_lastsubmission (Some "2023-11-10")) (Some 738834) _ _) _).
  - reflexivity.
  - intros n [= <-]. unfold MINORD, MAXORD. lia.
  - cbv zeta. lia.
Defined.

(** C1, counterexample: a profile whose only recent submission was made
    today and was not accepted has no last-accepted-submission date, and
    the individual is not flagged but queued for removal. *)
Lemma unaccepted_submission_not_flagged :
  compute_stats example_lib 738838 [] unaccepted_profile [] [] None None = Ok unaccepted_stats
  /\ lc_lastacceptedsubmission unaccepted_stats = None
  /\ gather_one 738838 "students" (Gathered [] [] [] [])
       (Fetched 7 unaccepted_stats "Ann")
     = Gathered [] [(7, unaccepted_stats, "Ann")] [] [7].
Proof. repeat split; vm_compute; reflexivity. Qed.

(** C10.  A successful result whose last-submission field is a non-empty
    string that does not parse as a date is kept among the results and
    flagged stale: the notification row with the fixed reason is queued
    for upsert, nothing is queued for removal and no error is recorded. *)
Theorem unparsable_date_is_stale
    (today : Z) (src : string) (g : gathered) (roll : Z) (nm : string) (st : stats)
    (s : string) :
  lc_lastsubmission st = Some s ->
  s <> "" ->
  strptime_ymd s = None ->
  gather_one today src g (Fetched roll st nm) = flagged src g roll st nm.
Proof.
  intros Hl Hs Hp. unfold gather_one.
  assert (Hf : stale_flag today (lc_lastsubmission st) = true).
  { rewrite Hl. unfold stale_flag, nonempty.
    destruct (String.eqb s "") eqn:E; [reflexivity|]. cbn [negb]. rewrite Hp. reflexivity. }
  rewrite Hf. reflexivity.
Qed.

Lemma unparsable_date_is_stale_witness :
  gather_one 738838 "students" (Gathered [] [] [] [])
    (Fetched 7 (stats_with_lastsubmission (Some "2023-02-30")) "Ann")
  = flagged "students" (Gathered [] [] [] []) 7
      (stats_with_lastsubmission (Some "2023-02-30")) "Ann".
Proof.
  apply (unparsable_date_is_stale 738838 "students" (Gathered [] [] [] []) 7 "Ann"
           (stats_with_lastsubmission (Some "2023-02-30")) "2023-02-30");
    [reflexivity | discriminate | reflexivity].
Defined.

(** *** The fetch of one identity *)

(** C2: an identity with only one of the two handles never yields a
    success: whatever the providers return, reading the local variable that
    only the other handle's branch assigns raises, and the fetch ends with
    one error string that starts with the identity's identifier. *)
Theorem single_handle_fetch_fails lib today api (it : item) :
  nonempty (gh it) = false \/ nonempty (lc it) = false ->
  exists cause,
    _fetch_and_compute lib today api it
    = FetchFailed (roll it) (name it) ("roll=" +:+ str_of_Z (roll it) +:+ ": " +:+ cause).
Proof.
  intros H. unfold _fetch_and_compute.
  match goal with
  | |- context [match ?r with Ok _ => _ | Raise _ => _ end] =>
      assert (Hr : exists e, r = Raise e); [| destruct Hr as (e & ->); eauto]
  end.
  destruct (nonempty (gh it)) eqn:Eg, (nonempty (lc it)) eqn:El;
    try (destruct H; discriminate);
    repeat match goal with
           | |- context [?f api ?x] =>
               lazymatch f with
               | get_github_summary => idtac | get_github_contributions => idtac
               | get_leetcode_profile => idtac | get_leetcode_language_stats => idtac
               | get_leetcode_badges => idtac | get_leetcode_calendar => idtac
               end;
               destruct (f api x); cbn [mbind res_bind mret res_ret]
           end;
    cbn; eauto.
Qed.

Lemma single_handle_fetch_fails_witness :
  exists cause,
    _fetch_and_compute example_lib 738838 empty_api (Item 7 "octocat" "" "Ann")
    = FetchFailed 7 "Ann" ("roll=7: " +:+ cause).
Proof.
  apply (single_handle_fetch_fails example_lib 738838 empty_api (Item 7 "octocat" "" "Ann")).
  right. reflexivity.
Defined.

(** The failing input of C2 evaluated: with only a version-control handle
    and providers that return normally, the fetch ends in this error. *)
Example single_handle_example lib today :
  _fetch_and_compute lib today empty_api (Item 7 "octocat" "" "Ann")
  = FetchFailed 7 "Ann"
      ("roll=7: UnboundLocalError: cannot access local variable 'lc_calendar' "
       +:+ "where it is not associated with a value").
Proof. reflexivity. Qed.

(** An identity with both handles whose six provider calls return, and
    whose payloads the deriver accepts, yields the success tuple. *)
Theorem both_handles_fetch_succeeds lib today api (it : item)
    (g c p l b cal : pydict) (st : stats) :
  nonempty (gh it) = true -> nonempty (lc it) = true ->
  get_github_summary api (gh it) = Ok g ->
  get_github_contributions api (gh it) = Ok c ->
  get_leetcode_profile api (lc it) = Ok p ->
  get_leetcode_language_stats api (lc it) = Ok l ->
  get_leetcode_badges api (lc it) = Ok b ->
  get_leetcode_calendar api (lc it) = Ok cal ->
  compute_stats lib today g p l b (Some c) (Some cal) = Ok st ->
  _fetch_and_compute lib today api it = Fetched (roll it) st (name it).
Proof.
  intros Hg Hl E1 E2 E3 E4 E5 E6 Hs. unfold _fetch_and_compute.
  rewrite Hg, Hl, E1, E2, E3, E4, E5, E6. cbn [mbind res_bind mret res_ret read_local].
  rewrite Hs. reflexivity.
Qed.

Lemma both_handles_fetch_succeeds_witness :
  _fetch_and_compute example_lib 738838 empty_api (Item 3 "octocat" "ann" "Ann")
  = Fetched 3 empty_stats "Ann".
Proof.
  apply (both_handles_fetch_succeeds example_lib 738838 empty_api (Item 3 "octocat" "ann" "Ann")
           [] [] [] [] [] []); reflexivity.
Defined.

(** A fetch that raises gives one error string, which starts with the
    identity's identifier. *)
Theorem fetch_outcome lib today api (it : item) :
  (exists st, _fetch_and_compute lib today api it = Fetched (roll it) st (name it)) \/
  (exists cause,
     _fetch_and_compute lib today api it
     = FetchFailed (roll it) (name it) ("roll=" +:+ str_of_Z (roll it) +:+ ": " +:+ cause)).
Proof.
  unfold _fetch_and_compute.
  match goal with
  | |- context [match ?r with Ok _ => _ | Raise _ => _ end] => destruct r as [st|e]
  end; [left | right]; eexists; reflexivity.
Qed.

Lemma gather_fold src today (os : list outcome) :
  forall g,
    let g' := fold_left (gather_one today src) os g in
    g_results g' = g_results g ++ omap fetched_of os /\
    g_errors g' = g_errors g ++ omap failure_of os /\
    (length (to_add_notif g') + length (to_remove_notif g')
     = length (to_add_notif g) + length (to_remove_notif g) + length (omap fetched_of os))%nat.
Proof.
  induction os as [|o os IH]; intros g; cbv zeta.
  - cbn. rewrite !app_nil_r. repeat split; lia.
  - cbn [fold_left]. destruct (IH (gather_one today src g o)) as (I1 & I2 & I3).
    rewrite I1, I2, I3. clear IH I1 I2 I3.
    destruct o as [r st nm | r nm err]; unfold gather_one.
    + destruct (stale_flag today (lc_lastsubmission st)); cbn;
        rewrite <- ?app_assoc, ?length_app; cbn; repeat split; lia.
    + cbn. rewrite <- ?app_assoc. repeat split; lia.
Qed.



(** The work items are the roster rows that have at least one handle, in
    roster order; a row with neither handle is skipped. *)
Theorem prepare_work_spec (rows : list row) :
  prepare_work rows
  = map (fun r => Item (roll_number r) (or_empty_strip (github_username r))
                       (or_empty_strip (leetcode_username r)) (or_empty_strip (row_name r)))
        (filter (fun r => nonempty (or_empty_strip (github_username r)) = true
                          \/ nonempty (or_empty_strip (leetcode_username r)) = true) rows).
Proof.
  induction rows as [|r rows IH]; [reflexivity|].
  cbn [prepare_work]. rewrite filter_cons.
  destruct (nonempty (or_empty_strip (github_username r))) eqn:Eg,
           (nonempty (or_empty_strip (leetcode_username r))) eqn:El; cbn [negb andb];
    case_decide as Hd; try (destruct Hd; discriminate); try (exfalso; apply Hd; auto; fail);
    cbn [map]; rewrite IH; reflexivity.
Qed.

End SyncFacts.

(** ** Chunking and batch sizes *)

Module ChunkFacts.
Import Py Cal Deriver Sync Notions.

Lemma py_range_length n s : length (py_range n s) = ceil_div n s.
Proof. unfold py_range. rewrite length_map, length_seq. reflexivity. Qed.

Lemma chunks_nil {A} (s : nat) : (0 < s)%nat -> _chunks (@nil A) s = [].
Proof.
  intros Hs. unfold _chunks, py_range. cbn [length].
  replace ((0 + s - 1) / s)%nat with 0%nat; [reflexivity|].
  symmetry. apply Nat.div_small. lia.
Qed.

Lemma ceil_div_step n s : (0 < s)%nat -> (0 < n)%nat -> ceil_div n s = S (ceil_div (n - s) s).
Proof.
  intros Hs Hn. unfold ceil_div.
  destruct (Nat.le_gt_cases s n) as [L|G].
  - replace (n + s - 1)%nat with (1 * s + (n - s + s - 1))%nat by lia.
    rewrite Nat.div_add_l by lia. lia.
  - replace (n - s)%nat with 0%nat by lia.
    replace ((0 + s - 1) / s)%nat with 0%nat by (symmetry; apply Nat.div_small; lia).
    replace (n + s - 1)%nat with (1 * s + (n - 1))%nat by lia.
    rewrite Nat.div_add_l by lia. rewrite Nat.div_small by lia. lia.
Qed.

(** A non-empty list gives its first [s] elements, then the chunks of the rest. *)
Lemma chunks_cons {A} (l : list A) (s : nat) :
  (0 < s)%nat -> l <> [] -> _chunks l s = firstn s l :: _chunks (skipn s l) s.
Proof.
  intros Hs Hl. unfold _chunks, py_range.
  assert (0 < length l)%nat as Hn by (destruct l; [congruence | cbn; lia]).
  fold (ceil_div (length l) s). fold (ceil_div (length (skipn s l)) s).
  rewrite (ceil_div_step _ _ Hs Hn), length_skipn.
  cbn [seq map]. rewrite Nat.mul_0_l. cbn [skipn]. f_equal.
  rewrite <- seq_shift, !map_map. apply map_ext. intros k.
  replace (S k * s)%nat with (k * s + s)%nat by lia.
  rewrite <- skipn_skipn. reflexivity.
Qed.

Lemma chunks_ind {A} (s : nat) (P : list A -> list (list A) -> Prop) :
  (0 < s)%nat ->
  P [] [] ->
  (forall l, l <> [] -> P (skipn s l) (_chunks (skipn s l) s) ->
             P l (firstn s l :: _chunks (skipn s l) s)) ->
  forall l, P l (_chunks l s).
Proof.
  intros Hs Hnil Hcons l.
  remember (length l) as n eqn:En. revert l En.
  induction n as [n IH] using lt_wf_ind. intros l En.
  destruct l as [|a l'].
  - rewrite chunks_nil by exact Hs. exact Hnil.
  - rewrite chunks_cons by (exact Hs || discriminate).
    apply Hcons; [discriminate|].
    apply (IH (length (skipn s (a :: l')))); [|reflexivity].
    rewrite length_skipn. subst n. cbn [length]. lia.
Qed.

Lemma chunks_concat {A} (l : list A) (s : nat) : (0 < s)%nat -> concat (_chunks l s) = l.
Proof.
  intros Hs. apply (chunks_ind s (fun l c => concat c = l)); [exact Hs | reflexivity |].
  intros l0 _ IH. cbn [concat]. rewrite IH. apply firstn_skipn.
Qed.

Lemma chunks_sizes {A} (l : list A) (s : nat) :
  (0 < s)%nat -> Forall (fun c => (1 <= length c <= s)%nat) (_chunks l s).
Proof.
  intros Hs. apply (chunks_ind s (fun _ c => Forall (fun c => (1 <= length c <= s)%nat) c));
    [exact Hs | constructor |].
  intros l0 Hl IH. constructor; [|exact IH].
  rewrite length_firstn. destruct l0; [congruence | cbn [length]; lia].
Qed.

Lemma chunks_count {A} (l : list A) (s : nat) : length (_chunks l s) = ceil_div (length l) s.
Proof. unfold _chunks. rewrite length_map. apply py_range_length. Qed.

Lemma chunks_lengths {A} (l : list A) (s : nat) :
  map (@length A) (_chunks l s) = map (fun i => Nat.min s (length l - i)) (py_range (length l) s).
Proof.
  unfold _chunks. rewrite map_map. apply map_ext. intros i.
  rewrite length_firstn, length_skipn. reflexivity.
Qed.

(** The two nested loops visit the micro-chunks one after the other. *)
Lemma write_results_flat {A} db cfg (results : list A) st :
  write_results db cfg results st
  = fold_left (fun st micro => _execute_payload db cfg micro st) (micro_chunks cfg results) st.
Proof.
  unfold write_results, micro_chunks.
  generalize (_chunks results (Z.to_nat (batch_size cfg))). intros outers. revert st.
  induction outers as [|o os IH]; intros st; [reflexivity|].
  cbn [map concat fold_left]. rewrite fold_left_app. apply IH.
Qed.

Lemma micro_chunks_count {A} cfg (results : list A) :
  length (micro_chunks cfg results)
  = sum_list (map (fun outer => ceil_div (length outer) (Z.to_nat (micro_batch_size cfg)))
                  (_chunks results (Z.to_nat (batch_size cfg)))).
Proof.
  unfold micro_chunks.
  induction (_chunks results (Z.to_nat (batch_size cfg))) as [|o os IH]; [reflexivity|].
  cbn [map concat sum_list sum_list_with]. rewrite length_app, IH, chunks_count. reflexivity.
Qed.

Lemma execute_payload_done cfg {A} (micro : list A) st :
  micro <> [] ->
  _execute_payload (fun _ => Done) cfg micro st
  = WState (updated st + Z.of_nat (length micro)) (errors st) (slept st) (S (calls st)).
Proof.
  intros Hm. unfold _execute_payload. destruct micro as [|a micro']; [congruence|].
  simp execute_retry. reflexivity.
Qed.

Lemma write_all_done cfg {A} (chunks : list (list A)) st :
  Forall (fun c => c <> []) chunks ->
  let st' := fold_left (fun st micro => _execute_payload (fun _ => Done) cfg micro st) chunks st in
  calls st' = (calls st + length chunks)%nat /\
  updated st' = updated st + Z.of_nat (length (concat chunks)) /\
  errors st' = errors st /\ slept st' = slept st.
Proof.
  intros Hne. revert st. induction Hne as [|c cs Hc _ IH]; intros st.
  - cbn. repeat split; lia.
  - cbn [fold_left concat length]. cbv zeta in IH |- *.
    rewrite execute_payload_done by exact Hc.
    destruct (IH (WState (updated st + Z.of_nat (length c)) (errors st) (slept st) (S (calls st))))
      as (I1 & I2 & I3 & I4).
    cbn [calls updated errors slept] in I1, I2, I3, I4.
    rewrite length_app. repeat split; [lia | lia | assumption | assumption].
Qed.

Lemma clamp_bounds cfg :
  1 <= batch_size cfg <= 100 /\ 1 <= micro_batch_size cfg <= batch_size cfg.
Proof. unfold micro_batch_size, batch_size. lia. Qed.

Lemma micro_chunks_concat {A} cfg (results : list A) : concat (micro_chunks cfg results) = results.
Proof.
  pose proof (clamp_bounds cfg) as [Hb Hm].
  unfold micro_chunks.
  rewrite <- (chunks_concat results (Z.to_nat (batch_size cfg))) at 2 by lia.
  induction (_chunks results (Z.to_nat (batch_size cfg))) as [|o os IH]; [reflexivity|].
  cbn [map concat]. rewrite concat_app, IH, chunks_concat by lia. reflexivity.
Qed.

Lemma micro_chunks_sizes {A} cfg (results : list A) :
  Forall (fun c => (1 <= length c <= Z.to_nat (micro_batch_size cfg))%nat) (micro_chunks cfg results).
Proof.
  pose proof (clamp_bounds cfg) as [Hb Hm].
  unfold micro_chunks. apply Forall_concat, Forall_map, Forall_forall.
  intros o _. apply chunks_sizes. lia.
Qed.


End ChunkFacts.

(** ** Retries of a micro-chunk write *)

Module RetryFacts.
Import Py Cal Deriver Sync Notions.

Section Retry.
Context (db : nat -> exec_outcome) (cfg : settings).

Lemma execute_retry_step rows attempt st :
  execute_retry db cfg rows attempt st =
  match db (calls st) with
  | Done => add_updated (Z.of_nat rows) (executed st)
  | Transient oe =>
      if decide (max_retries cfg < attempt + 1)
      then add_error (retries_exceeded (Z.of_nat rows) oe) (executed st)
      else execute_retry db cfg rows (attempt + 1) (sleep (2 ^ (attempt + 1 - 1)) (executed st))
  | Failed e => add_error (upsert_error (Z.of_nat rows) e) (executed st)
  end.
Proof.
  rewrite execute_retry_equation_1. destruct (db (calls st)) as [|oe|e]; cbn; try reflexivity.
  destruct (decide (max_retries cfg < attempt + 1)); reflexivity.
Qed.

(** [k] transient failures within the ceiling: [k] sleeps, then the loop
    goes on with the attempt counter at [attempt + k]. *)
Lemma execute_retry_transients rows (k : nat) :
  forall (oe : nat -> exn) attempt st,
    0 <= attempt ->
    (k = 0%nat \/ attempt + Z.of_nat k <= max_retries cfg) ->
    (forall i, (i < k)%nat -> db (calls st + i) = Transient (oe i)) ->
    execute_retry db cfg rows attempt st
    = execute_retry db cfg rows (attempt + Z.of_nat k)
        (WState (updated st) (errors st)
           (slept st ++ map (fun i => 2 ^ (attempt + Z.of_nat i)) (seq 0 k))
           (calls st + k)).
Proof.
  induction k as [|k IH]; intros oe attempt st Ha Hk Ht.
  - cbn [seq map]. rewrite app_nil_r, Z.add_0_r, Nat.add_0_r. destruct st; reflexivity.
  - destruct Hk as [|Hk]; [discriminate|].
    rewrite execute_retry_step.
    pose proof (Ht 0%nat ltac:(lia)) as H0. rewrite Nat.add_0_r in H0. rewrite H0.
    destruct (decide (max_retries cfg < attempt + 1)) as [?|_]; [lia|].
    rewrite (IH (fun i => oe (S i))); [| lia | right; lia |].
    + cbn [sleep executed updated errors slept calls].
      replace (attempt + 1 + Z.of_nat k) with (attempt + Z.of_nat (S k)) by lia.
      replace (S (calls st) + k)%nat with (calls st + S k)%nat by lia.
      do 2 f_equal. rewrite <- app_assoc. f_equal. cbn [seq map app].
      rewrite Z.add_0_r. replace (attempt + 1 - 1) with attempt by lia. f_equal.
      rewrite <- seq_shift, map_map. apply map_ext. intros i. f_equal. lia.
    + intros i Hi. cbn [sleep executed calls].
      replace (S (calls st) + i)%nat with (calls st + S i)%nat by lia. apply Ht. lia.
Qed.

Lemma backoff_from_zero k : map (fun i => 2 ^ (0 + Z.of_nat i)) (seq 0 k) = backoff k.
Proof. unfold backoff. apply map_ext. intros i. reflexivity. Qed.


End Retry.


End RetryFacts.

(** ** Streaks *)

Module StreakFacts.
Import Py Cal Deriver Sync Notions.

Lemma walk_back_step (days : gset Z) (d cur : Z) :
  walk_back days d cur =
  if decide (d ∈ days) then
    match date_add d (-1) with
    | Ok _ => walk_back days (d - 1) (cur + 1)
    | Raise e => Raise e
    end
  else Ok cur.
Proof.
  rewrite walk_back_equation_1. destruct (decide (d ∈ days)); reflexivity.
Qed.

Lemma days_upto_pred (days : gset Z) (d : Z) :
  d ∈ days -> (size (days_upto (d - 1) days) < size (days_upto d days))%nat.
Proof.
  intros Hin. apply subset_size, strict_spec_alt. unfold days_upto. split.
  - intros x. rewrite !elem_of_filter. intros [? ?]. split; [lia | done].
  - intros E.
    assert (d ∈ filter (λ x, x ≤ d) days) as H1 by (apply elem_of_filter; split; [lia | done]).
    rewrite <- E in H1. apply elem_of_filter in H1. lia.
Qed.

Lemma date_add_ok d k : MINORD <= d + k <= MAXORD -> date_add d k = Ok (d + k).
Proof.
  intros H. unfold date_add.
  destruct (Z.leb_spec MINORD (d + k)); [|lia]. destruct (Z.leb_spec (d + k) MAXORD); [|lia].
  reflexivity.
Qed.

Lemma date_add_overflow d k : MAXORD < d + k -> exists e, date_add d k = Raise e.
Proof.
  intros H. unfold date_add.
  destruct (Z.leb_spec (d + k) MAXORD); [lia|]. rewrite andb_false_r. eauto.
Qed.

Lemma walk_back_acc (days : gset Z) :
  bounded days ->
  forall d, exists r, 0 <= r /\ forall cur, walk_back days d cur = Ok (cur + r).
Proof.
  intros Hb d.
  remember (size (days_upto d days)) as n eqn:En. revert d En.
  induction n as [n IH] using lt_wf_ind. intros d En.
  destruct (decide (d ∈ days)) as [Hin|Hout].
  - pose proof (Hb d Hin) as Hd.
    destruct (IH _ ltac:(subst n; apply days_upto_pred, Hin) (d - 1) eq_refl) as (r & Hr & E).
    exists (r + 1). split; [lia|]. intros cur. rewrite walk_back_step.
    destruct (decide (d ∈ days)); [|contradiction].
    rewrite date_add_ok by (unfold MINORD, MAXORD, EPOCH in *; lia).
    rewrite E. f_equal. lia.
  - exists 0. split; [lia|]. intros cur. rewrite walk_back_step.
    destruct (decide (d ∈ days)); [contradiction|]. f_equal. lia.
Qed.

Section Runs.
Context (days : gset Z) (Hb : bounded days).

Lemma walk_back_run d cur : walk_back days d cur = Ok (cur + run days d).
Proof.
  destruct (walk_back_acc days Hb d) as (r & _ & E). unfold run. rewrite !E. reflexivity.
Qed.

Lemma run_nonneg d : 0 <= run days d.
Proof.
  destruct (walk_back_acc days Hb d) as (r & Hr & E). unfold run. rewrite E. lia.
Qed.

Lemma run_notin d : d ∉ days -> run days d = 0.
Proof.
  intros Hd. unfold run. rewrite walk_back_step.
  destruct (decide (d ∈ days)); [contradiction | reflexivity].
Qed.

Lemma run_in d : d ∈ days -> run days d = run days (d - 1) + 1.
Proof.
  intros Hd. unfold run at 1. rewrite walk_back_step.
  destruct (decide (d ∈ days)); [|contradiction].
  pose proof (Hb d Hd). rewrite date_add_ok by (unfold MINORD, MAXORD, EPOCH in *; lia).
  rewrite walk_back_run. lia.
Qed.

(** The forward scan returns the longest run that ends in the scanned
    days, or the maximum it started from if that is larger. *)
Lemma scan_spec (n : nat) :
  forall d cur mx,
    cur = run days (d - 1) -> 0 <= mx ->
    MINORD <= d -> d + Z.of_nat n <= MAXORD ->
    exists r, scan days n d cur mx = Ok r /\ mx <= r /\
              (forall e, d <= e < d + Z.of_nat n -> run days e <= r) /\
              (r = mx \/ exists e, d <= e < d + Z.of_nat n /\ r = run days e).
Proof.
  induction n as [|n IH]; intros d cur mx Hc Hmx Hlo Hhi.
  - exists mx. split; [reflexivity|]. split; [lia|]. split; [intros e He; lia | left; reflexivity].
  - cbn [scan]. rewrite date_add_ok by lia. cbn [mbind res_bind].
    set (cur' := if decide (d ∈ days) then cur + 1 else 0).
    set (mx' := if decide (d ∈ days) then Z.max mx cur' else mx).
    assert (Hc' : cur' = run days d).
    { subst cur'. destruct (decide (d ∈ days));
        [rewrite run_in by assumption; lia | rewrite run_notin; auto]. }
    assert (mx <= mx' /\ cur' <= mx' /\ (mx' = mx \/ mx' = run days d)) as (H1 & H2 & H3).
    { subst mx'. rewrite Hc'. destruct (decide (d ∈ days)); [lia|].
      rewrite run_notin by assumption. lia. }
    destruct (IH (d + 1) cur' mx') as (r & E & Hm & Hr & Hx);
      [replace (d + 1 - 1) with d by lia; exact Hc' | lia | lia | lia |].
    exists r. split; [exact E|]. split; [lia|]. split.
    + intros e He. destruct (decide (e = d)) as [->|Hne]; [lia | apply Hr; lia].
    + destruct Hx as [->|(e & He & ->)].
      * destruct H3 as [->| ->]; [left; reflexivity | right; exists d; split; [lia | reflexivity]].
      * right. exists e. split; [lia | reflexivity].
Qed.

(** Scanning up to the last day of the calendar steps past it. *)
Lemma scan_overflow (n : nat) :
  forall d cur mx,
    MINORD <= d -> d + Z.of_nat n = MAXORD + 1 -> (0 < n)%nat ->
    exists e, scan days n d cur mx = Raise e.
Proof.
  induction n as [|n IH]; intros d cur mx Hlo Hhi Hn; [lia|].
  cbn [scan]. destruct n as [|n].
  - destruct (date_add_overflow d 1) as (e & ->); [lia|]. eauto.
  - rewrite date_add_ok by lia. cbn [mbind res_bind]. apply IH; lia.
Qed.

End Runs.

(** *** The set of days *)

Lemma add_day_spec days k v days' :
  add_day days (k, v) = Ok days' ->
  forall d, d ∈ days' <-> d ∈ days \/ counted k v d.
Proof.
  unfold add_day, counted. intros H d.
  assert (v = PNone \/ v <> PNone) as [->|Hv] by (destruct v; auto; right; discriminate).
  { injection H as <-. split; [auto | intros [?|[? _]]; [assumption | congruence]]. }
  assert (H' : (if negb (isdigit (strip k)) then Ok days
                else if int_of_digits (strip k) <=? 0 then Ok days
                else d0 ← fromtimestamp_date (int_of_digits (strip k)); mret ({[ d0 ]} ∪ days))
               = Ok days') by (destruct v; congruence || exact H).
  clear H. destruct (isdigit (strip k)) eqn:Ed; cbn [negb] in H'.
  2: { injection H' as <-. split; [auto | intros [?|(_ & ? & _)]; [assumption | congruence]]. }
  destruct (Z.leb_spec (int_of_digits (strip k)) 0) as [Hle|Hgt].
  { injection H' as <-. split; [auto | intros [?|(_ & _ & ? & _)]; [assumption | lia]]. }
  destruct (fromtimestamp_date (int_of_digits (strip k))) as [d0|e] eqn:Ef; [|discriminate].
  injection H' as <-. rewrite elem_of_union, elem_of_singleton. split.
  - intros [->|?]; [right; repeat split; auto | left; assumption].
  - intros [?|(_ & _ & _ & [= ->])]; auto.
Qed.

Lemma for_each_add_day_spec items :
  forall days days',
    for_each add_day items days = Ok days' ->
    forall d, d ∈ days' <-> d ∈ days \/ exists k v, In (k, v) items /\ counted k v d.
Proof.
  induction items as [|[k v] items IH]; intros days days' H d.
  - injection H as <-. split; [auto | intros [?|(? & ? & [] & _)]; assumption].
  - cbn [for_each] in H. destruct (add_day days (k, v)) as [days1|e] eqn:E1; [|discriminate].
    cbn [mbind res_bind] in H. rewrite (IH _ _ H d), (add_day_spec _ _ _ _ E1 d). split.
    + intros [[?|?]|(k' & v' & ? & ?)]; [auto | right; exists k, v; split; [left; reflexivity|assumption] |].
      right. exists k', v'. split; [right; assumption | assumption].
    + intros [?|(k' & v' & [[= <- <-]|?] & ?)]; [auto | auto |].
      right. exists k', v'. auto.
Qed.

Lemma counted_range k v d : counted k v d -> EPOCH <= d <= MAXORD.
Proof.
  intros (_ & _ & Hpos & Hf). unfold fromtimestamp_date in Hf.
  destruct (_ && _) eqn:E in Hf; [|discriminate]. injection Hf as <-.
  apply andb_prop in E as [_ E]. apply Z.leb_le in E. split; [|exact E].
  assert (0 <= int_of_digits (strip k) / 86400) by (apply Z.div_pos; lia). lia.
Qed.

Lemma days_bounded items days :
  for_each add_day items ∅ = Ok days -> bounded days.
Proof.
  intros H d Hd. apply (for_each_add_day_spec _ _ _ H) in Hd as [Hd|(k & v & _ & Hc)].
  - set_solver.
  - eapply counted_range, Hc.
Qed.

Lemma foldr_min_spec (x : Z) (xs : list Z) :
  In (foldr Z.min x xs) (x :: xs) /\ forall y, In y (x :: xs) -> foldr Z.min x xs <= y.
Proof.
  induction xs as [|a xs [IH1 IH2]]; cbn [foldr].
  - split; [left; reflexivity | intros y [<-|[]]; lia].
  - split.
    + destruct (Z.min_spec a (foldr Z.min x xs)) as [[_ ->]|[_ ->]];
        [right; left; reflexivity | destruct IH1; [left | right; right]; assumption].
    + intros y [<-|[<-|Hy]]; [specialize (IH2 x (or_introl eq_refl)) | | specialize (IH2 y (or_intror Hy))]; lia.
Qed.

Lemma foldr_max_spec (x : Z) (xs : list Z) :
  In (foldr Z.max x xs) (x :: xs) /\ forall y, In y (x :: xs) -> y <= foldr Z.max x xs.
Proof.
  induction xs as [|a xs [IH1 IH2]]; cbn [foldr].
  - split; [left; reflexivity | intros y [<-|[]]; lia].
  - split.
    + destruct (Z.max_spec a (foldr Z.max x xs)) as [[_ ->]|[_ ->]];
        [destruct IH1; [left | right; right]; assumption | right; left; reflexivity].
    + intros y [<-|[<-|Hy]]; [specialize (IH2 x (or_introl eq_refl)) | | specialize (IH2 y (or_intror Hy))]; lia.
Qed.

Lemma py_min_spec (days : gset Z) :
  days <> ∅ -> exists lo, py_min days = Ok lo /\ lo ∈ days /\ forall d, d ∈ days -> lo <= d.
Proof.
  intros Hne. unfold py_min. destruct (elements days) as [|x xs] eqn:E.
  - apply elements_empty_inv in E. apply leibniz_equiv in E. contradiction.
  - destruct (foldr_min_spec x xs) as [H1 H2]. exists (foldr Z.min x xs).
    split; [reflexivity|]. split.
    + apply elem_of_elements. rewrite E. apply list_elem_of_In. exact H1.
    + intros d Hd. apply H2. apply list_elem_of_In. rewrite <- E. apply elem_of_elements, Hd.
Qed.

Lemma py_max_spec (days : gset Z) :
  days <> ∅ -> exists hi, py_max days = Ok hi /\ hi ∈ days /\ forall d, d ∈ days -> d <= hi.
Proof.
  intros Hne. unfold py_max. destruct (elements days) as [|x xs] eqn:E.
  - apply elements_empty_inv in E. apply leibniz_equiv in E. contradiction.
  - destruct (foldr_max_spec x xs) as [H1 H2]. exists (foldr Z.max x xs).
    split; [reflexivity|]. split.
    + apply elem_of_elements. rewrite E. apply list_elem_of_In. exact H1.
    + intros d Hd. apply H2. apply list_elem_of_In. rewrite <- E. apply elem_of_elements, Hd.
Qed.

Lemma calc_streaks_unfold today items days :
  items <> [] ->
  for_each add_day items ∅ = Ok days ->
  _calc_streaks today (PDict items)
  = try_except
      (if decide (days = ∅) then mret (Some 0, Some 0)
       else
         lo ← py_min days;
         hi ← py_max days;
         max_streak ← scan days (Z.to_nat (hi - lo + 1)) lo 0 0;
         cur ← walk_back days today 0;
         mret (Some cur, Some max_streak))
      (None, None).
Proof.
  intros Hne H. unfold _calc_streaks. destruct items; [congruence|]. rewrite H. reflexivity.
Qed.









End StreakFacts.

(** ** The write stage as a whole *)

Module RunFacts.
Import Py Cal Deriver Sync Notions Ledger SyncFacts ChunkFacts RetryFacts.

Section Accounting.
Context (db : nat -> exec_outcome) (cfg : settings).

(** The retries the ceiling allows. *)
Let R : nat := Z.to_nat (max_retries cfg).

(** What the loop of [_execute_payload] can do to the state, whatever the
    store answers: it ends with the rows counted and no new error, or with
    one new error and nothing counted; it hands the store at least one
    statement and at most one more than the retries left. *)
Lemma execute_retry_accounting rows (n : nat) :
  forall attempt st,
    0 <= attempt -> n = Z.to_nat (max_retries cfg - attempt) ->
    let st' := execute_retry db cfg rows attempt st in
    ((updated st' = updated st + Z.of_nat rows /\ errors st' = errors st) \/
     (updated st' = updated st /\ exists msg, errors st' = errors st ++ [msg])) /\
    (calls st < calls st' <= calls st + n + 1)%nat /\
    (exists sl, slept st' = slept st ++ sl /\ (length sl <= n)%nat).
Proof.
  induction n as [|n IH]; intros attempt st Ha Hn; cbv zeta;
    rewrite execute_retry_step; destruct (db (calls st)) as [|oe|e].
  1,3,4,6: unfold add_updated, add_error, executed; cbn [updated errors slept calls];
    (split; [first [left; split; reflexivity | right; split; [reflexivity | eexists; reflexivity]] |]);
    (split; [lia | exists []; rewrite app_nil_r; split; [reflexivity | cbn; lia]]).
  - destruct (decide (max_retries cfg < attempt + 1)) as [_|?]; [|lia].
    unfold add_error, executed; cbn [updated errors slept calls].
    split; [right; split; [reflexivity | eexists; reflexivity] |].
    split; [lia | exists []; rewrite app_nil_r; split; [reflexivity | cbn; lia]].
  - destruct (decide (max_retries cfg < attempt + 1)) as [?|_]; [lia|].
    destruct (IH (attempt + 1) (sleep (2 ^ (attempt + 1 - 1)) (executed st)) ltac:(lia) ltac:(lia))
      as (Hc & Hs & (sl & Hsl & Hlen)).
    unfold sleep, executed in *. cbn [updated errors slept calls] in *.
    split; [exact Hc|]. split; [lia|].
    exists (2 ^ (attempt + 1 - 1) :: sl). rewrite Hsl, <- app_assoc. split; [reflexivity | cbn; lia].
Qed.

Lemma notif_retry_step attempt st :
  notif_retry db cfg attempt st =
  match db (calls st) with
  | Done => executed st
  | Transient oe =>
      if decide (max_retries cfg < attempt + 1)
      then add_error ("notif-upsert retries exceeded: " +:+ describe oe) (executed st)
      else notif_retry db cfg (attempt + 1) (sleep (2 ^ (attempt + 1 - 1)) (executed st))
  | Failed ne => add_error ("notif-upsert batch: " +:+ describe ne) (executed st)
  end.
Proof.
  rewrite notif_retry_equation_1. destruct (db (calls st)) as [|oe|e]; cbn; try reflexivity.
  destruct (decide (max_retries cfg < attempt + 1)); reflexivity.
Qed.

Lemma notif_retry_accounting (n : nat) :
  forall attempt st,
    0 <= attempt -> n = Z.to_nat (max_retries cfg - attempt) ->
    let st' := notif_retry db cfg attempt st in
    updated st' = updated st /\
    (errors st' = errors st \/ exists msg, errors st' = errors st ++ [msg]) /\
    (calls st < calls st' <= calls st + n + 1)%nat /\
    (exists sl, slept st' = slept st ++ sl /\ (length sl <= n)%nat).
Proof.
  induction n as [|n IH]; intros attempt st Ha Hn; cbv zeta;
    rewrite notif_retry_step; destruct (db (calls st)) as [|oe|e].
  1,3,4,6: unfold add_error, executed; cbn [updated errors slept calls];
    (split; [reflexivity|]);
    (split; [first [left; reflexivity | right; eexists; reflexivity] |]);
    (split; [lia | exists []; rewrite app_nil_r; split; [reflexivity | cbn; lia]]).
  - destruct (decide (max_retries cfg < attempt + 1)) as [_|?]; [|lia].
    unfold add_error, executed; cbn [updated errors slept calls].
    split; [reflexivity|]. split; [right; eexists; reflexivity|].
    split; [lia | exists []; rewrite app_nil_r; split; [reflexivity | cbn; lia]].
  - destruct (decide (max_retries cfg < attempt + 1)) as [?|_]; [lia|].
    destruct (IH (attempt + 1) (sleep (2 ^ (attempt + 1 - 1)) (executed st)) ltac:(lia) ltac:(lia))
      as (Hu & He & Hs & (sl & Hsl & Hlen)).
    unfold sleep, executed in *. cbn [updated errors slept calls] in *.
    split; [exact Hu|]. split; [exact He|]. split; [lia|].
    exists (2 ^ (attempt + 1 - 1) :: sl). rewrite Hsl, <- app_assoc. split; [reflexivity | cbn; lia].
Qed.

(** One micro-chunk of results. *)
Lemma execute_payload_accounting {A} (micro : list A) st :
  micro <> [] ->
  let st' := _execute_payload db cfg micro st in
  ((updated st' = updated st + Z.of_nat (length micro) /\ errors st' = errors st) \/
   (updated st' = updated st /\ exists msg, errors st' = errors st ++ [msg])) /\
  (calls st < calls st' <= calls st + R + 1)%nat.
Proof.
  intros Hm. unfold _execute_payload. destruct micro as [|a micro']; [congruence|].
  destruct (execute_retry_accounting (length (a :: micro')) R 0 st ltac:(lia)) as (H1 & H2 & _).
  { subst R. f_equal. lia. }
  split; assumption.
Qed.

Lemma write_chunks_accounting {A} (chunks : list (list A)) :
  Forall (fun c => c <> []) chunks ->
  forall st,
    let st' := fold_left (fun st micro => _execute_payload db cfg micro st) chunks st in
    let n := length chunks in
    let rows := Z.of_nat (length (concat chunks)) in
    exists errs,
      errors st' = errors st ++ errs /\
      (length errs <= n)%nat /\
      updated st <= updated st' <= updated st + rows /\
      (errs = [] <-> updated st' = updated st + rows) /\
      (calls st + n <= calls st' <= calls st + n * (R + 1))%nat.
Proof.
  induction 1 as [|c cs Hc _ IH]; intros st; cbv zeta.
  - exists []. cbn. rewrite app_nil_r. repeat split; lia.
  - cbn [fold_left concat length].
    destruct (execute_payload_accounting c st Hc) as (H1 & H2).
    destruct (IH (_execute_payload db cfg c st)) as (errs & E1 & E2 & E3 & E4 & E5).
    cbv zeta in *. rewrite length_app, Nat2Z.inj_add.
    assert (1 <= Z.of_nat (length c)) by (destruct c; [congruence | cbn [length]; lia]).
    destruct H1 as [(U & E) | (U & msg & E)].
    + exists errs. rewrite E1, E. split; [reflexivity|]. split; [lia|]. split; [lia|].
      split; [rewrite E4; lia | lia].
    + exists (msg :: errs). rewrite E1, E, <- app_assoc. split; [reflexivity|].
      split; [cbn [length]; lia|]. split; [lia|]. split; [|lia].
      split; [discriminate | lia].
Qed.

(** One removal chunk: one statement, never retried. *)
Lemma remove_chunk_step (c : list Z) st :
  c <> [] ->
  remove_chunk db st c
  = WState (updated st) (errors st ++ option_list (removal_error (db (calls st))))
           (slept st) (S (calls st)).
Proof.
  intros Hc. unfold remove_chunk. destruct c; [congruence|].
  destruct (db (calls st)); unfold add_error, executed; cbn; rewrite ?app_nil_r; reflexivity.
Qed.

Lemma omap_length_le {B C} (f : B -> option C) (l : list B) :
  (length (omap f l) <= length l)%nat.
Proof.
  induction l as [|x l IH]; [reflexivity|].
  change (omap f (x :: l)) with (match f x with Some y => y :: omap f l | None => omap f l end).
  destruct (f x); cbn [length]; lia.
Qed.

Lemma omap_seq_shift {B} (f : nat -> option B) n :
  forall a, omap f (seq (S a) n) = omap (fun i => f (S i)) (seq a n).
Proof.
  induction n as [|n IH]; intros a; [reflexivity|].
  simpl. destruct (f (S a)); [f_equal|]; apply IH.
Qed.

Lemma remove_chunks_spec (chunks : list (list Z)) :
  Forall (fun c => c <> []) chunks ->
  forall st,
    fold_left (remove_chunk db) chunks st
    = WState (updated st)
        (errors st ++ omap (fun i => removal_error (db (calls st + i))) (seq 0 (length chunks)))
        (slept st) (calls st + length chunks).
Proof.
  induction 1 as [|c cs Hc _ IH]; intros st.
  - cbn. rewrite app_nil_r, Nat.add_0_r. destruct st; reflexivity.
  - cbn [fold_left length]. rewrite remove_chunk_step by exact Hc. rewrite IH.
    cbn [updated errors slept calls seq]. rewrite <- app_assoc.
    f_equal; [|lia]. f_equal.
    change (omap ?f (0%nat :: ?l)) with
      (match f 0%nat with Some y => y :: omap f l | None => omap f l end).
    rewrite omap_seq_shift, Nat.add_0_r.
    assert (omap (fun i => removal_error (db (S (calls st) + i))) (seq 0 (length cs))
            = omap (fun i => removal_error (db (calls st + S i))) (seq 0 (length cs))) as ->.
    { generalize (seq 0 (length cs)). intros l. induction l as [|i l IHl]; [reflexivity|].
      simpl. replace (calls st + S i)%nat with (S (calls st + i)) by lia.
      destruct (removal_error _); [f_equal|]; exact IHl. }
    destruct (removal_error (db (calls st))); reflexivity.
Qed.

Lemma upsert_notifs_flat (to_add : list notif) st :
  upsert_notifs db cfg to_add st
  = fold_left (fun st micro => match micro with [] => st | _ => notif_retry db cfg 0 st end)
      (micro_chunks cfg to_add) st.
Proof.
  unfold upsert_notifs, micro_chunks.
  generalize (_chunks to_add (Z.to_nat (batch_size cfg))). intros outers. revert st.
  induction outers as [|o os IH]; intros st; [reflexivity|].
  cbn [map concat fold_left]. rewrite fold_left_app. apply IH.
Qed.

Lemma notif_chunks_accounting (chunks : list (list notif)) :
  forall st,
    let st' := fold_left (fun st micro => match micro with [] => st | _ => notif_retry db cfg 0 st end)
                 chunks st in
    updated st' = updated st /\
    exists errs, errors st' = errors st ++ errs /\ (length errs <= length chunks)%nat.
Proof.
  induction chunks as [|c cs IH]; intros st; cbv zeta.
  - split; [reflexivity|]. exists []. cbn. rewrite app_nil_r. split; [reflexivity | lia].
  - cbn [fold_left length].
    set (st1 := match c with [] => st | _ => notif_retry db cfg 0 st end).
    assert (updated st1 = updated st /\
            (errors st1 = errors st \/ exists msg, errors st1 = errors st ++ [msg])) as (U1 & E1).
    { subst st1. destruct c; [split; [reflexivity | left; reflexivity]|].
      destruct (notif_retry_accounting R 0 st ltac:(lia)) as (H1 & H2 & _).
      { subst R. f_equal. lia. }
      split; assumption. }
    destruct (IH st1) as (U & errs & E & L). cbv zeta in U, E. rewrite U, E, U1.
    split; [reflexivity|]. destruct E1 as [-> | (msg & ->)].
    + exists errs. split; [reflexivity | lia].
    + exists (msg :: errs). rewrite <- app_assoc. split; [reflexivity | cbn [length]; lia].
Qed.

(** [k] transient failures within the ceiling, in the notification upsert. *)
Lemma notif_retry_transients (k : nat) :
  forall (oe : nat -> exn) attempt st,
    0 <= attempt ->
    (k = 0%nat \/ attempt + Z.of_nat k <= max_retries cfg) ->
    (forall i, (i < k)%nat -> db (calls st + i) = Transient (oe i)) ->
    notif_retry db cfg attempt st
    = notif_retry db cfg (attempt + Z.of_nat k)
        (WState (updated st) (errors st)
           (slept st ++ map (fun i => 2 ^ (attempt + Z.of_nat i)) (seq 0 k))
           (calls st + k)).
Proof.
  induction k as [|k IH]; intros oe attempt st Ha Hk Ht.
  - cbn [seq map]. rewrite app_nil_r, Z.add_0_r, Nat.add_0_r. destruct st; reflexivity.
  - destruct Hk as [|Hk]; [discriminate|].
    rewrite notif_retry_step.
    pose proof (Ht 0%nat ltac:(lia)) as H0. rewrite Nat.add_0_r in H0. rewrite H0.
    destruct (decide (max_retries cfg < attempt + 1)) as [?|_]; [lia|].
    rewrite (IH (fun i => oe (S i))); [| lia | right; lia |].
    + cbn [sleep executed updated errors slept calls].
      replace (attempt + 1 + Z.of_nat k) with (attempt + Z.of_nat (S k)) by lia.
      replace (S (calls st) + k)%nat with (calls st + S k)%nat by lia.
      do 2 f_equal. rewrite <- app_assoc. f_equal. cbn [seq map app].
      rewrite Z.add_0_r. replace (attempt + 1 - 1) with attempt by lia. f_equal.
      rewrite <- seq_shift, map_map. apply map_ext. intros i. f_equal. lia.
    + intros i Hi. cbn [sleep executed calls].
      replace (S (calls st) + i)%nat with (calls st + S i)%nat by lia. apply Ht. lia.
Qed.

Lemma micro_chunks_nonempty {A} (l : list A) : Forall (fun c => c <> []) (micro_chunks cfg l).
Proof.
  eapply Forall_impl; [apply micro_chunks_sizes|]. intros c Hc ->. cbn in Hc. lia.
Qed.

Lemma removal_chunks_nonempty (rolls : list Z) :
  Forall (fun c => c <> []) (removal_chunks cfg rolls).
Proof.
  unfold removal_chunks. pose proof (clamp_bounds cfg) as [Hb _].
  eapply Forall_impl; [apply chunks_sizes; lia|]. intros c Hc ->. cbn in Hc. lia.
Qed.

(** The three phases of the write stage, one after the other. *)
Lemma reconcile_ledger (g : gathered) :
  let st' := reconcile db cfg g in
  let n := Z.of_nat (length (g_results g)) in
  exists werrs nerrs,
    errors st' = g_errors g ++ werrs ++ nerrs /\
    0 <= updated st' <= n /\
    (werrs = [] <-> updated st' = n) /\
    (length werrs <= length (micro_chunks cfg (g_results g)))%nat /\
    (length nerrs <= length (removal_chunks cfg (to_remove_notif g))
                     + length (micro_chunks cfg (to_add_notif g)))%nat.
Proof.
  cbv zeta. unfold reconcile.
  set (st0 := WState 0 (g_errors g) [] 0).
  rewrite write_results_flat.
  destruct (write_chunks_accounting (micro_chunks cfg (g_results g)) (micro_chunks_nonempty _) st0)
    as (werrs & W1 & W2 & W3 & W4 & _).
  cbv zeta in *. rewrite micro_chunks_concat in W3, W4.
  set (st1 := fold_left _ (micro_chunks cfg (g_results g)) st0) in *.
  fold (removal_chunks cfg (to_remove_notif g)).
  rewrite (remove_chunks_spec _ (removal_chunks_nonempty _)).
  set (rerrs := omap _ _).
  assert (length rerrs <= length (removal_chunks cfg (to_remove_notif g)))%nat as Lr.
  { subst rerrs. etrans; [apply omap_length_le | rewrite length_seq; reflexivity]. }
  rewrite upsert_notifs_flat.
  destruct (notif_chunks_accounting (micro_chunks cfg (to_add_notif g))
              (WState (updated st1) (errors st1 ++ rerrs) (slept st1)
                 (calls st1 + length (removal_chunks cfg (to_remove_notif g)))))
    as (U & uerrs & E & L).
  cbv zeta in U, E. cbn [updated errors] in U, E. rewrite U, E, W1.
  subst st0. cbn [updated errors] in *.
  exists werrs, (rerrs ++ uerrs). rewrite <- !app_assoc. split; [reflexivity|].
  split; [lia|]. split; [rewrite W4; lia|]. split; [exact W2|].
  rewrite length_app. lia.
Qed.

(** Whatever the store answers, the loop that writes the metric rows
    accounts for every row: each micro-chunk either adds all its rows to
    [updated] or adds exactly one error string and nothing to [updated].
    So the error strings recorded before stay in place, at most one is
    added per micro-chunk, [updated] grows by at most the number of
    results, it grows by exactly that number if and only if no error string
    was added, and the store sees at least one statement per micro-chunk
    and at most [DB_MAX_RETRIES + 1]. *)
Theorem write_results_accounting {A} (results : list A) (st : wstate) :
  let st' := write_results db cfg results st in
  let n := length (micro_chunks cfg results) in
  let rows := Z.of_nat (length results) in
  exists errs,
    errors st' = errors st ++ errs /\
    (length errs <= n)%nat /\
    updated st <= updated st' <= updated st + rows /\
    (errs = [] <-> updated st' = updated st + rows) /\
    (calls st + n <= calls st' <= calls st + n * (Z.to_nat (max_retries cfg) + 1))%nat.
Proof.
  cbv zeta. rewrite write_results_flat.
  destruct (write_chunks_accounting (micro_chunks cfg results) (micro_chunks_nonempty _) st)
    as (errs & H1 & H2 & H3 & H4 & H5).
  cbv zeta in *. rewrite micro_chunks_concat in H3, H4.
  exists errs. subst R. repeat split; try tauto; try lia.
Qed.

(** The removal of notifications issues one statement per chunk of
    [max(1, batch_size)] identifiers and never retries: a statement that
    fails, with a transient error or any other, adds one
    ["notif-remove batch"] string and the loop goes on with the next chunk.
    Nothing is slept and [updated] is not touched. *)
Theorem removal_phase (rolls : list Z) (st : wstate) :
  let chunks := removal_chunks cfg rolls in
  let n := length chunks in
  n = ceil_div (length rolls) (Z.to_nat (batch_size cfg)) /\
  concat chunks = rolls /\
  fold_left (remove_chunk db) chunks st
  = WState (updated st)
      (errors st ++ omap (fun i => removal_error (db (calls st + i))) (seq 0 n))
      (slept st) (calls st + n).
Proof.
  cbv zeta. split; [|split; [|apply remove_chunks_spec, removal_chunks_nonempty]];
    unfold removal_chunks; pose proof (clamp_bounds cfg) as [Hb _];
    replace (Z.max 1 (batch_size cfg)) with (batch_size cfg) by lia;
    [apply chunks_count | apply chunks_concat; lia].
Qed.

(** The notification upsert follows the retry policy of the metric
    rows: a statement that fails [k] times with a transient error is
    retried after sleeping [base_sleep * 2 ** (attempt - 1)], as long as
    [k] stays within [DB_MAX_RETRIES]; a success then records nothing,
    another error records one ["notif-upsert batch"] string, one transient
    failure more than the ceiling allows records one
    ["notif-upsert retries exceeded"] string.  [updated] never changes. *)
Theorem notif_upsert_policy (st : wstate) (k : nat) (oe : nat -> exn) :
  (forall i, (i < k)%nat -> db (calls st + i) = Transient (oe i)) ->
  let run := notif_retry db cfg 0 st in
  (Z.of_nat k <= max_retries cfg -> db (calls st + k) = Done ->
   run = WState (updated st) (errors st) (slept st ++ backoff k) (calls st + k + 1)) /\
  (Z.of_nat k <= max_retries cfg -> forall e, db (calls st + k) = Failed e ->
   run = WState (updated st) (errors st ++ ["notif-upsert batch: " +:+ describe e])
                (slept st ++ backoff k) (calls st + k + 1)) /\
  (forall oe', Z.of_nat k = Z.max 0 (max_retries cfg) ->
   db (calls st + k) = Transient oe' ->
   run = WState (updated st) (errors st ++ ["notif-upsert retries exceeded: " +:+ describe oe'])
                (slept st ++ backoff k) (calls st + k + 1)).
Proof.
  intros Ht run.
  assert (Hpre : k = 0%nat \/ 0 + Z.of_nat k <= max_retries cfg ->
                 run = notif_retry db cfg (Z.of_nat k)
                         (WState (updated st) (errors st) (slept st ++ backoff k) (calls st + k))).
  { intros Hk. subst run. rewrite (notif_retry_transients k oe 0 st); [| lia | exact Hk | exact Ht].
    rewrite backoff_from_zero. reflexivity. }
  split; [|split].
  - intros Hk Hd. rewrite Hpre by (right; lia). rewrite notif_retry_step.
    cbn [calls]. rewrite Hd. unfold executed. cbn [updated errors slept calls]. f_equal; lia.
  - intros Hk e He. rewrite Hpre by (right; lia). rewrite notif_retry_step.
    cbn [calls]. rewrite He. unfold add_error, executed. cbn [updated errors slept calls].
    f_equal; lia.
  - intros oe' Hk He. rewrite Hpre by lia. rewrite notif_retry_step.
    cbn [calls]. rewrite He.
    destruct (decide (max_retries cfg < Z.of_nat k + 1)) as [_|?]; [|lia].
    unfold add_error, executed. cbn [updated errors slept calls]. f_equal; lia.
Qed.

(** The write stage as a whole, whatever the store answers: the error
    strings of the fetch stage come first, then those of the metric rows,
    then those of the notifications; the count returned is the number of
    metric rows written, between 0 and the number of results, and equal to
    it exactly when no metric write was given up; a notification failure
    adds an error string but never changes the count. *)
Theorem reconcile_accounting (g : gathered) :
  let st' := reconcile db cfg g in
  let n := Z.of_nat (length (g_results g)) in
  exists werrs nerrs,
    errors st' = g_errors g ++ werrs ++ nerrs /\
    0 <= updated st' <= n /\
    (werrs = [] <-> updated st' = n) /\
    (length werrs <= length (micro_chunks cfg (g_results g)))%nat /\
    (length nerrs <= length (removal_chunks cfg (to_remove_notif g))
                     + length (micro_chunks cfg (to_add_notif g)))%nat.
Proof. exact (reconcile_ledger g). Qed.

End Accounting.

Lemma notif_upsert_policy_witness :
  notif_retry two_resets default_settings 0 (WState 5 [] [] 0) = WState 5 [] [1; 2] 3.
Proof.
  refine (proj1 (notif_upsert_policy two_resets default_settings (WState 5 [] [] 0) 2
                   (fun _ => Exn "OperationalError" "connection reset") _) _ _).
  - intros [|[|i]] Hi; [reflexivity | reflexivity | lia].
  - vm_compute. intros H; discriminate H.
  - reflexivity.
Defined.

Section Run.
Context (lib : pylib) (today : Z) (api : providers) (cfg : settings) (source_table : string).

(** With a store that accepts every statement the write stage records no
    error and counts every result. *)
Lemma reconcile_done (g : gathered) :
  let st' := reconcile (fun _ => Done) cfg g in
  updated st' = Z.of_nat (length (g_results g)) /\ errors st' = g_errors g.
Proof.
  cbv zeta. unfold reconcile. rewrite write_results_flat.
  set (st0 := WState 0 (g_errors g) [] 0).
  destruct (write_all_done cfg (micro_chunks cfg (g_results g)) st0 (micro_chunks_nonempty cfg _))
    as (_ & U1 & E1 & _).
  cbv zeta in U1, E1. rewrite micro_chunks_concat in U1.
  set (st1 := fold_left _ (micro_chunks cfg (g_results g)) st0) in *.
  fold (removal_chunks cfg (to_remove_notif g)).
  rewrite (remove_chunks_spec (fun _ => Done) cfg _ (removal_chunks_nonempty cfg _)).
  cbn [removal_error].
  assert (forall l : list nat, omap (fun _ : nat => @None string) l = []) as ->
    by (induction l; [reflexivity | assumption]).
  rewrite app_nil_r, upsert_notifs_flat, U1, E1. subst st0. cbn [updated errors].
  generalize (micro_chunks cfg (to_add_notif g)). intros chunks.
  generalize (calls st1 + length (removal_chunks cfg (to_remove_notif g)))%nat.
  generalize (slept st1).
  induction chunks as [|c cs IH]; intros sl m; [cbn; split; [lia | reflexivity]|].
  cbn [fold_left]. destruct c; [apply IH|].
  rewrite notif_retry_step. unfold executed. cbn [updated errors slept calls]. apply IH.
Qed.

(** The ledger of a whole run. *)
Lemma update_all_students_ledger (db : nat -> exec_outcome) (target_table : string)
    (rows : list row) (schedule : list item -> list item) :
  (forall l, Permutation l (schedule l)) ->
  let work := prepare_work rows in
  let g := gather lib today api source_table (schedule work) in
  exists u errs,
    update_all_students lib today api db cfg source_table true true target_table rows schedule
    = Ok (u, errs) /\
    (length (g_results g) + length (g_errors g) = length work)%nat /\
    0 <= u <= Z.of_nat (length (g_results g)) /\
    (exists more, errs = g_errors g ++ more) /\
    (errs = [] -> u = Z.of_nat (length work)).
Proof.
  intros Hs work g.
  assert (length (g_results g) + length (g_errors g) = length work)%nat as Hlen.
  { subst g. unfold gather.
    destruct (gather_fold source_table today
                (map (_fetch_and_compute lib today api) (schedule work)) (Gathered [] [] [] []))
      as (H1 & H2 & _).
    cbv zeta in H1, H2. cbn [g_results g_errors app] in H1, H2. rewrite H1, H2.
    rewrite (Permutation_length (Hs work)),
      <- (length_map (_fetch_and_compute lib today api) (schedule work)).
    generalize (map (_fetch_and_compute lib today api) (schedule work)). intros os.
    induction os as [|[] os IH]; cbn; lia. }
  unfold update_all_students. cbn [negb]. fold work.
  destruct work as [|w ws] eqn:Ew.
  - pose proof (Permutation_nil (Hs [])) as Hnil.
    exists 0, []. subst g. rewrite Hnil in *. cbn. repeat split; try lia.
    exists []. reflexivity.
  - fold g.
    destruct (reconcile_ledger db cfg g) as (werrs & nerrs & E & U & W & _).
    cbv zeta in *.
    exists (updated (reconcile db cfg g)), (errors (reconcile db cfg g)).
    split; [reflexivity|]. split; [exact Hlen|]. split; [exact U|].
    split; [exists (werrs ++ nerrs); exact E|].
    intros Hnil. rewrite Hnil in E. symmetry in E.
    apply app_eq_nil in E as [Eg E]. apply app_eq_nil in E as [Ew' _].
    rewrite Eg in Hlen. cbn [length] in Hlen |- *. apply W in Ew'. lia.
Qed.

(** With both tables present, [update_all_students] returns a count
    and the error strings, whatever the providers return, whatever each
    write statement answers and in whatever order the fetches complete
    (reading the roster and committing are taken to succeed).  Every
    work item is either a result or a fetch error; the count lies
    between 0 and the number of results; the fetch errors head the list
    returned; and an empty list means that every work item was fetched
    and written. *)
Theorem update_all_students_accounting (db : nat -> exec_outcome) (target_table : string)
    (rows : list row) (schedule : list item -> list item) :
  (forall l, Permutation l (schedule l)) ->
  let work := prepare_work rows in
  let g := gather lib today api source_table (schedule work) in
  exists u errs,
    update_all_students lib today api db cfg source_table true true target_table rows schedule
    = Ok (u, errs) /\
    (length (g_results g) + length (g_errors g) = length work)%nat /\
    0 <= u <= Z.of_nat (length (g_results g)) /\
    (exists more, errs = g_errors g ++ more) /\
    (errs = [] -> u = Z.of_nat (length work)).
Proof. exact (update_all_students_ledger db target_table rows schedule). Qed.

(** With both tables present and a store that accepts every
    statement, [update_all_students] returns the number of individuals
    whose fetch succeeded and exactly the error strings of the fetch
    stage, in the order of completion. *)
Theorem update_all_students_accepting_store (target_table : string)
    (rows : list row) (schedule : list item -> list item) :
  (forall l, Permutation l (schedule l)) ->
  let g := gather lib today api source_table (schedule (prepare_work rows)) in
  update_all_students lib today api (fun _ => Done) cfg source_table true true target_table
    rows schedule
  = Ok (Z.of_nat (length (g_results g)), g_errors g).
Proof.
  intros Hs g. unfold update_all_students. cbn [negb].
  destruct (prepare_work rows) as [|w ws] eqn:Ew.
  - pose proof (Permutation_nil (Hs [])) as Hnil. subst g. rewrite Hnil. reflexivity.
  - fold g. destruct (reconcile_done g) as [-> ->]. reflexivity.
Qed.

End Run.

Lemma update_all_students_accounting_witness :
  exists u errs,
    update_all_students example_lib 738838 empty_api two_resets default_settings "students"
      true true "students_Data"
      [Row 3 (Some "octocat") (Some "ann") (Some "Ann"); Row 7 (Some "octocat") None None]
      (fun l => l)
    = Ok (u, errs).
Proof.
  destruct (update_all_students_accounting example_lib 738838 empty_api default_settings
              "students" two_resets "students_Data"
              [Row 3 (Some "octocat") (Some "ann") (Some "Ann"); Row 7 (Some "octocat") None None]
              (fun l => l) (fun l => Permutation_refl l))
    as (u & errs & H & _).
  exists u, errs. exact H.
Defined.

Lemma update_all_students_accepting_store_witness :
  update_all_students example_lib 738838 empty_api (fun _ => Done) default_settings "students"
    true true "students_Data"
    [Row 3 (Some "octocat") (Some "ann") (Some "Ann"); Row 7 (Some "octocat") None None]
    (fun l => l)
  = Ok (1, ["roll=7: UnboundLocalError: cannot access local variable 'lc_calendar' where it is not associated with a value"]).
Proof.
  refine (eq_trans (update_all_students_accepting_store example_lib 738838 empty_api
                      default_settings "students" "students_Data"
                      [Row 3 (Some "octocat") (Some "ann") (Some "Ann");
                       Row 7 (Some "octocat") None None]
                      (fun l => l) (fun l => Permutation_refl l)) _).
  vm_compute. reflexivity.
Defined.

End RunFacts.

(** ** The provider calls *)

Module ClientFacts.
Import Py Cal Deriver Sync Notions Ledger SyncFacts ChunkFacts RunFacts.
Import Clients.

Lemma rstrip_slash_slashes (s : string) :
  Forall (fun c => c = "/") (chars s) -> rstrip_slash s = "".
Proof.
  induction s as [|c s IH]; intros H; [reflexivity|].
  cbn [chars] in H. inversion H as [|? ? Hc Hs]; subst.
  cbn [rstrip_slash]. rewrite (IH Hs). injection Hc as ->. reflexivity.
Qed.

Lemma require_base_ok name value : value <> "" -> _require_base name value = Ok value.
Proof.
  intros H. unfold _require_base.
  destruct (String.eqb_spec value ""); [congruence | reflexivity].
Qed.

(** The loop over the alternate paths passes over the paths answered with
    404, in order. *)
Lemma try_paths_skip s mk (pre : list string) :
  forall rest log,
    Forall (fun q => exists r, s (mk q) = Ok r /\ status_code r = 404) pre ->
    try_paths s mk (pre ++ rest) log = try_paths s mk rest (log ++ map mk pre).
Proof.
  induction pre as [|q pre IH]; intros rest log H.
  - cbn. rewrite app_nil_r. reflexivity.
  - inversion H as [|? ? (r & Hr & H404) Hpre]; subst.
    cbn [app try_paths map]. rewrite Hr, H404. cbn [Z.eqb Pos.eqb].
    rewrite IH by exact Hpre. rewrite <- app_assoc. reflexivity.
Qed.

Lemma try_paths_fallback s mk (pre : list string) (p : string) (post : list string) log :
  Forall (fun q => exists r, s (mk q) = Ok r /\ status_code r = 404) pre ->
  let sent := log ++ map mk pre ++ [mk p] in
  let run := try_paths s mk (pre ++ p :: post) log in
  (forall r, s (mk p) = Ok r -> status_code r <> 404 ->
     run = (sent, Some (_ ← raise_for_status r; json r))) /\
  (forall e, s (mk p) = Raise e -> run = (sent, Some (Raise e))) /\
  (forall r, s (mk p) = Ok r -> status_code r = 404 -> post = [] -> run = (sent, None)).
Proof.
  intros Hpre sent run. subst sent run. rewrite try_paths_skip by exact Hpre.
  cbn [try_paths]. rewrite <- !app_assoc. split; [|split].
  - intros r Hr Hs. rewrite Hr. destruct (Z.eqb_spec (status_code r) 404); [contradiction|].
    reflexivity.
  - intros e He. rewrite He. reflexivity.
  - intros r Hr Hs ->. rewrite Hr, Hs. reflexivity.
Qed.

(** [get_leetcode_profile] tries the three paths in order and takes the
    first answer that is not a 404: the paths before it were answered with
    404, the paths after it are never requested.  A status of 400..599
    other than 404 raises [HTTPError] and a transport failure propagates,
    in both cases without trying the alternates that follow.  When all
    three paths answer 404 the call raises [ApiError]. *)
Theorem profile_fallback (LEETCODE_API : string) (s : session) (username : string)
    (log : list request) (pre : list string) (p : string) (post : list string) :
  LEETCODE_API <> "" ->
  profile_paths username = pre ++ p :: post ->
  Forall (fun q => exists r, s (Request (LEETCODE_API +:+ q) []) = Ok r /\ status_code r = 404)
         pre ->
  let mk := fun path => Request (LEETCODE_API +:+ path) [] in
  let sent := log ++ map mk pre ++ [mk p] in
  let run := get_leetcode_profile LEETCODE_API s username log in
  (forall r, s (mk p) = Ok r -> status_code r <> 404 ->
     run = (sent, _ ← raise_for_status r; json r)) /\
  (forall e, s (mk p) = Raise e -> run = (sent, Raise e)) /\
  (forall r, s (mk p) = Ok r -> status_code r = 404 -> post = [] ->
     run = (sent, Raise (ApiError "LeetCode profile endpoint not found for provided username"))).
Proof.
  intros Hb Hp Hpre mk sent run. subst run. unfold get_leetcode_profile.
  rewrite require_base_ok by exact Hb. fold mk. rewrite Hp.
  destruct (try_paths_fallback s mk pre p post log Hpre) as (H1 & H2 & H3).
  cbv zeta in H1, H2, H3. fold sent in H1, H2, H3. split; [|split].
  - intros r Hr Hs. rewrite (H1 r Hr Hs). reflexivity.
  - intros e He. rewrite (H2 e He). reflexivity.
  - intros r Hr Hs Hpost. rewrite (H3 r Hr Hs Hpost). reflexivity.
Qed.

Lemma profile_fallback_witness :
  get_leetcode_profile "https://lc" (only_url "https://lc/ann" (Response 200 "OK" "https://lc/ann" (Ok [])))
    "ann" []
  = ([Request "https://lc/userprofile/ann" []; Request "https://lc/ann" []], Ok []).
Proof.
  refine (proj1 (profile_fallback "https://lc"
                   (only_url "https://lc/ann" (Response 200 "OK" "https://lc/ann" (Ok [])))
                   "ann" [] ["/userprofile/ann"] "/ann" ["/userProfile/ann"] _ _ _)
            (Response 200 "OK" "https://lc/ann" (Ok [])) _ _).
  - discriminate.
  - reflexivity.
  - repeat constructor. eexists. split; reflexivity.
  - reflexivity.
  - vm_compute. discriminate.
Defined.

(** [get_leetcode_language_stats] does the same over its two paths, the
    user name travelling as a query parameter. *)
Theorem language_stats_fallback (LEETCODE_API : string) (s : session) (username : string)
    (log : list request) (pre : list string) (p : string) (post : list string) :
  LEETCODE_API <> "" ->
  language_paths = pre ++ p :: post ->
  Forall (fun q => exists r, s (Request (LEETCODE_API +:+ q) [("username", username)]) = Ok r
                             /\ status_code r = 404) pre ->
  let mk := fun path => Request (LEETCODE_API +:+ path) [("username", username)] in
  let sent := log ++ map mk pre ++ [mk p] in
  let run := get_leetcode_language_stats LEETCODE_API s username log in
  (forall r, s (mk p) = Ok r -> status_code r <> 404 ->
     run = (sent, _ ← raise_for_status r; json r)) /\
  (forall e, s (mk p) = Raise e -> run = (sent, Raise e)) /\
  (forall r, s (mk p) = Ok r -> status_code r = 404 -> post = [] ->
     run = (sent, Raise (ApiError "LeetCode language stats endpoint not found"))).
Proof.
  intros Hb Hp Hpre mk sent run. subst run. unfold get_leetcode_language_stats.
  rewrite require_base_ok by exact Hb. fold mk. rewrite Hp.
  destruct (try_paths_fallback s mk pre p post log Hpre) as (H1 & H2 & H3).
  cbv zeta in H1, H2, H3. fold sent in H1, H2, H3. split; [|split].
  - intros r Hr Hs. rewrite (H1 r Hr Hs). reflexivity.
  - intros e He. rewrite (H2 e He). reflexivity.
  - intros r Hr Hs Hpost. rewrite (H3 r Hr Hs Hpost). reflexivity.
Qed.

Lemma language_stats_fallback_witness :
  get_leetcode_language_stats "https://lc"
    (only_url "https://lc/languagestats" (Response 500 "Internal Server Error" "https://lc/languagestats?username=ann" (Ok [])))
    "ann" []
  = ([Request "https://lc/languageStats" [("username", "ann")];
      Request "https://lc/languagestats" [("username", "ann")]],
     Raise (Exn "HTTPError" "500 Server Error: Internal Server Error for url: https://lc/languagestats?username=ann")).
Proof.
  refine (proj1 (language_stats_fallback "https://lc"
                   (only_url "https://lc/languagestats"
                      (Response 500 "Internal Server Error" "https://lc/languagestats?username=ann" (Ok [])))
                   "ann" [] ["/languageStats"] "/languagestats" [] _ _ _)
            (Response 500 "Internal Server Error" "https://lc/languagestats?username=ann" (Ok []))
            _ _).
  - discriminate.
  - reflexivity.
  - repeat constructor. eexists. split; reflexivity.
  - reflexivity.
  - vm_compute. discriminate.
Defined.

Lemma missing_base_lc (lc_env : option string) (s : session) (username : string) :
  Forall (fun c => c = "/") (chars (default "" lc_env)) ->
  snd (get_leetcode_profile (base_of_env lc_env) s username [])
  = Raise (ApiError "Missing base URL for LEETCODE_API in environment").
Proof.
  intros H. unfold base_of_env. rewrite (rstrip_slash_slashes _ H). reflexivity.
Qed.

(** A base URL that is unset, empty or made of slashes only counts as
    missing: each of the six calls raises [ApiError] naming the variable,
    before any request is sent. *)
Theorem missing_base_no_request (env : option string) (s : session) (username : string)
    (log : list request) :
  Forall (fun c => c = "/") (chars (default "" env)) ->
  let base := base_of_env env in
  let missing := fun name =>
    (log, @Raise pydict (ApiError ("Missing base URL for " +:+ name +:+ " in environment"))) in
  get_github_summary base s username log = missing "GITHUB_API" /\
  get_github_contributions base s username log = missing "GITHUB_API" /\
  get_leetcode_profile base s username log = missing "LEETCODE_API" /\
  get_leetcode_language_stats base s username log = missing "LEETCODE_API" /\
  get_leetcode_badges base s username log = missing "LEETCODE_API" /\
  get_leetcode_calendar base s username log = missing "LEETCODE_API".
Proof.
  intros H base missing. subst base missing. unfold base_of_env.
  rewrite (rstrip_slash_slashes _ H). repeat split.
Qed.

Lemma missing_base_no_request_witness :
  get_leetcode_badges (base_of_env (Some "//")) (constant_session (Response 200 "OK" "" (Ok [])))
    "ann" []
  = ([], Raise (ApiError "Missing base URL for LEETCODE_API in environment")).
Proof.
  refine (proj1 (proj2 (proj2 (proj2 (proj2
            (missing_base_no_request (Some "//")
               (constant_session (Response 200 "OK" "" (Ok []))) "ann" [] _)))))).
  repeat constructor.
Defined.

Section Run.
Context (lib : pylib) (today : Z) (cfg : settings) (source_table : string).

(** A fetch stage in which every fetch fails leaves nothing to write. *)
Lemma gather_all_failed (api : providers) (completed : list item) :
  (forall it, exists err, _fetch_and_compute lib today api it = FetchFailed (roll it) (name it) err) ->
  let g := gather lib today api source_table completed in
  g_results g = [] /\ to_add_notif g = [] /\ to_remove_notif g = [] /\
  length (g_errors g) = length completed.
Proof.
  intros Hf g. subst g. unfold gather.
  destruct (gather_fold source_table today (map (_fetch_and_compute lib today api) completed)
              (Gathered [] [] [] [])) as (H1 & H2 & H3).
  cbv zeta in H1, H2, H3. cbn [g_results g_errors to_add_notif to_remove_notif app length] in H1, H2, H3.
  assert (omap fetched_of (map (_fetch_and_compute lib today api) completed) = []
          /\ length (omap failure_of (map (_fetch_and_compute lib today api) completed))
             = length completed) as [E1 E2].
  { clear H1 H2 H3. induction completed as [|it l [IH1 IH2]]; [split; reflexivity|].
    destruct (Hf it) as (err & He). cbn [map]. rewrite He.
    split; [exact IH1 | cbn; cbn in IH2; rewrite IH2; reflexivity]. }
  rewrite E1 in H1, H3. cbn [length] in H3. rewrite H1, H2.
  split; [reflexivity|].
  destruct (to_add_notif _), (to_remove_notif _); try (cbn [length] in H3; lia).
  split; [reflexivity|]. split; [reflexivity | exact E2].
Qed.

Lemma reconcile_nothing db (g : gathered) :
  g_results g = [] -> to_add_notif g = [] -> to_remove_notif g = [] ->
  reconcile db cfg g = WState 0 (g_errors g) [] 0.
Proof.
  intros H1 H2 H3. unfold reconcile, write_results, upsert_notifs.
  pose proof (clamp_bounds cfg) as [Hb Hm].
  rewrite H1, H2, H3, !chunks_nil by lia. reflexivity.
Qed.

(** With [LEETCODE_API] missing no individual is ever updated: every
    fetch fails, either with the [ApiError] of the first LeetCode call,
    or earlier in a GitHub call, or because the identity has no LeetCode
    handle; nothing is written, and [update_all_students] returns a count
    of 0 and one error string per work item. *)
Theorem missing_leetcode_base_updates_nothing (GITHUB_API : string) (lc_env : option string)
    (s : session) (db : nat -> exec_outcome) (target_table : string) (rows : list row)
    (schedule : list item -> list item) :
  Forall (fun c => c = "/") (chars (default "" lc_env)) ->
  (forall l, Permutation l (schedule l)) ->
  exists errs,
    update_all_students lib today (api GITHUB_API (base_of_env lc_env) s) db cfg source_table
      true true target_table rows schedule
    = Ok (0, errs) /\
    length errs = length (prepare_work rows).
Proof.
  intros Henv Hs. unfold update_all_students. cbn [negb].
  destruct (prepare_work rows) as [|w ws] eqn:Ew; [exists []; split; reflexivity|].
  set (a := api GITHUB_API (base_of_env lc_env) s).
  destruct (gather_all_failed a (schedule (w :: ws))) as (G1 & G2 & G3 & G4).
  { intros it. unfold _fetch_and_compute.
    match goal with |- exists err, match ?att with _ => _ end = _ =>
      assert (exists e, att = Raise e) as (e & ->); [|eexists; reflexivity] end.
    subst a. cbn [api Sync.get_github_summary Sync.get_github_contributions
                  Sync.get_leetcode_profile Sync.get_leetcode_language_stats
                  Sync.get_leetcode_badges Sync.get_leetcode_calendar].
    rewrite (missing_base_lc lc_env s (lc it) Henv).
    destruct (nonempty (gh it)).
    - destruct (snd (get_github_summary GITHUB_API s (gh it) [])) as [gj|e]; [|eexists; reflexivity].
      destruct (snd (get_github_contributions GITHUB_API s (gh it) [])) as [gc|e];
        [|eexists; reflexivity].
      destruct (nonempty (lc it)); eexists; reflexivity.
    - destruct (nonempty (lc it)); eexists; reflexivity. }
  cbv zeta in G1, G2, G3, G4.
  rewrite (reconcile_nothing db _ G1 G2 G3). cbn [updated errors].
  eexists. split; [reflexivity|]. rewrite G4. symmetry. apply Permutation_length, Hs.
Qed.

End Run.

Lemma missing_leetcode_base_updates_nothing_witness :
  exists errs,
    update_all_students example_lib 738838
      (api "https://gh" (base_of_env None) (constant_session (Response 200 "OK" "" (Ok []))))
      two_resets default_settings "students" true true "students_Data"
      [Row 3 (Some "octocat") (Some "ann") (Some "Ann")] (fun l => l)
    = Ok (0, errs) /\ length errs = 1%nat.
Proof.
  apply (missing_leetcode_base_updates_nothing example_lib 738838 default_settings "students"
           "https://gh" None (constant_session (Response 200 "OK" "" (Ok [])))
           two_resets "students_Data" [Row 3 (Some "octocat") (Some "ann") (Some "Ann")]
           (fun l => l)).
  - constructor.
  - intros l. reflexivity.
Defined.

End ClientFacts.

(** ** The connection string *)

Module ConnectionFacts.
Import Py Connection.

Lemma normalized_scheme (url : string) :
  startswith (_normalize_db_url url) "postgres://" = false /\
  startswith (_normalize_db_url url) "postgresql://" = false.
Proof.
  unfold _normalize_db_url.
  destruct (startswith url "postgres://") eqn:E1; [split; reflexivity|].
  destruct (startswith url "postgresql://") eqn:E2; [split; reflexivity|].
  split; assumption.
Qed.

(** Normalising the connection string settles it: the result starts with
    neither [postgres://] nor [postgresql://], normalising it again
    changes nothing, and so the second normalisation in the module body
    never fires: [DATABASE_URL] is [_normalize_db_url(raw_url)] for every
    non-empty value, and the module raises [RuntimeError] for an unset or
    empty one. *)
Theorem normalisation_settles (raw_url : string) :
  let url := _normalize_db_url raw_url in
  startswith url "postgres://" = false /\
  startswith url "postgresql://" = false /\
  _normalize_db_url url = url /\
  DATABASE_URL (Some raw_url)
  = (if String.eqb raw_url "" then
       Raise (Exn "RuntimeError" "POSTGRES_CONNECT_STRING not set in environment/.env")
     else Ok url) /\
  (startswith url "postgresql+psycopg2://"
   = startswith raw_url "postgres://" || startswith raw_url "postgresql://"
     || startswith raw_url "postgresql+psycopg2://").
Proof.
  cbv zeta. destruct (normalized_scheme raw_url) as [H1 H2].
  split; [exact H1|]. split; [exact H2|]. split; [|split].
  - unfold _normalize_db_url at 1. rewrite H1, H2. reflexivity.
  - destruct raw_url as [|c r]; [reflexivity|].
    unfold DATABASE_URL. rewrite H1, H2. reflexivity.
  - unfold _normalize_db_url.
    destruct (startswith raw_url "postgres://") eqn:E1; [reflexivity|].
    destruct (startswith raw_url "postgresql://") eqn:E2; reflexivity.
Qed.

End ConnectionFacts.

(** ** The notification and student tables *)

Module StoreFacts.
Import Py Sync Store.

Section Lists.
Context {A : Type} (p : A -> bool).

Lemma filter_nil_existsb (l : list A) : List.filter p l = [] <-> existsb p l = false.
Proof.
  induction l as [|x l IH]; cbn; [tauto|].
  destruct (p x); cbn; [split; discriminate | exact IH].
Qed.

Lemma existsb_false_find (l : list A) : existsb p l = false -> List.find p l = None.
Proof.
  induction l as [|x l IH]; cbn; [reflexivity|].
  destruct (p x); cbn; [discriminate | exact IH].
Qed.

Lemma find_none_existsb (l : list A) : List.find p l = None -> existsb p l = false.
Proof.
  induction l as [|x l IH]; cbn; [reflexivity|].
  destruct (p x); cbn; [discriminate | exact IH].
Qed.

Lemma find_app_last (l : list A) (x : A) :
  existsb p l = false -> p x = true -> List.find p (l ++ [x]) = Some x.
Proof.
  induction l as [|y l IH]; cbn; intros Hl Hx; [rewrite Hx; reflexivity|].
  destruct (p y); cbn in Hl; [discriminate | apply IH; assumption].
Qed.

Lemma find_app_other (l : list A) (x : A) :
  p x = false -> List.find p (l ++ [x]) = List.find p l.
Proof.
  induction l as [|y l IH]; cbn; intros Hx; [rewrite Hx; reflexivity|].
  destruct (p y); [reflexivity | apply IH; assumption].
Qed.

Lemma find_map_hit (f : A -> A) (v : A) (l : list A) :
  (forall x, p (f x) = p x) -> (forall x, p x = true -> f x = v) ->
  existsb p l = true -> List.find p (map f l) = Some v.
Proof.
  intros Hp Hv. induction l as [|y l IH]; cbn; [discriminate|].
  rewrite Hp. destruct (p y) eqn:E; cbn; [intros _; rewrite (Hv y E); reflexivity | exact IH].
Qed.

Lemma find_map_other (f : A -> A) (l : list A) :
  (forall x, p x = true -> f x = x) -> (forall x, p (f x) = p x) ->
  List.find p (map f l) = List.find p l.
Proof.
  intros Hf Hp. induction l as [|y l IH]; cbn; [reflexivity|].
  rewrite Hp. destruct (p y) eqn:E; [rewrite (Hf y E); reflexivity | exact IH].
Qed.

Lemma filter_length_existsb (l : list A) :
  existsb p l = true -> (0 < length (List.filter p l))%nat.
Proof.
  induction l as [|x l IH]; cbn; [discriminate|].
  destruct (p x); cbn; [lia | exact IH].
Qed.

End Lists.

Lemma at_key_spec t r n : at_key t r n = true <-> primary_key n = (r, t).
Proof.
  unfold at_key, primary_key. rewrite andb_true_iff, String.eqb_eq, Z.eqb_eq.
  split; [intros [-> ->]; reflexivity | intros H; injection H as -> ->; split; reflexivity].
Qed.

Lemma at_key_refl name t r reason : at_key t r (Notification name r t reason) = true.
Proof. apply at_key_spec. reflexivity. Qed.

Lemma existsb_at_key t r tbl : existsb (at_key t r) tbl = true <-> In (r, t) (map primary_key tbl).
Proof.
  rewrite existsb_exists, in_map_iff. split.
  - intros (n & Hn & Hk). exists n. split; [apply at_key_spec, Hk | exact Hn].
  - intros (n & Hk & Hn). exists n. split; [exact Hn | apply at_key_spec, Hk].
Qed.

Lemma at_key_other t r t' r' n : (t', r') <> (t, r) -> at_key t' r' n = true -> at_key t r n = false.
Proof.
  intros Hne H'. destruct (at_key t r n) eqn:E; [|reflexivity].
  apply at_key_spec in H', E. rewrite H' in E. injection E as -> ->. congruence.
Qed.

(** What the update-then-insert of [add_or_update_notification] does. *)
Lemma upsert_ledger (tbl : list notification) (table_name : string)
    (rollnumber : Z) (name : option string) (reason : string) :
  fits (Notification name rollnumber table_name (Some reason)) = true ->
  exists tbl',
    add_or_update_notification tbl table_name rollnumber name reason = Ok tbl' /\
    stored tbl' table_name rollnumber
    = Some (Notification name rollnumber table_name (Some reason)) /\
    (forall t r, (t, r) <> (table_name, rollnumber) -> stored tbl' t r = stored tbl t r) /\
    (NoDup (map primary_key tbl) -> NoDup (map primary_key tbl')) /\
    length tbl' = (if existsb (at_key table_name rollnumber) tbl
                   then length tbl else S (length tbl)).
Proof.
  intros Hfit. unfold add_or_update_notification, update_at, stored.
  set (new := Notification name rollnumber table_name (Some reason)) in *.
  set (f := fun n => if at_key table_name rollnumber n
                     then Notification name (nf_rollnumber n) (nf_table_name n) (Some reason)
                     else n).
  assert (Hfk : forall t r n, at_key t r (f n) = at_key t r n).
  { intros t r n. subst f. cbn. destruct (at_key table_name rollnumber n); reflexivity. }
  assert (Hfp : forall n, primary_key (f n) = primary_key n).
  { intros n. subst f. cbn. destruct (at_key table_name rollnumber n); reflexivity. }
  destruct (existsb (at_key table_name rollnumber) tbl) eqn:Ex.
  - destruct (List.filter (at_key table_name rollnumber) tbl) as [|h hs] eqn:Ef.
    { apply filter_nil_existsb in Ef. congruence. }
    assert (varchar 255 name && varchar 1024 (Some reason) = true) as ->.
    { unfold fits, new in Hfit. cbn [nf_name nf_reason] in Hfit.
      apply andb_true_iff in Hfit as [Hfit H4]. apply andb_true_iff in Hfit as [Hfit _].
      apply andb_true_iff in Hfit as [H1 _]. rewrite H1, H4. reflexivity. }
    cbn [mbind res_bind]. cbn [length]. rewrite (proj2 (Z.eqb_neq _ 0)) by lia.
    exists (map f tbl). split; [reflexivity|]. split; [|split; [|split]].
    + apply find_map_hit; [apply Hfk | | exact Ex].
      intros n Hn. subst f new. cbn. rewrite Hn.
      apply at_key_spec in Hn. injection Hn as -> ->. reflexivity.
    + intros t r Hne. apply find_map_other; [|apply Hfk].
      intros n Hn. subst f. cbn. rewrite (at_key_other _ _ _ _ n Hne Hn). reflexivity.
    + intros Hnd. rewrite map_map. erewrite map_ext; [exact Hnd | exact Hfp].
    + rewrite length_map. reflexivity.
  - pose proof (proj2 (filter_nil_existsb _ tbl) Ex) as Ef. rewrite Ef.
    cbn [mbind res_bind Z.eqb]. unfold insert_row. rewrite Hfit. cbn [negb].
    cbn [nf_table_name nf_rollnumber new]. rewrite Ex.
    exists (tbl ++ [new]). split; [reflexivity|]. split; [|split; [|split]].
    + apply find_app_last; [exact Ex | apply at_key_refl].
    + intros t r Hne. apply find_app_other.
      destruct (at_key t r new) eqn:E; [|reflexivity].
      apply at_key_spec in E. cbn in E. injection E as -> ->. congruence.
    + intros Hnd. rewrite map_app. apply NoDup_app. split; [exact Hnd|]. split.
      * intros k Hk Hk'. apply list_elem_of_singleton in Hk'. subst k.
        change (primary_key new) with (rollnumber, table_name) in Hk.
        apply list_elem_of_In, existsb_at_key in Hk. congruence.
      * cbn. apply NoDup_singleton.
    + rewrite length_app. cbn. lia.
Qed.



Lemma unique_key_filter t r n tbl :
  NoDup (map primary_key tbl) -> stored tbl t r = Some n ->
  List.filter (at_key t r) tbl = [n].
Proof.
  unfold stored. induction tbl as [|x tbl IH]; cbn; [discriminate|].
  intros Hnd Hf. apply NoDup_cons in Hnd as [Hx Hnd].
  destruct (at_key t r x) eqn:E.
  - injection Hf as <-. f_equal. apply filter_nil_existsb.
    destruct (existsb (at_key t r) tbl) eqn:Ex; [|reflexivity].
    apply existsb_at_key in Ex. apply at_key_spec in E. rewrite <- E in Ex.
    apply list_elem_of_In in Ex. contradiction.
  - apply IH; assumption.
Qed.

Lemma filter_refine {A} (p q : A -> bool) (n : A) (l : list A) :
  List.filter p l = [n] ->
  List.filter (fun m => p m && q m) l = (if q n then [n] else []) /\
  List.filter (fun m => negb (p m && q m)) l
  = (if q n then List.filter (fun m => negb (p m)) l else l).
Proof.
  revert n. induction l as [|x l IH]; cbn; intros n; [discriminate|].
  destruct (p x) eqn:E; cbn.
  - intros H. injection H as -> Hl.
    assert (forall m, In m l -> p m = false) as Hnone.
    { intros m Hm. destruct (p m) eqn:Em; [|reflexivity].
      assert (In m (List.filter p l)) as Hin by (apply filter_In; split; assumption).
      rewrite Hl in Hin. destruct Hin. }
    assert (List.filter (fun m => p m && q m) l = []) as ->.
    { clear -Hnone. induction l as [|y l IH]; cbn; [reflexivity|].
      rewrite (Hnone y) by (left; reflexivity). cbn. apply IH. intros m Hm. apply Hnone. right. exact Hm. }
    assert (List.filter (fun m => negb (p m && q m)) l = l) as ->.
    { clear -Hnone. induction l as [|y l IH]; cbn; [reflexivity|].
      rewrite (Hnone y) by (left; reflexivity). cbn. f_equal. apply IH. intros m Hm. apply Hnone. right. exact Hm. }
    assert (List.filter (fun m => negb (p m)) l = l) as Hneg.
    { clear -Hnone. induction l as [|y l IH]; cbn; [reflexivity|].
      rewrite (Hnone y) by (left; reflexivity). cbn. f_equal. apply IH. intros m Hm. apply Hnone. right. exact Hm. }
    destruct (q n); cbn; [rewrite Hneg|]; split; reflexivity.
  - intros H. destruct (IH n H) as [-> ->]. destruct (q n); split; reflexivity.
Qed.

Lemma stored_key tbl t r n : stored tbl t r = Some n -> nf_table_name n = t /\ nf_rollnumber n = r.
Proof.
  unfold stored. intros H. apply find_some in H as [_ H].
  apply at_key_spec in H. unfold primary_key in H. injection H as -> ->. split; reflexivity.
Qed.

(** A delete under the primary key: what a key holds afterwards. *)
Lemma stored_filter (q : notification -> bool) t r (tbl : list notification) :
  NoDup (map primary_key tbl) ->
  NoDup (map primary_key (List.filter (fun n => negb (q n)) tbl)) /\
  stored (List.filter (fun n => negb (q n)) tbl) t r
  = match stored tbl t r with
    | Some n => if q n then None else Some n
    | None => None
    end.
Proof.
  unfold stored. induction tbl as [|x l IH]; cbn; intros Hnd; [split; [constructor | reflexivity]|].
  apply NoDup_cons in Hnd as [Hx Hl]. destruct (IH Hl) as [IH1 IH2].
  assert (Hsub : forall k, k ∈ map primary_key (List.filter (fun n => negb (q n)) l) ->
                           k ∈ map primary_key l).
  { intros k Hk. apply list_elem_of_In, in_map_iff in Hk as (y & Hy & Hin).
    apply filter_In in Hin as [Hin _]. apply list_elem_of_In, in_map_iff. exists y. split; assumption. }
  destruct (q x) eqn:Eq; cbn.
  - split; [exact IH1|]. destruct (at_key t r x) eqn:E; [|exact IH2].
    rewrite IH2, Eq.
    assert (List.find (at_key t r) l = None) as ->; [|reflexivity].
    apply existsb_false_find. destruct (existsb (at_key t r) l) eqn:Ex; [|reflexivity].
    apply existsb_at_key in Ex. apply at_key_spec in E. rewrite <- E in Ex.
    apply list_elem_of_In in Ex. contradiction.
  - split; [apply NoDup_cons; split; [intros Hin; apply Hx, Hsub, Hin | exact IH1]|].
    destruct (at_key t r x) eqn:E; [rewrite Eq; reflexivity | exact IH2].
Qed.

(** What the two removals by key do under the primary key. *)
Lemma removal_ledger (tbl : list notification) (table_name : string)
    (rollnumber : Z) (reason : string) :
  NoDup (map primary_key tbl) ->
  let without := List.filter (fun n => negb (at_key table_name rollnumber n)) tbl in
  remove_notification_with_reason tbl table_name rollnumber reason
  = match stored tbl table_name rollnumber with
    | Some n => if reason_is reason n then (without, 1) else (tbl, 0)
    | None => (tbl, 0)
    end /\
  remove_notification tbl table_name rollnumber
  = match stored tbl table_name rollnumber with
    | Some _ => (without, 1)
    | None => (tbl, 0)
    end /\
  stored without table_name rollnumber = None /\
  (forall t r, (t, r) <> (table_name, rollnumber) -> stored without t r = stored tbl t r) /\
  (forall t r,
     stored (fst (remove_notification_by_roll tbl rollnumber)) t r
     = if r =? rollnumber then None else stored tbl t r).
Proof.
  intros Hnd without.
  assert (Hnone : stored tbl table_name rollnumber = None -> without = tbl /\
            List.filter (at_key table_name rollnumber) tbl = []).
  { unfold stored. intros Hn. apply find_none_existsb in Hn.
    split; [|apply filter_nil_existsb; exact Hn].
    subst without. clear Hnd. induction tbl as [|x l IH]; cbn; [reflexivity|].
    cbn in Hn. apply orb_false_iff in Hn as [Hx Hl]. rewrite Hx. cbn. f_equal. apply IH, Hl. }
  unfold remove_notification_with_reason, remove_notification, delete_where.
  split; [|split; [|split; [|split]]].
  - destruct (stored tbl table_name rollnumber) as [n|] eqn:Es.
    + pose proof (unique_key_filter _ _ _ _ Hnd Es) as Hf.
      destruct (filter_refine _ (reason_is reason) n tbl Hf) as [-> ->].
      destruct (reason_is reason n); reflexivity.
    + destruct (Hnone eq_refl) as [_ Hf].
      assert (forall q, List.filter (fun m => at_key table_name rollnumber m && q m) tbl = []
                        /\ List.filter (fun m => negb (at_key table_name rollnumber m && q m)) tbl = tbl)
        as Hq.
      { intros q. clear -Hf. induction tbl as [|x l IH]; cbn; [split; reflexivity|].
        cbn in Hf. destruct (at_key table_name rollnumber x); [discriminate|].
        cbn. destruct (IH Hf) as [-> ->]. split; reflexivity. }
      destruct (Hq (reason_is reason)) as [-> ->]. reflexivity.
  - destruct (stored tbl table_name rollnumber) as [n|] eqn:Es.
    + rewrite (unique_key_filter _ _ _ _ Hnd Es). reflexivity.
    + destruct (Hnone eq_refl) as [Hw ->]. fold without. rewrite Hw. reflexivity.
  - unfold stored, without. apply existsb_false_find.
    clear. induction tbl as [|x l IH]; cbn; [reflexivity|].
    destruct (at_key table_name rollnumber x) eqn:E; cbn; [exact IH | rewrite E; exact IH].
  - intros t r Hne. unfold stored, without. clear -Hne.
    induction tbl as [|x l IH]; cbn; [reflexivity|].
    destruct (at_key table_name rollnumber x) eqn:E; cbn.
    + destruct (at_key t r x) eqn:E'; [|exact IH].
      rewrite (at_key_other _ _ _ _ x Hne E') in E. discriminate.
    + destruct (at_key t r x); [reflexivity | exact IH].
  - intros t r. unfold remove_notification_by_roll, delete_where. cbn [fst].
    rewrite (proj2 (stored_filter _ t r tbl Hnd)).
    destruct (stored tbl t r) as [n|] eqn:Es; [|destruct (r =? rollnumber); reflexivity].
    destruct (stored_key _ _ _ _ Es) as [_ ->]. destruct (r =? rollnumber); reflexivity.
Qed.

(** Removal by key and reason deletes the notification stored under the
    key only if its reason is the one given; otherwise the table is left
    as it was and 0 is returned.  Removal by key alone deletes it
    whatever its reason.  Both return the number of rows deleted, 0 or 1
    under the primary key.  Removal by roll number alone empties the key
    of that roll number under every table name and touches no other roll
    number. *)
Theorem removal_respects_reason (tbl : list notification) (table_name : string)
    (rollnumber : Z) (reason : string) :
  NoDup (map primary_key tbl) ->
  let without := List.filter (fun n => negb (at_key table_name rollnumber n)) tbl in
  remove_notification_with_reason tbl table_name rollnumber reason
  = match stored tbl table_name rollnumber with
    | Some n => if reason_is reason n then (without, 1) else (tbl, 0)
    | None => (tbl, 0)
    end /\
  remove_notification tbl table_name rollnumber
  = match stored tbl table_name rollnumber with
    | Some _ => (without, 1)
    | None => (tbl, 0)
    end /\
  stored without table_name rollnumber = None /\
  (forall t r, (t, r) <> (table_name, rollnumber) -> stored without t r = stored tbl t r) /\
  (forall t r,
     stored (fst (remove_notification_by_roll tbl rollnumber)) t r
     = if r =? rollnumber then None else stored tbl t r).
Proof. exact (removal_ledger tbl table_name rollnumber reason). Qed.

Lemma removal_respects_reason_witness :
  remove_notification_with_reason
    [Notification (Some "Ann") 3 "students" (Some "late")] "students" 3
    "No LC submission in last 3 days"
  = ([Notification (Some "Ann") 3 "students" (Some "late")], 0).
Proof.
  refine (eq_trans (proj1 (removal_respects_reason
                             [Notification (Some "Ann") 3 "students" (Some "late")] "students" 3
                             "No LC submission in last 3 days" _)) _).
  - repeat constructor. intros H. apply list_elem_of_In in H. destruct H.
  - reflexivity.
Defined.

(** The search of [_resolve_student_by_roll] over the base tables. *)
Lemma search_tables_skip db r (pre : list string) :
  forall rest,
    Forall (fun q => exists rows, select_students db q = Ok rows /\ first_by_roll r rows = None)
           pre ->
    search_tables db r (pre ++ rest) = search_tables db r rest.
Proof.
  induction pre as [|q pre IH]; intros rest H; [reflexivity|].
  inversion H as [|? ? (rows & Hr & Hn) Hpre]; subst.
  cbn [app search_tables]. rewrite Hr. cbn [mbind res_bind]. rewrite Hn. apply IH, Hpre.
Qed.



Lemma at_roll_spec r x : at_roll r x = true <-> roll_number x = r.
Proof. unfold at_roll. apply Z.eqb_eq. Qed.



End StoreFacts.

(** ** The endpoints *)

Module AppFacts.
Import Py Cal Deriver Sync Notions Store App RunFacts StoreFacts.





End AppFacts.

(** ** The students joined with their data *)

Module DataFetchFacts.
Import Py Cal Deriver Sync Notions DataFetch App CalFacts DeriverFacts.

Lemma insert_by_roll_perm r l : Permutation (insert_by_roll r l) (r :: l).
Proof.
  induction l as [|x l IH]; cbn; [reflexivity|].
  destruct (roll_number r <=? roll_number x); [reflexivity|].
  rewrite IH. apply perm_swap.
Qed.

Lemma order_by_roll_perm l : Permutation (order_by_roll l) l.
Proof.
  induction l as [|x l IH]; cbn; [reflexivity|].
  rewrite insert_by_roll_perm, IH. reflexivity.
Qed.

Lemma insert_by_roll_sorted r l :
  ascending (map roll_number l) -> ascending (map roll_number (insert_by_roll r l)).
Proof.
  induction l as [|x l IH]; cbn; intros H; [split; [constructor | exact I]|].
  destruct H as [Hx Hl].
  destruct (Z.leb_spec (roll_number r) (roll_number x)); cbn.
  - split; [|split; assumption]. constructor; [assumption|].
    eapply Forall_impl; [exact Hx|]. cbn. intros; lia.
  - split; [|apply IH, Hl].
    eapply Permutation_Forall;
      [symmetry; apply (Permutation_map roll_number), insert_by_roll_perm|].
    cbn. constructor; [lia | exact Hx].
Qed.

Lemma order_by_roll_sorted l : ascending (map roll_number (order_by_roll l)).
Proof.
  induction l as [|x l IH]; cbn; [exact I | apply insert_by_roll_sorted, IH].
Qed.

Lemma unique_data_row (k : Z) (dst : list data_row) :
  NoDup (map d_rollnumber dst) ->
  List.filter (fun d => d_rollnumber d =? k) dst
  = match List.find (fun d => d_rollnumber d =? k) dst with
    | Some d => [d]
    | None => []
    end.
Proof.
  induction dst as [|x l IH]; cbn; [reflexivity|].
  intros Hnd. apply NoDup_cons in Hnd as [Hx Hl].
  destruct (Z.eqb_spec (d_rollnumber x) k) as [E|E]; [|apply IH, Hl].
  f_equal. rewrite (IH Hl).
  destruct (List.find _ l) as [d|] eqn:Ef; [|reflexivity].
  apply find_some in Ef as [Hin Hk]. apply Z.eqb_eq in Hk.
  exfalso. apply Hx. apply list_elem_of_In, in_map_iff. exists d. split; [congruence | exact Hin].
Qed.

(** Under the primary key of the data table the join has one row per
    student. *)
Lemma outer_join_unique (src : list row) (dst : list data_row) :
  NoDup (map d_rollnumber dst) ->
  outer_join src dst
  = map (fun r => student_columns r
                  ++ selected (List.find (fun d => d_rollnumber d =? roll_number r) dst))
        (order_by_roll src).
Proof.
  intros Hnd. unfold outer_join.
  induction (order_by_roll src) as [|r l IH]; [reflexivity|].
  change (flat_map ?f (r :: l)) with (f r ++ flat_map f l).
  rewrite IH, (unique_data_row _ _ Hnd). cbn [map].
  destruct (List.find (fun d => d_rollnumber d =? roll_number r) dst); reflexivity.
Qed.

Lemma dict_get_set (d : pydict) (k k' : string) (v : pyval) :
  dict_get (dict_set d k v) k' = if String.eqb k k' then v else dict_get d k'.
Proof.
  unfold dict_get. induction d as [|[k0 v0] d IH]; cbn.
  - destruct (String.eqb k k'); reflexivity.
  - destruct (String.eqb_spec k0 k) as [->|Hne]; cbn.
    + destruct (String.eqb k k'); reflexivity.
    + destruct (String.eqb_spec k0 k') as [->|Hne'].
      * destruct (String.eqb_spec k k'); [congruence | reflexivity].
      * exact IH.
Qed.

(** What [normalise] leaves under each key. *)
Lemma normalise_spec lib (item : pydict) :
  (dict_get item "last_commit_date" = PNone
   \/ exists s, dict_get item "last_commit_date" = PStr s) ->
  exists item',
    normalise lib item = Ok item' /\
    forall k,
      dict_get item' k
      = if String.eqb "last_commit_day" k then
          let lcd := strip (match dict_get item "last_commit_date" with
                            | PStr s => s
                            | _ => ""
                            end) in
          if nonempty lcd then PStr (before_T lcd) else PNone
        else if String.eqb "lc_progress_history" k then
          _to_json_obj lib (_to_json_obj lib (dict_get item k))
        else if String.eqb "lc_submission_history" k then _to_json_obj lib (dict_get item k)
        else if String.eqb "gh_contribution_history" k then _to_json_obj lib (dict_get item k)
        else dict_get item k.
Proof.
  intros Hd. unfold normalise.
  set (i1 := dict_set item "gh_contribution_history" _).
  set (i2 := dict_set i1 "lc_submission_history" _).
  set (i3 := dict_set i2 "lc_progress_history" _).
  set (i4 := dict_set i3 "lc_progress_history" _).
  assert (H4 : forall k, dict_get i4 k
            = if String.eqb "lc_progress_history" k then
                _to_json_obj lib (_to_json_obj lib (dict_get item k))
              else if String.eqb "lc_submission_history" k then _to_json_obj lib (dict_get item k)
              else if String.eqb "gh_contribution_history" k then
                _to_json_obj lib (dict_get item k)
              else dict_get item k).
  { intros k. subst i4 i3 i2 i1. rewrite !dict_get_set.
    destruct (String.eqb_spec "lc_progress_history" k) as [<-|]; [reflexivity|].
    destruct (String.eqb_spec "lc_submission_history" k) as [<-|]; [reflexivity|].
    destruct (String.eqb_spec "gh_contribution_history" k) as [<-|]; reflexivity. }
  assert (Hlcd : dict_get i4 "last_commit_date" = dict_get item "last_commit_date")
    by (rewrite H4; reflexivity).
  rewrite Hlcd.
  assert (exists lcd, py_strip (por (dict_get item "last_commit_date") (PStr "")) = Ok lcd
                      /\ lcd = strip (match dict_get item "last_commit_date" with
                                       | PStr s => s
                                       | _ => ""
                                       end)) as (lcd & -> & Hl).
  { destruct Hd as [-> | (s & ->)]; [eexists; split; reflexivity|].
    unfold por. cbn [truthy]. destruct (String.eqb_spec s "") as [->|]; eexists; split; reflexivity. }
  cbn [mbind res_bind]. rewrite <- Hl.
  destruct (nonempty lcd); eexists; (split; [reflexivity|]); intros k;
    rewrite dict_get_set, H4; reflexivity.
Qed.

Lemma is_digit_not_T (c : ascii) : is_digit c = true -> Ascii.eqb c "T" = false.
Proof.
  destruct c as [[] [] [] [] [] [] [] []]; cbn; intros H; try reflexivity; discriminate H.
Qed.

Lemma rstrip_keeps_head (c : ascii) (s : string) :
  is_space c = false -> exists s', rstrip (String c s) = String c s'.
Proof.
  intros H. cbn [rstrip]. destruct (rstrip s); [rewrite H|]; eexists; reflexivity.
Qed.

Lemma rstrip_cons (a : ascii) (s : string) (c : ascii) (s' : string) :
  rstrip s = String c s' -> rstrip (String a s) = String a (String c s').
Proof. intros H. cbn [rstrip]. rewrite H. reflexivity. Qed.

(** The date part of a date or of a timestamp in ISO form. *)
Lemma canonical_date_part (a b c d e f g h : ascii) (rest : string) :
  is_digit a = true -> is_digit b = true -> is_digit c = true -> is_digit d = true ->
  is_digit e = true -> is_digit f = true -> is_digit g = true -> is_digit h = true ->
  rest = "" \/ (exists r, rest = String "T" r) ->
  let s := String a (String b (String c (String d (String "-"
             (String e (String f (String "-" (String g (String h ""))))))))) in
  nonempty (strip (s +:+ rest)) = true /\ before_T (strip (s +:+ rest)) = s.
Proof.
  intros Ha Hb Hc Hd He Hf Hg Hh Hrest s.
  assert (exists t, strip (s +:+ rest) = s +:+ t /\ (t = "" \/ exists r, t = String "T" r))
    as (t & -> & Ht).
  { unfold strip, s. cbv [String.append]. cbn [lstrip]. rewrite (is_digit_not_space a Ha).
    destruct Hrest as [-> | (r & ->)].
    - exists "". cbv [String.append]. split; [|left; reflexivity].
      cbn [rstrip]. rewrite (is_digit_not_space h Hh). reflexivity.
    - destruct (rstrip_keeps_head "T" r eq_refl) as (r' & Hr).
      exists (String "T" r'). cbv [String.append]. split; [|right; eexists; reflexivity].
      do 10 apply rstrip_cons. exact Hr. }
  split; [reflexivity|].
  unfold s. cbv [String.append]. cbn [before_T].
  rewrite (is_digit_not_T a Ha), (is_digit_not_T b Hb), (is_digit_not_T c Hc),
    (is_digit_not_T d Hd), (is_digit_not_T e He), (is_digit_not_T f Hf),
    (is_digit_not_T g Hg), (is_digit_not_T h Hh).
  cbn [Ascii.eqb Bool.eqb]. do 10 f_equal.
  destruct Ht as [-> | (r & ->)]; reflexivity.
Qed.

(** [last_commit_day] is the date part of [last_commit_date]: for a date
    in ISO form, as [compute_stats] stores it, or a timestamp that starts
    with one and goes on with [T], the normalised item carries the date
    itself under [last_commit_day], and [last_commit_date] is left as
    stored. *)
Theorem last_commit_day_is_date_part lib (item : pydict) (n : Z) (rest : string) :
  MINORD <= n <= MAXORD ->
  rest = "" \/ (exists r, rest = String "T" r) ->
  dict_get item "last_commit_date" = PStr (isoformat n +:+ rest) ->
  exists item',
    normalise lib item = Ok item' /\
    dict_get item' "last_commit_day" = PStr (isoformat n) /\
    dict_get item' "last_commit_date" = PStr (isoformat n +:+ rest).
Proof.
  intros Hn Hrest Hd.
  destruct (normalise_spec lib item) as (item' & Hok & Hget);
    [right; eexists; exact Hd|].
  exists item'. split; [exact Hok|]. rewrite !Hget, Hd. cbn [String.eqb Ascii.eqb Bool.eqb].
  split; [|reflexivity]. cbv zeta.
  assert (nonempty (strip (isoformat n +:+ rest)) = true
          /\ before_T (strip (isoformat n +:+ rest)) = isoformat n) as [-> ->]; [|reflexivity].
  unfold isoformat.
  pose proof (ord2ymd_valid n Hn) as Hv.
  destruct (ord2ymd n) as [[y m] d]. unfold valid_date in Hv.
  repeat (apply andb_prop in Hv as [Hv ?]).
  pose proof (days_in_month_le y m).
  unfold fmt4, fmt2.
  apply canonical_date_part; try exact Hrest;
    apply digit_char_spec; Z.div_mod_to_equations; lia.
Qed.

Lemma last_commit_day_is_date_part_witness :
  exists item',
    normalise example_lib [("last_commit_date", PStr "2023-11-14T22:13:20Z")] = Ok item' /\
    dict_get item' "last_commit_day" = PStr "2023-11-14".
Proof.
  destruct (last_commit_day_is_date_part example_lib
              [("last_commit_date", PStr "2023-11-14T22:13:20Z")] 738838 "T22:13:20Z")
    as (item' & H1 & H2 & _).
  - unfold MINORD, MAXORD. lia.
  - right. eexists. reflexivity.
  - reflexivity.
  - exists item'. split; assumption.
Defined.

Lemma joined_last_commit_date (r : row) (d : option data_row) :
  dict_get (student_columns r ++ selected d) "last_commit_date"
  = match d with
    | Some d => dict_get (d_columns d) "last_commit_date"
    | None => PNone
    end.
Proof. reflexivity. Qed.

Lemma joined_roll_number (r : row) (d : option data_row) :
  dict_get (student_columns r ++ selected d) "roll_number" = PInt (roll_number r).
Proof. reflexivity. Qed.



End DataFetchFacts.

(** ** The notification table after a run *)

Module RunStoreFacts.
Import Py Cal Deriver Sync Notions Ledger Store RunStore.
Import SyncFacts ChunkFacts RunFacts StoreFacts.

(** The two queues of the fetch stage are the stale and the other results,
    in order. *)
Lemma gather_queues src today (os : list outcome) :
  forall g,
    to_add_notif g
    = map (fun result => Notif src (roll_of result) (snd result) reason_text)
          (List.filter (is_stale today) (g_results g)) ->
    to_remove_notif g
    = map roll_of (List.filter (fun result => negb (is_stale today result)) (g_results g)) ->
    let g' := fold_left (gather_one today src) os g in
    to_add_notif g'
    = map (fun result => Notif src (roll_of result) (snd result) reason_text)
          (List.filter (is_stale today) (g_results g')) /\
    to_remove_notif g'
    = map roll_of (List.filter (fun result => negb (is_stale today result)) (g_results g')).
Proof.
  induction os as [|o os IH]; intros g Ha Hr; cbv zeta; [split; assumption|].
  cbn [fold_left]. destruct o as [r st nm | r nm err]; unfold gather_one.
  - destruct (stale_flag today (lc_lastsubmission st)) eqn:E; apply IH;
      cbn [to_add_notif to_remove_notif g_results];
      rewrite !List.filter_app, !map_app; cbn [List.filter]; unfold is_stale at 2;
      cbn [fst snd]; rewrite E; cbn [negb map app]; rewrite ?app_nil_r;
      first [assumption | rewrite Ha; reflexivity | rewrite Hr; reflexivity].
  - apply IH; assumption.
Qed.

Lemma fetch_roll lib today api (it : item) :
  fetched_of (_fetch_and_compute lib today api it) = None
  \/ exists st, fetched_of (_fetch_and_compute lib today api it) = Some (roll it, st, name it).
Proof.
  unfold _fetch_and_compute.
  match goal with |- context [match ?a with Ok _ => _ | Raise _ => _ end] => destruct a end;
    [right; eexists; reflexivity | left; reflexivity].
Qed.

Lemma results_rolls lib today api src (completed : list item) :
  NoDup (map roll completed) ->
  NoDup (map roll_of (g_results (gather lib today api src completed))).
Proof.
  intros Hnd. unfold gather.
  destruct (gather_fold src today (map (_fetch_and_compute lib today api) completed)
              (Gathered [] [] [] [])) as (-> & _ & _).
  cbn [g_results app].
  eapply sublist_NoDup; [exact Hnd|].
  clear Hnd. induction completed as [|it l IH]; [constructor|].
  cbn [map]. change (omap ?f (?x :: ?l)) with
    (match f x with Some y => y :: omap f l | None => omap f l end).
  destruct (fetch_roll lib today api it) as [-> | (st & ->)].
  - apply sublist_cons, IH.
  - cbn [map fst]. apply sublist_skip, IH.
Qed.

(** The removal loop: what a key holds afterwards. *)
Lemma removals_spec src (chunks : list (list Z)) :
  forall tbl,
    NoDup (map primary_key tbl) ->
    let tbl1 := fold_left (fun tbl roll_chunk =>
                             match roll_chunk with
                             | [] => tbl
                             | _ => delete_stale src roll_chunk tbl
                             end) chunks tbl in
    NoDup (map primary_key tbl1) /\
    forall t r,
      stored tbl1 t r
      = match stored tbl t r with
        | Some n =>
            if String.eqb t src && reason_is reason_text n && existsb (Z.eqb r) (concat chunks)
            then None else Some n
        | None => None
        end.
Proof.
  induction chunks as [|c cs IH]; intros tbl Hnd; cbv zeta.
  - cbn [fold_left concat existsb]. split; [exact Hnd|]. intros t r.
    destruct (stored tbl t r); [|reflexivity]. rewrite andb_false_r. reflexivity.
  - cbn [fold_left concat].
    set (tbl_a := match c with [] => tbl | _ => delete_stale src c tbl end).
    assert (NoDup (map primary_key tbl_a) /\
            forall t r, stored tbl_a t r
                        = match stored tbl t r with
                          | Some n => if String.eqb t src && reason_is reason_text n
                                         && existsb (Z.eqb r) c
                                      then None else Some n
                          | None => None
                          end) as [Hnd_a Ha].
    { subst tbl_a. destruct c as [|z c'].
      - split; [exact Hnd|]. intros t r. cbn [existsb].
        destruct (stored tbl t r); [|reflexivity]. rewrite andb_false_r. reflexivity.
      - unfold delete_stale, delete_where. cbn [fst].
        split; [apply (stored_filter _ "" 0 tbl Hnd)|].
        intros t r. rewrite (proj2 (stored_filter _ t r tbl Hnd)).
        destruct (stored tbl t r) as [n|] eqn:Es; [|reflexivity].
        destruct (stored_key _ _ _ _ Es) as [-> ->]. reflexivity. }
    destruct (IH tbl_a Hnd_a) as [Hnd1 H1]. cbv zeta in Hnd1, H1.
    split; [exact Hnd1|]. intros t r. rewrite H1, Ha.
    change (concat (c :: cs)) with (c ++ concat cs). rewrite existsb_app.
    destruct (stored tbl t r) as [n|]; [|reflexivity].
    destruct (reason_is reason_text n) eqn:Er, (String.eqb t src), (existsb (Z.eqb r) c),
      (existsb (Z.eqb r) (concat cs)); cbn [andb orb]; rewrite ?Er; reflexivity.
Qed.

Lemma upsert_row_as_add (tbl : list notification) (n : notif) :
  fits (row_of n) = true ->
  upsert_row tbl n
  = add_or_update_notification tbl (n_table_name n) (n_rollnumber n) (Some (n_name n))
      (n_reason n).
Proof.
  intros Hfit. unfold upsert_row, add_or_update_notification, update_at. cbv zeta.
  rewrite Hfit. cbn [negb].
  destruct (existsb (at_key (n_table_name n) (n_rollnumber n)) tbl) eqn:Ex.
  - destruct (List.filter (at_key (n_table_name n) (n_rollnumber n)) tbl) as [|h hs] eqn:Ef.
    { apply filter_nil_existsb in Ef. congruence. }
    assert (varchar 255 (Some (n_name n)) && varchar 1024 (Some (n_reason n)) = true) as ->.
    { unfold fits, row_of in Hfit. cbn [nf_name nf_reason] in Hfit.
      apply andb_true_iff in Hfit as [Hfit H4]. apply andb_true_iff in Hfit as [Hfit _].
      apply andb_true_iff in Hfit as [H1 _]. rewrite H1, H4. reflexivity. }
    cbn [mbind res_bind length]. rewrite (proj2 (Z.eqb_neq _ 0)) by lia. reflexivity.
  - rewrite (proj2 (filter_nil_existsb _ tbl) Ex). cbn [mbind res_bind Z.eqb].
    unfold insert_row. fold (row_of n). rewrite Hfit. cbn [negb row_of nf_table_name nf_rollnumber].
    rewrite Ex. reflexivity.
Qed.

Lemma upsert_rows_spec (rows : list notif) :
  forall tbl,
    Forall (fun n => fits (row_of n) = true) rows ->
    NoDup (map (fun n => (n_table_name n, n_rollnumber n)) rows) ->
    NoDup (map primary_key tbl) ->
    exists tbl',
      for_each upsert_row rows tbl = Ok tbl' /\
      NoDup (map primary_key tbl') /\
      (forall n, In n rows -> stored tbl' (n_table_name n) (n_rollnumber n) = Some (row_of n)) /\
      (forall t r, (forall n, In n rows -> (t, r) <> (n_table_name n, n_rollnumber n)) ->
                   stored tbl' t r = stored tbl t r).
Proof.
  induction rows as [|n rows IH]; intros tbl Hfit Hk Hnd.
  - exists tbl. split; [reflexivity|]. split; [exact Hnd|]. split; [intros n []|]. reflexivity.
  - apply Forall_cons in Hfit as [Hn Hfit]. cbn [map] in Hk. apply NoDup_cons in Hk as [Hx Hk].
    cbn [for_each]. rewrite (upsert_row_as_add tbl n Hn).
    destruct (upsert_ledger tbl (n_table_name n) (n_rollnumber n) (Some (n_name n)) (n_reason n) Hn)
      as (tbl1 & -> & Hst & Hoth & Hnd1 & _).
    cbn [mbind res_bind]. destruct (IH tbl1 Hfit Hk (Hnd1 Hnd)) as (tbl' & -> & Hnd' & Hin & Hout).
    exists tbl'. split; [reflexivity|]. split; [exact Hnd'|]. split.
    + intros m [<- | Hm]; [|apply Hin, Hm].
      rewrite Hout; [exact Hst|].
      intros m Hm E. apply Hx. rewrite E. apply list_elem_of_In, in_map_iff.
      exists m. split; [reflexivity | exact Hm].
    + intros t r Hne. rewrite Hout by (intros m Hm; apply Hne; right; exact Hm).
      apply Hoth, Hne. left. reflexivity.
Qed.

Lemma distinct_keys_spec (rows : list notif) :
  NoDup (map (fun n => (n_table_name n, n_rollnumber n)) rows) -> distinct_keys rows = true.
Proof.
  induction rows as [|n rows IH]; cbn; intros Hk; [reflexivity|].
  apply NoDup_cons in Hk as [Hx Hk]. rewrite (IH Hk), andb_true_r.
  apply negb_true_iff. destruct (existsb _ rows) eqn:Ex; [|reflexivity].
  apply existsb_exists in Ex as (m & Hm & E). apply andb_true_iff in E as [E1 E2].
  apply String.eqb_eq in E1. apply Z.eqb_eq in E2.
  exfalso. apply Hx. apply list_elem_of_In, in_map_iff. exists m. split; [congruence | exact Hm].
Qed.

(** The upsert loop: what a key holds afterwards. *)
Lemma upsert_chunks_spec (chunks : list (list notif)) :
  forall tbl,
    Forall (fun n => fits (row_of n) = true) (concat chunks) ->
    NoDup (map (fun n => (n_table_name n, n_rollnumber n)) (concat chunks)) ->
    NoDup (map primary_key tbl) ->
    exists tbl',
      for_each (fun tbl micro => match micro with
                                 | [] => Ok tbl
                                 | _ => upsert_statement micro tbl
                                 end) chunks tbl = Ok tbl' /\
      NoDup (map primary_key tbl') /\
      (forall n, In n (concat chunks) ->
                 stored tbl' (n_table_name n) (n_rollnumber n) = Some (row_of n)) /\
      (forall t r, (forall n, In n (concat chunks) -> (t, r) <> (n_table_name n, n_rollnumber n)) ->
                   stored tbl' t r = stored tbl t r).
Proof.
  induction chunks as [|c cs IH]; intros tbl Hfit Hk Hnd.
  - exists tbl. split; [reflexivity|]. split; [exact Hnd|]. split; [intros n []|]. reflexivity.
  - cbn [concat] in Hfit, Hk. apply Forall_app in Hfit as [Hfc Hfcs].
    rewrite map_app in Hk. apply NoDup_app in Hk as (Hkc & Hdis & Hkcs).
    destruct (upsert_rows_spec c tbl Hfc Hkc Hnd) as (tbl1 & Hrun & Hnd1 & Hin1 & Hout1).
    assert (match c with [] => Ok tbl | _ => upsert_statement c tbl end = Ok tbl1) as Hstep.
    { destruct c as [|n c']; [cbn in Hrun; exact Hrun|].
      unfold upsert_statement. rewrite (distinct_keys_spec _ Hkc). exact Hrun. }
    cbn [for_each concat]. rewrite Hstep. cbn [mbind res_bind].
    destruct (IH tbl1 Hfcs Hkcs Hnd1) as (tbl' & -> & Hnd' & Hin & Hout).
    exists tbl'. split; [reflexivity|]. split; [exact Hnd'|]. split.
    + intros n Hn. apply in_app_or in Hn as [Hn | Hn]; [|apply Hin, Hn].
      rewrite Hout; [apply Hin1, Hn|].
      intros m Hm E. apply (Hdis (n_table_name n, n_rollnumber n)).
      * apply list_elem_of_In, in_map_iff. exists n. split; [reflexivity | exact Hn].
      * rewrite E. apply list_elem_of_In, in_map_iff. exists m. split; [reflexivity | exact Hm].
    + intros t r Hne. rewrite Hout by (intros m Hm; apply Hne, in_or_app; right; exact Hm).
      apply Hout1. intros m Hm. apply Hne, in_or_app. left. exact Hm.
Qed.



End RunStoreFacts.

(** ** The data table after a run *)

Module MetricsFacts.
Import Py Cal Deriver Sync Notions Ledger Store DataFetch RunStore.
Import ChunkFacts StoreFacts DataFetchFacts.

Lemma stats_columns_keys (s : stats) : NoDup (map fst (stats_columns s)).
Proof.
  unfold stats_columns. cbn [map fst].
  repeat (apply NoDup_cons; split;
          [rewrite list_elem_of_In; cbn [In]; intuition discriminate|]).
  apply NoDup_nil. exact I.
Qed.

Lemma dict_lookup_absent (d : pydict) (k : string) :
  ~ In k (map fst d) -> dict_lookup d k = None.
Proof.
  induction d as [|[k0 v0] d IH]; cbn; intros H; [reflexivity|].
  destruct (String.eqb_spec k0 k) as [->|]; [exfalso; apply H; left; reflexivity|].
  apply IH. intros Hin. apply H. right. exact Hin.
Qed.

(** Setting the columns of a payload: a column of the payload takes the
    payload's value, every other column keeps its own. *)
Lemma set_columns_get (payload : pydict) :
  forall cols k,
    NoDup (map fst payload) ->
    dict_get (set_columns cols payload) k
    = default (dict_get cols k) (dict_lookup payload k).
Proof.
  unfold set_columns. induction payload as [|[k0 v0] rest IH]; intros cols k Hnd; [reflexivity|].
  cbn [map fst] in Hnd. apply NoDup_cons in Hnd as [Hk Hnd].
  cbn [fold_left fst snd dict_lookup]. rewrite (IH _ _ Hnd), dict_get_set.
  destruct (String.eqb_spec k0 k) as [->|]; [|reflexivity].
  rewrite dict_lookup_absent; [reflexivity|].
  intros Hin. apply Hk, list_elem_of_In, Hin.
Qed.

Lemma has_roll_spec roll d : has_roll roll d = true <-> d_rollnumber d = roll.
Proof. unfold has_roll. apply Z.eqb_eq. Qed.

Lemma find_map_fmap {A} (p : A -> bool) (f : A -> A) (l : list A) :
  (forall x, p (f x) = p x) -> List.find p (map f l) = f <$> List.find p l.
Proof.
  intros Hp. induction l as [|x l IH]; cbn; [reflexivity|].
  rewrite Hp. destruct (p x); [reflexivity | exact IH].
Qed.

(** One row of an upsert of metric rows. *)
Lemma upsert_metrics_row_spec (tbl : list data_row) (result : Z * stats * string) :
  stats_fit (roll_of result) (snd (fst result)) = true ->
  NoDup (map d_rollnumber tbl) ->
  exists tbl',
    upsert_metrics_row tbl result = Ok tbl' /\
    NoDup (map d_rollnumber tbl') /\
    (exists d, data_of tbl' (roll_of result) = Some d) /\
    (forall k, column_of tbl' (roll_of result) k
               = default (column_of tbl (roll_of result) k)
                         (dict_lookup (stats_columns (snd (fst result))) k)) /\
    (forall r, r <> roll_of result -> data_of tbl' r = data_of tbl r).
Proof.
  intros Hfit Hnd. unfold upsert_metrics_row. cbv zeta. rewrite Hfit. cbn [negb].
  set (roll := roll_of result). set (payload := stats_columns (snd (fst result))).
  set (f := fun d => if has_roll roll d
                     then DataRow (d_rollnumber d) (set_columns (d_columns d) payload)
                     else d).
  assert (Hfk : forall r d, has_roll r (f d) = has_roll r d).
  { intros r d. subst f. cbn. destruct (has_roll roll d); reflexivity. }
  destruct (existsb (has_roll roll) tbl) eqn:Ex.
  - exists (map f tbl). split; [reflexivity|].
    assert (exists d0, data_of tbl roll = Some d0 /\ has_roll roll d0 = true) as (d0 & Hd0 & Hr0).
    { unfold data_of. destruct (List.find (has_roll roll) tbl) as [d0|] eqn:Ef.
      - exists d0. split; [reflexivity|]. apply find_some in Ef as [_ H]. exact H.
      - apply find_none_existsb in Ef. congruence. }
    assert (data_of (map f tbl) roll
            = Some (DataRow (d_rollnumber d0) (set_columns (d_columns d0) payload))) as Hnew.
    { unfold data_of in *. rewrite (find_map_fmap _ f tbl (Hfk roll)), Hd0. cbn.
      subst f. cbn. rewrite Hr0. reflexivity. }
    split; [|split; [|split]].
    + rewrite map_map. erewrite map_ext; [exact Hnd|].
      intros d. subst f. cbn. destruct (has_roll roll d); reflexivity.
    + eexists. exact Hnew.
    + intros k. unfold column_of. rewrite Hnew, Hd0. cbn [d_columns].
      apply set_columns_get, stats_columns_keys.
    + intros r Hne. unfold data_of. rewrite (find_map_fmap _ f tbl (Hfk r)).
      destruct (List.find (has_roll r) tbl) as [d|] eqn:Ef; [|reflexivity].
      cbn. f_equal. subst f. cbn. destruct (has_roll roll d) eqn:E; [|reflexivity].
      apply find_some in Ef as [_ Hr]. apply has_roll_spec in Hr, E. congruence.
  - exists (tbl ++ [DataRow roll payload]). split; [reflexivity|].
    assert (has_roll roll (DataRow roll payload) = true) as Hr by (apply has_roll_spec; reflexivity).
    assert (data_of (tbl ++ [DataRow roll payload]) roll = Some (DataRow roll payload)) as Hnew
      by (apply find_app_last; assumption).
    split; [|split; [|split]].
    + rewrite map_app. apply NoDup_app. split; [exact Hnd|]. split; [|apply NoDup_singleton].
      intros k Hk Hk'. apply list_elem_of_singleton in Hk'. cbn in Hk'. subst k.
      apply list_elem_of_In, in_map_iff in Hk as (d & Hd & Hin).
      assert (existsb (has_roll roll) tbl = true) as Ht; [|congruence].
      apply existsb_exists. exists d. split; [exact Hin | apply has_roll_spec; exact Hd].
    + eexists. exact Hnew.
    + intros k. unfold column_of. rewrite Hnew.
      assert (data_of tbl roll = None) as -> by (apply existsb_false_find; exact Ex).
      reflexivity.
    + intros r Hne. unfold data_of. apply find_app_other.
      destruct (has_roll r (DataRow roll payload)) eqn:E; [|reflexivity].
      apply has_roll_spec in E. cbn in E. congruence.
Qed.

Lemma column_of_data tbl tbl' r :
  data_of tbl' r = data_of tbl r -> forall k, column_of tbl' r k = column_of tbl r k.
Proof. intros H k. unfold column_of. rewrite H. reflexivity. Qed.

Lemma upsert_metrics_rows_spec (rows : list (Z * stats * string)) :
  forall tbl,
    Forall (fun result => stats_fit (roll_of result) (snd (fst result)) = true) rows ->
    NoDup (map roll_of rows) ->
    NoDup (map d_rollnumber tbl) ->
    exists tbl',
      for_each upsert_metrics_row rows tbl = Ok tbl' /\
      NoDup (map d_rollnumber tbl') /\
      (forall result, In result rows ->
         (exists d, data_of tbl' (roll_of result) = Some d) /\
         forall k, column_of tbl' (roll_of result) k
                   = default (column_of tbl (roll_of result) k)
                             (dict_lookup (stats_columns (snd (fst result))) k)) /\
      (forall r, ~ In r (map roll_of rows) -> data_of tbl' r = data_of tbl r).
Proof.
  induction rows as [|res rows IH]; intros tbl Hfit Hk Hnd.
  - exists tbl. split; [reflexivity|]. split; [exact Hnd|]. split; [intros ? []|]. reflexivity.
  - apply Forall_cons in Hfit as [Hf Hfit]. cbn [map] in Hk. apply NoDup_cons in Hk as [Hx Hk].
    rewrite list_elem_of_In in Hx.
    destruct (upsert_metrics_row_spec tbl res Hf Hnd) as (tbl1 & Hrun & Hnd1 & Hex & Hcol & Hoth).
    cbn [for_each]. rewrite Hrun. cbn [mbind res_bind].
    destruct (IH tbl1 Hfit Hk Hnd1) as (tbl' & -> & Hnd' & Hin & Hout).
    exists tbl'. split; [reflexivity|]. split; [exact Hnd'|]. split.
    + intros result [<- | Hr].
      * rewrite (Hout _ Hx). split; [exact Hex|]. intros k.
        rewrite (column_of_data _ _ _ (Hout _ Hx)). apply Hcol.
      * destruct (Hin _ Hr) as [He Hc]. split; [exact He|]. intros k. rewrite Hc.
        rewrite (column_of_data tbl tbl1 (roll_of result)); [reflexivity|].
        apply Hoth. intros E. apply Hx. rewrite <- E. apply in_map. exact Hr.
    + intros r Hne. rewrite Hout by (intros Hr; apply Hne; right; exact Hr).
      apply Hoth. intros ->. apply Hne. left. reflexivity.
Qed.

Lemma distinct_rolls_spec (rows : list (Z * stats * string)) :
  NoDup (map roll_of rows) -> distinct_rolls rows = true.
Proof.
  induction rows as [|res rows IH]; cbn; intros Hk; [reflexivity|].
  apply NoDup_cons in Hk as [Hx Hk]. rewrite (IH Hk), andb_true_r.
  apply negb_true_iff. destruct (existsb _ rows) eqn:Ex; [|reflexivity].
  apply existsb_exists in Ex as (m & Hm & E). apply Z.eqb_eq in E.
  exfalso. apply Hx. rewrite <- E. apply list_elem_of_In, in_map. exact Hm.
Qed.

Lemma metrics_chunks_spec (chunks : list (list (Z * stats * string))) :
  forall tbl,
    Forall (fun result => stats_fit (roll_of result) (snd (fst result)) = true) (concat chunks) ->
    NoDup (map roll_of (concat chunks)) ->
    NoDup (map d_rollnumber tbl) ->
    exists tbl',
      for_each (fun tbl micro => match micro with
                                 | [] => Ok tbl
                                 | _ => metrics_statement micro tbl
                                 end) chunks tbl = Ok tbl' /\
      NoDup (map d_rollnumber tbl') /\
      (forall result, In result (concat chunks) ->
         (exists d, data_of tbl' (roll_of result) = Some d) /\
         forall k, column_of tbl' (roll_of result) k
                   = default (column_of tbl (roll_of result) k)
                             (dict_lookup (stats_columns (snd (fst result))) k)) /\
      (forall r, ~ In r (map roll_of (concat chunks)) -> data_of tbl' r = data_of tbl r).
Proof.
  induction chunks as [|c cs IH]; intros tbl Hfit Hk Hnd.
  - exists tbl. split; [reflexivity|]. split; [exact Hnd|]. split; [intros ? []|]. reflexivity.
  - cbn [concat] in Hfit, Hk. apply Forall_app in Hfit as [Hfc Hfcs].
    rewrite map_app in Hk. apply NoDup_app in Hk as (Hkc & Hdis & Hkcs).
    destruct (upsert_metrics_rows_spec c tbl Hfc Hkc Hnd) as (tbl1 & Hrun & Hnd1 & Hin1 & Hout1).
    assert (match c with [] => Ok tbl | _ => metrics_statement c tbl end = Ok tbl1) as Hstep.
    { destruct c as [|n c']; [cbn in Hrun; exact Hrun|].
      unfold metrics_statement. rewrite (distinct_rolls_spec _ Hkc). exact Hrun. }
    cbn [for_each concat]. rewrite Hstep. cbn [mbind res_bind].
    destruct (IH tbl1 Hfcs Hkcs Hnd1) as (tbl' & -> & Hnd' & Hin & Hout).
    exists tbl'. split; [reflexivity|]. split; [exact Hnd'|]. split.
    + intros result Hr. apply in_app_or in Hr as [Hr | Hr].
      * assert (~ In (roll_of result) (map roll_of (concat cs))) as Hn.
        { intros Hin'. apply (Hdis (roll_of result)); apply list_elem_of_In;
            [apply in_map; exact Hr | exact Hin']. }
        destruct (Hin1 _ Hr) as [He Hc]. rewrite (Hout _ Hn). split; [exact He|].
        intros k. rewrite (column_of_data _ _ _ (Hout _ Hn)). apply Hc.
      * destruct (Hin _ Hr) as [He Hc]. split; [exact He|]. intros k. rewrite Hc.
        rewrite (column_of_data tbl tbl1 (roll_of result)); [reflexivity|].
        apply Hout1. intros Hin'. apply (Hdis (roll_of result)); apply list_elem_of_In;
          [exact Hin' | apply in_map; exact Hr].
    + intros r Hne. rewrite map_app in Hne.
      rewrite Hout by (intros Hr; apply Hne, in_or_app; right; exact Hr).
      apply Hout1. intros Hr. apply Hne, in_or_app. left. exact Hr.
Qed.



End MetricsFacts.

(** ** The submission history *)

Module HistoryFacts.
Import Py Cal Deriver Sync Notions CalFacts DeriverFacts.

Lemma dict_set_keys {V} (d : list (string * V)) (k : string) (v : V) :
  map fst (dict_set d k v) = (if decide (k ∈ map fst d) then map fst d else map fst d ++ [k]).
Proof.
  induction d as [|[k0 v0] d IH]; cbn [dict_set map fst].
  - destruct (decide (k ∈ [])) as [H|]; [inversion H | reflexivity].
  - destruct (String.eqb_spec k0 k) as [->|Hne]; cbn [map fst].
    + destruct (decide (k ∈ k :: map fst d)) as [|Hn]; [reflexivity|].
      exfalso. apply Hn. left.
    + rewrite IH. destruct (decide (k ∈ map fst d)) as [Hin|Hn].
      * destruct (decide (k ∈ k0 :: map fst d)) as [|Hn']; [reflexivity|].
        exfalso. apply Hn'. right. exact Hin.
      * destruct (decide (k ∈ k0 :: map fst d)) as [Hin|]; [|reflexivity].
        apply list_elem_of_In in Hin. destruct Hin as [|Hin]; [congruence|].
        exfalso. apply Hn, list_elem_of_In, Hin.
Qed.

Lemma json_char_digit (c : ascii) : is_digit c = true -> json_char c = String c "".
Proof.
  destruct c as [[] [] [] [] [] [] [] []]; cbn; intros H; try reflexivity; discriminate H.
Qed.

Lemma json_str_date (a b c d e f g h : ascii) :
  is_digit a = true -> is_digit b = true -> is_digit c = true -> is_digit d = true ->
  is_digit e = true -> is_digit f = true -> is_digit g = true -> is_digit h = true ->
  let s := String a (String b (String c (String d (String "-"
             (String e (String f (String "-" (String g (String h ""))))))))) in
  json_str s = String dquote (s +:+ String dquote "").
Proof.
  intros Ha Hb Hc Hd He Hf Hg Hh s. unfold json_str, s. cbn [json_chars].
  rewrite (json_char_digit a Ha), (json_char_digit b Hb), (json_char_digit c Hc),
    (json_char_digit d Hd), (json_char_digit e He), (json_char_digit f Hf),
    (json_char_digit g Hg), (json_char_digit h Hh).
  reflexivity.
Qed.

Lemma json_str_isoformat (n : Z) :
  MINORD <= n <= MAXORD -> json_str (isoformat n) = String dquote (isoformat n +:+ String dquote "").
Proof.
  intros Hn. unfold isoformat.
  pose proof (ord2ymd_valid n Hn) as Hv.
  destruct (ord2ymd n) as [[y m] d]. unfold valid_date in Hv.
  repeat (apply andb_prop in Hv as [Hv ?]).
  pose proof (days_in_month_le y m).
  unfold fmt4, fmt2.
  apply json_str_date; apply digit_char_spec; Z.div_mod_to_equations; lia.
Qed.

(** What the loop of the history normalisation keeps true. *)
Lemma add_history_keys (items : list (string * pyval)) :
  forall h h',
    NoDup (map fst h) ->
    Forall (fun k => exists n, MINORD <= n <= MAXORD /\ k = isoformat n) (map fst h) ->
    for_each add_history items h = Ok h' ->
    NoDup (map fst h') /\
    Forall (fun k => exists n, MINORD <= n <= MAXORD /\ k = isoformat n) (map fst h') /\
    (length h' <= length h + length items)%nat.
Proof.
  induction items as [|[k v] items IH]; intros h h' Hnd Hcan Hrun.
  - cbn in Hrun. injection Hrun as <-. split; [exact Hnd|]. split; [exact Hcan | cbn; lia].
  - cbn [for_each] in Hrun. apply bind_ok in Hrun as (h1 & Hstep & Hrun).
    assert (NoDup (map fst h1) /\
            Forall (fun k => exists n, MINORD <= n <= MAXORD /\ k = isoformat n) (map fst h1) /\
            (length h1 <= S (length h))%nat) as (Hnd1 & Hcan1 & Hlen1).
    { unfold add_history, history_key_date in Hstep.
      destruct (isdigit (strip k)); [|injection Hstep as <-; repeat split; [assumption.. | lia]].
      cbv zeta in Hstep. apply bind_ok in Hstep as (d & Hd & Hstep).
      apply bind_ok in Hstep as (c & _ & Hstep). injection Hstep as <-.
      destruct (fromtimestamp_date _) as [n|] eqn:En; [|discriminate].
      injection Hd as <-. apply fromtimestamp_date_ok in En as [_ Hn].
      rewrite dict_set_keys. destruct (decide (isoformat n ∈ map fst h)) as [Hin|Hn'].
      - split; [exact Hnd|]. split; [exact Hcan|].
        rewrite <- (length_map fst), dict_set_keys.
        destruct (decide (isoformat n ∈ map fst h)); [|contradiction].
        rewrite length_map. lia.
      - split; [|split].
        + apply NoDup_app. split; [exact Hnd|]. split; [|apply NoDup_singleton].
          intros x Hx Hx'. apply list_elem_of_singleton in Hx'. subst x.
          apply Hn', Hx.
        + apply Forall_app. split; [exact Hcan|]. constructor; [|constructor].
          exists n. split; [exact Hn | reflexivity].
        + rewrite <- (length_map fst), dict_set_keys.
          destruct (decide (isoformat n ∈ map fst h)); [contradiction|].
          rewrite length_app, length_map. cbn. lia. }
    destruct (IH h1 h' Hnd1 Hcan1 Hrun) as (H1 & H2 & H3).
    split; [exact H1|]. split; [exact H2|]. cbn [length]. lia.
Qed.

(** The submission history has one entry per day: its keys are pairwise
    distinct dates in the form YYYY-MM-DD of days of the calendar, at most
    one per entry of the submission calendar, and the text stored is the
    compact JSON object with these keys written as they are, no character
    of them escaped. *)
Theorem history_keys_canonical (sub_cal_raw : pyval) (h : list (string * Z)) :
  lc_history_of sub_cal_raw = Some h ->
  NoDup (map fst h) /\
  Forall (fun k => exists n, MINORD <= n <= MAXORD /\ k = isoformat n) (map fst h) /\
  (exists items, sub_cal_raw = PDict items /\ (length h <= length items)%nat) /\
  json_dumps h
  = "{" +:+ join "," (map (fun kv => String dquote (fst kv +:+ String dquote "") +:+ ":"
                                     +:+ str_of_Z (snd kv)) h) +:+ "}".
Proof.
  intros Hh. unfold lc_history_of in Hh.
  destruct sub_cal_raw as [| | | |l|items]; try discriminate.
  destruct items as [|kv items]; [discriminate|].
  destruct (for_each add_history (kv :: items) []) as [h0|e] eqn:Hrun; [|discriminate].
  cbn in Hh. injection Hh as <-.
  destruct (add_history_keys (kv :: items) [] h0 ltac:(constructor) ltac:(constructor) Hrun)
    as (Hnd & Hcan & Hlen).
  split; [exact Hnd|]. split; [exact Hcan|].
  split; [exists (kv :: items); split; [reflexivity | cbn [length] in *; lia]|].
  unfold json_dumps. do 3 f_equal. apply map_ext_in. intros [k c] Hin. cbn [fst snd].
  rewrite Forall_forall in Hcan.
  destruct (Hcan k) as (n & Hn & ->); [apply list_elem_of_In, in_map_iff; exists (k, c); auto|].
  rewrite (json_str_isoformat n Hn). reflexivity.
Qed.

Lemma history_keys_canonical_witness :
  lc_history_of (PDict [("1699920000", PInt 2); ("1700000000", PInt 5)])
  = Some [("2023-11-14", 5)]
  /\ json_dumps [("2023-11-14", 5)]
     = "{" +:+ String dquote ("2023-11-14" +:+ String dquote "") +:+ ":5}".
Proof.
  assert (lc_history_of (PDict [("1699920000", PInt 2); ("1700000000", PInt 5)])
          = Some [("2023-11-14", 5)]) as H by (vm_compute; reflexivity).
  split; [exact H|].
  exact (proj2 (proj2 (proj2 (history_keys_canonical _ _ H)))).
Defined.

End HistoryFacts.

